(** * Eureptilia: the PTT crawler's temporal range locator and query filters

    A shallow embedding of [crawler.py] (class [PTTCrawler]) and the
    properties of its sampling loop, range locator, dense fetch and the
    filtering stages.

    Python values are modelled as follows.
    - [int] is [Z] (arbitrary precision, no wrap-around).
    - [str] is a list of Unicode code points ([pystr]).
    - [datetime.time] and [datetime.datetime] are records of their fields;
      every value met here has microsecond 0 and no tzinfo, so comparison is
      the lexicographic one on the fields and a [timedelta] is a number of
      seconds in [Z].
    - A computation in the monad [M] carries the trace of its effects: the
      calls it made to the session and the lines it printed ([event]).
    - The PyPtt session ([self.ptt_bot]) is a record of two fallible
      functions; the interpreter's library functions that the crawler calls
      ([datetime.strptime], [int], [str.lower]) are the fields of the class
      [PyRuntime]. *)

From Stdlib Require Import ZArith Lia Ascii String.
From stdpp Require Import numbers list sorting.

Local Open Scope Z_scope.

(** ** Strings *)

Definition pystr := list N.

Module Str.

(** [s.startswith(p)] *)
Fixpoint starts_with (p s : pystr) : bool :=
  match p, s with
  | [], _ => true
  | _ :: _, [] => false
  | a :: p', b :: s' => (a =? b)%N && starts_with p' s'
  end.

(** [p in s]: [p] occurs in [s] as a contiguous run of code points. *)
Fixpoint contains (p s : pystr) : bool :=
  starts_with p s ||
  match s with
  | [] => false
  | _ :: s' => contains p s'
  end.

(** [bool(s)] for a string. *)
Definition truthy (s : pystr) : bool :=
  match s with [] => false | _ :: _ => true end.

(** [s.split(':')]; the code point of [':'] is 58. *)
Fixpoint split_colon_aux (cur : pystr) (s : pystr) : list pystr :=
  match s with
  | [] => [cur]
  | c :: s' =>
      if (c =? 58)%N then cur :: split_colon_aux [] s'
      else split_colon_aux (cur ++ [c]) s'
  end.

Definition split_colon (s : pystr) : list pystr := split_colon_aux [] s.

End Str.

(** ** Dates and times *)

Record time := mk_time { hour : Z; minute : Z; second : Z }.

Record datetime := mk_datetime {
  year : Z; month : Z; day : Z;
  dt_hour : Z; dt_minute : Z; dt_second : Z
}.

(** Lexicographic comparison of field tuples, as [datetime._cmp] does. *)
Fixpoint lex_compare (a b : list Z) : comparison :=
  match a, b with
  | [], [] => Eq
  | [], _ :: _ => Lt
  | _ :: _, [] => Gt
  | x :: a', y :: b' =>
      match x ?= y with
      | Eq => lex_compare a' b'
      | c => c
      end
  end.

Definition leb_of (c : comparison) : bool :=
  match c with Gt => false | _ => true end.

Definition ltb_of (c : comparison) : bool :=
  match c with Lt => true | _ => false end.

Module Time.

Definition fields (t : time) : list Z := [hour t; minute t; second t].

Definition compare (a b : time) : comparison :=
  lex_compare (fields a) (fields b).

(** [a <= b] and [a < b] on [datetime.time] *)
Definition leb (a b : time) : bool := leb_of (compare a b).
Definition ltb (a b : time) : bool := ltb_of (compare a b).

(** Seconds since midnight. *)
Definition secs (t : time) : Z := hour t * 3600 + minute t * 60 + second t.


End Time.

Module DateTime.

Definition fields (d : datetime) : list Z :=
  [year d; month d; day d; dt_hour d; dt_minute d; dt_second d].

Definition compare (a b : datetime) : comparison :=
  lex_compare (fields a) (fields b).

Definition leb (a b : datetime) : bool := leb_of (compare a b).
Definition ltb (a b : datetime) : bool := ltb_of (compare a b).

(** [d.time()] *)
Definition time_of (d : datetime) : time :=
  mk_time (dt_hour d) (dt_minute d) (dt_second d).

(** The proleptic Gregorian ordinal, as [datetime._ymd2ord]. *)
Definition is_leap (y : Z) : bool :=
  (y mod 4 =? 0) && (negb (y mod 100 =? 0) || (y mod 400 =? 0)).

Definition days_before_year (y : Z) : Z :=
  let p := y - 1 in p * 365 + p / 4 - p / 100 + p / 400.

Definition days_before_month_table : list Z :=
  [0; 31; 59; 90; 120; 151; 181; 212; 243; 273; 304; 334].

Definition days_before_month (y m : Z) : Z :=
  nth (Z.to_nat (m - 1)) days_before_month_table 0
  + (if (2 <? m) && is_leap y then 1 else 0).

Definition toordinal (d : datetime) : Z :=
  days_before_year (year d) + days_before_month (year d) (month d) + day d.

(** [a - b] as a [timedelta], in seconds. *)
Definition sub (a b : datetime) : Z :=
  (toordinal a - toordinal b) * 86400
  + (Time.secs (time_of a) - Time.secs (time_of b)).

End DateTime.

(** ** Articles and the PyPtt session *)

(** The value under a post's ['date'] key: the key may be absent, and PyPtt
    stores [None] there for posts it could not read. *)
Inductive date_field :=
| DateAbsent
| DateNone
| DateStr (s : pystr).

(** A comment dictionary; [None] stands for an absent key. *)
Record comment := mk_comment {
  c_author : option pystr;
  c_content : option pystr
}.

(** A post dictionary as far as the crawler reads it. *)
Record article := mk_article {
  aid : pystr;
  date : date_field;
  comments : option (list comment)
}.

(** What [ptt_bot.get_post] does at an index: it raises, returns a falsy
    value ([None] or an empty dictionary) or returns a post. *)
Inductive fetch_result :=
| FetchRaises
| FetchFalsy
| FetchPost (a : article).

Inductive search_type := KEYWORD | AUTHOR.

(** [search_list]: [None] or a one-element list [[(type, value)]]. *)
Definition search_list := option (search_type * pystr).

Record Bot := mk_bot {
  (** [get_newest_index(NewIndex.BOARD, board, search_list)]; [None] when it raises *)
  get_newest_index : pystr -> search_list -> option Z;
  (** [get_post(board, index, search_list)] *)
  get_post : pystr -> Z -> search_list -> fetch_result
}.

(** Format strings passed to [datetime.strptime]. *)
Inductive format :=
| FmtPost   (** ['%a %b %d %H:%M:%S %Y'] *)
| FmtDate.  (** ['%Y-%m-%d'] *)

Class PyRuntime := {
  (** [datetime.strptime(s, fmt)]; [None] when it raises [ValueError] *)
  strptime : format -> pystr -> option datetime;
  (** [int(s)]; [None] when it raises [ValueError] *)
  py_int : pystr -> option Z;
  (** [s.lower()] *)
  py_lower : pystr -> pystr
}.

(** ** Console output, exceptions and the crawler monad *)

Inductive event :=
| CallNewestIndex (sl : search_list)
| CallGetPost (i : Z)
| PrintFetchError (i : Z)
| PrintCouldNotDetermine
| PrintFetching (lo hi : Z)
| PrintFound (n : nat)
| PrintNewest (n : Z)
| PrintSearching (s e : pystr)
| PrintSample (i : Z) (t : time)
| PrintGoneTooFar
| PrintParseFailed (d : date_field)
| PrintSamplingLimit
| PrintNotEnoughSamples
| PrintDetermined (lo hi : Z).

Inductive exn := ValueError | TypeError | IndexError | OverflowError | ApiError.

Inductive outcome (A : Type) :=
| Return (a : A)
| Raise (e : exn)
| OutOfFuel.

Arguments Return {A} a.
Arguments Raise {A} e.
Arguments OutOfFuel {A}.

(** A computation yields the trace of its effects and how it ended. *)
Definition M (A : Type) : Type := list event * outcome A.

Definition ret {A} (a : A) : M A := ([], Return a).
Definition raise {A} (e : exn) : M A := ([], Raise e).
Definition print (e : event) : M unit := ([e], Return tt).

Definition bind {A B} (m : M A) (f : A -> M B) : M B :=
  match m with
  | (l, Return a) => let '(l', r) := f a in (l ++ l', r)
  | (l, Raise e) => (l, Raise e)
  | (l, OutOfFuel) => (l, OutOfFuel)
  end.

Notation "'let*' x ':=' m 'in' k" := (bind m (fun x => k))
  (at level 10, x name, m at level 100, k at level 200).

Definition lift {A} (o : outcome A) : M A := ([], o).

(** [try: m  except Exception: h] *)
Definition catch {A} (m : M A) (h : M A) : M A :=
  match m with
  | (l, Raise _) => let '(l', r) := h in (l ++ l', r)
  | _ => m
  end.

Definition trace {A} (m : M A) : list event := fst m.
Definition result {A} (m : M A) : outcome A := snd m.

(** ** The range locator *)

(** One entry of [samples]: [(current_index, article_datetime, article_time)]. *)
Record sample := mk_sample {
  s_index : Z;
  s_datetime : datetime;
  s_time : time
}.

Section RangeLocator.

Variables target_start target_end : time.
Variable sample_interval : Z.

(** The [for ... in enumerate(samples)] loop of [find_article_range_by_time],
    started with the current [end_index]; it returns
    [(end_index, start_index)] as they stand after the loop. *)
Fixpoint scan_samples (samples : list sample) (end_index : option Z)
  : option Z * option Z :=
  match samples with
  | [] => (end_index, None)
  | s :: rest =>
      let end_index :=
        if Time.leb (s_time s) target_end && negb (bool_decide (is_Some end_index))
        then Some (s_index s + sample_interval)
        else end_index in
      if Time.leb (s_time s) target_start
      then (end_index, Some (Z.max 1 (s_index s - sample_interval)))
      else scan_samples rest end_index
  end.

(** The scan followed by the two defaults; [None] stands for the
    [IndexError] of [samples[0]] on an empty list. *)
Definition determine_range (samples : list sample) : option (Z * Z) :=
  let '(end_index, start_index) := scan_samples samples None in
  match head samples, last samples with
  | Some newest, Some oldest =>
      let end_index := default (s_index newest) end_index in
      let start_index :=
        default (Z.max 1 (s_index oldest - sample_interval)) start_index in
      Some (start_index, end_index)
  | _, _ => None
  end.

(** The tail of [find_article_range_by_time], from the check on the number
    of samples on; [None] is the tuple [(None, None)]. *)
Definition locate (samples : list sample) : M (option (Z * Z)) :=
  if (length samples <? 2)%nat
  then let* _ := print PrintNotEnoughSamples in ret None
  else
    match determine_range samples with
    | Some (start_index, end_index) =>
        let* _ := print (PrintDetermined start_index end_index) in
        ret (Some (start_index, end_index))
    | None => raise IndexError
    end.

End RangeLocator.

(** ** The crawler *)

(** [range(a, b)] and [range(a, b, -1)] *)
Definition py_range (a b : Z) : list Z := seqZ a (b - a).
Definition py_range_down (a b : Z) : list Z := reverse (seqZ (b + 1) (a - b)).

(** [bool(s)] for an [Optional[str]] argument. *)
Definition truthy_opt (s : option pystr) : bool :=
  match s with Some s => Str.truthy s | None => false end.

(** [article.get('date', '')]; [None] is the Python value [None]. *)
Definition date_str (d : date_field) : option pystr :=
  match d with
  | DateAbsent => Some []
  | DateNone => None
  | DateStr s => Some s
  end.

Inductive flow := Continue | Break.

Section Crawler.

Context `{PyRuntime}.
Variable ptt_bot : Bot.

Definition call_newest_index (board : pystr) (sl : search_list) : M Z :=
  ([CallNewestIndex sl],
   match get_newest_index ptt_bot board sl with
   | Some n => Return n
   | None => Raise ApiError
   end).

(** A call of [get_post] inside a [try] block: the exception, if any, is
    part of the value. *)
Definition fetch (board : pystr) (i : Z) (sl : search_list) : M fetch_result :=
  ([CallGetPost i], Return (get_post ptt_bot board i sl)).

(** [h, m = map(int, s.split(':'))] *)
Definition parse_hhmm (s : pystr) : M (Z * Z) :=
  match Str.split_colon s with
  | [a; b] =>
      match py_int a, py_int b with
      | Some h, Some m => ret (h, m)
      | _, _ => raise ValueError
      end
  | _ => raise ValueError
  end.

(** Whether an [int] fits a C [int]. *)
Definition fits_c_int (z : Z) : bool := (-2147483648 <=? z) && (z <=? 2147483647).

(** [time(h, m)]: [datetime.time] first converts its arguments to C [int]s,
    with [OverflowError] for one that does not fit, and then checks the
    ranges, with [ValueError]. *)
Definition make_time (hm : Z * Z) : M time :=
  let '(h, m) := hm in
  if fits_c_int h && fits_c_int m
  then
    if (0 <=? h) && (h <? 24) && (0 <=? m) && (m <? 60)
    then ret (mk_time h m 0)
    else raise ValueError
  else raise OverflowError.

(** The loop of the dense fetch, [for i in range(...)], over the indices
    still to visit; posts are collected in the order visited. *)
Fixpoint fetch_all (board : pystr) (sl : search_list) (indices : list Z)
  : M (list article) :=
  match indices with
  | [] => ret []
  | i :: rest =>
      let* r := fetch board i sl in
      let* here :=
        match r with
        | FetchPost a => ret [a]
        | FetchFalsy => ret []
        | FetchRaises => let* _ := print (PrintFetchError i) in ret []
        end in
      let* more := fetch_all board sl rest in
      ret (here ++ more)
  end.

(** *** Sampling *)

(** The test guarding the [break] of the sampling loop, on [samples] as it
    is after the append. Both [datetime.combine] calls use today's date,
    which cancels in [time_delta]. *)
Definition early_stop (target_start : time) (samples : list sample) : bool :=
  (2 <=? length samples)%nat &&
  match samples !! (length samples - 2)%nat, last samples with
  | Some previous, Some latest =>
      let time_diff := DateTime.sub (s_datetime previous) (s_datetime latest) in
      Time.ltb (s_time latest) target_start &&
      (let tolerance := Z.max 600 (Z.abs time_diff) in
       let time_delta := Time.secs target_start - Time.secs (s_time latest) in
       tolerance * 2 <? Z.abs time_delta)
  | _, _ => false
  end.

Section Sampling.

Variable board : pystr.
Variable sl : search_list.
Variable target_start : time.
Variable sample_interval : Z.

(** The [try] block of one iteration at [current_index]. *)
Definition sample_body (current_index : Z) (samples : list sample)
  : M (list sample * flow) :=
  let* r := fetch board current_index sl in
  match r with
  | FetchRaises =>
      let* _ := print (PrintFetchError current_index) in
      ret (samples, Continue)
  | FetchFalsy => ret (samples, Continue)
  | FetchPost a =>
      match date_str (date a) with
      | None =>
          (* strptime(None, ...) raises TypeError: the outer handler *)
          let* _ := print (PrintFetchError current_index) in
          ret (samples, Continue)
      | Some s =>
          match strptime FmtPost s with
          | None =>
              let* _ := print (PrintParseFailed (date a)) in
              ret (samples, Continue)
          | Some article_datetime =>
              let article_time := DateTime.time_of article_datetime in
              let samples :=
                samples ++ [mk_sample current_index article_datetime article_time] in
              let* _ := print (PrintSample current_index article_time) in
              if early_stop target_start samples
              then let* _ := print PrintGoneTooFar in ret (samples, Break)
              else ret (samples, Continue)
          end
      end
  end.

(** [while current_index > 0: ...]; the result is the state
    [(current_index, samples)] the loop leaves. *)
Fixpoint sample_loop (fuel : nat) (current_index : Z) (samples : list sample)
  : M (Z * list sample) :=
  if 0 <? current_index then
    match fuel with
    | O => lift OutOfFuel
    | S fuel =>
        let* r := sample_body current_index samples in
        let '(samples, fl) := r in
        match fl with
        | Break => ret (current_index, samples)
        | Continue =>
            let current_index := current_index - sample_interval in
            if (1000 <=? length samples)%nat
            then let* _ := print PrintSamplingLimit in
                 ret (current_index, samples)
            else sample_loop fuel current_index samples
        end
    end
  else ret (current_index, samples).

End Sampling.

Definition find_article_range_by_time (fuel : nat) (board start_time end_time : pystr)
    (sl : search_list) (sample_interval : Z) : M (option (Z * Z)) :=
  let* start_hm := parse_hhmm start_time in
  let* end_hm := parse_hhmm end_time in
  let* target_start := make_time start_hm in
  let* target_end := make_time end_hm in
  let* newest_index := call_newest_index board sl in
  let* _ := print (PrintNewest newest_index) in
  let* _ := print (PrintSearching start_time end_time) in
  let* st := sample_loop board sl target_start sample_interval fuel newest_index [] in
  locate target_start target_end sample_interval (snd st).

(** *** Filtering by time of day *)

(** The body of the filtering loop of [_get_articles_by_time_range]:
    whether [article] is appended. *)
Definition in_time_range (start_time_obj end_time_obj : time) (a : article) : bool :=
  match date a with
  | DateAbsent | DateNone => false
  | DateStr s =>
      if Str.truthy s then
        match strptime FmtPost s with
        | Some article_datetime =>
            let article_time := DateTime.time_of article_datetime in
            Time.leb start_time_obj article_time && Time.leb article_time end_time_obj
        | None => false
        end
      else false
  end.

Fixpoint filter_by_time (start_time_obj end_time_obj : time) (all_articles : list article)
  : list article :=
  match all_articles with
  | [] => []
  | a :: rest =>
      if in_time_range start_time_obj end_time_obj a
      then a :: filter_by_time start_time_obj end_time_obj rest
      else filter_by_time start_time_obj end_time_obj rest
  end.

(** The default [sample_interval] of [find_article_range_by_time]. *)
Definition default_sample_interval : Z := 100.

Definition _get_articles_by_time_range (fuel : nat) (board start_time end_time : pystr)
    (sl : search_list) : M (list article) :=
  let* range :=
    find_article_range_by_time fuel board start_time end_time sl
      default_sample_interval in
  match range with
  | None =>
      let* _ := print PrintCouldNotDetermine in
      ret []
  | Some (start_index, end_index) =>
      let* _ := print (PrintFetching start_index end_index) in
      let* all_articles :=
        fetch_all board sl (py_range start_index (end_index + 1)) in
      let* start_hm := parse_hhmm start_time in
      let* end_hm := parse_hhmm end_time in
      let* start_time_obj := make_time start_hm in
      let* end_time_obj := make_time end_hm in
      let filtered_articles :=
        filter_by_time start_time_obj end_time_obj all_articles in
      let* _ := print (PrintFound (length filtered_articles)) in
      ret filtered_articles
  end.

(** *** Count-based queries *)

(** The count-based tail shared by [get_articles], [search_by_title] and
    [search_by_author]. *)
Definition fetch_newest (board : pystr) (sl : search_list) (newest_index count : Z)
  : M (list article) :=
  let start_index := Z.max 1 (newest_index - count + 1) in
  fetch_all board sl (py_range start_index (newest_index + 1)).

Definition get_articles (fuel : nat) (board : pystr) (count : Z)
    (start_time end_time : option pystr) : M (list article) :=
  if truthy_opt start_time && truthy_opt end_time
  then _get_articles_by_time_range fuel board
         (default [] start_time) (default [] end_time) None
  else
    let* newest_index := call_newest_index board None in
    fetch_newest board None newest_index count.

(** [search_by_title] and [search_by_author] differ in the search type only. *)
Definition search_by (ty : search_type) (fuel : nat) (board key : pystr) (count : Z)
    (start_time end_time : option pystr) : M (list article) :=
  let sl := Some (ty, key) in
  if truthy_opt start_time && truthy_opt end_time
  then _get_articles_by_time_range fuel board
         (default [] start_time) (default [] end_time) sl
  else
    let* newest :=
      catch
        (let* newest_index := call_newest_index board sl in
         ret (Some newest_index))
        (ret None) in
    match newest with
    | None => ret []
    | Some newest_index => fetch_newest board sl newest_index count
    end.

Definition search_by_title := search_by KEYWORD.
Definition search_by_author := search_by AUTHOR.

(** *** Comment filters *)

(** The inner [for comment in comments] loop with its [break]: whether the
    article is appended, and how many comments the loop looked at. *)
Fixpoint scan_comments (test : comment -> bool) (comments : list comment)
  : bool * nat :=
  match comments with
  | [] => (false, 0%nat)
  | c :: rest =>
      if test c then (true, 1%nat)
      else let '(found, n) := scan_comments test rest in (found, S n)
  end.

(** The outer [for article in all_articles] loop. *)
Fixpoint filter_by_comments (test : comment -> bool) (all_articles : list article)
  : list article :=
  match all_articles with
  | [] => []
  | a :: rest =>
      if fst (scan_comments test (default [] (comments a)))
      then a :: filter_by_comments test rest
      else filter_by_comments test rest
  end.

(** [keyword.lower() in comment.get('content', '').lower()] *)
Definition content_matches (keyword : pystr) (c : comment) : bool :=
  Str.contains (py_lower keyword) (py_lower (default [] (c_content c))).

(** [comment.get('author', '').lower() == author.lower()] *)
Definition author_matches (author : pystr) (c : comment) : bool :=
  bool_decide (py_lower (default [] (c_author c)) = py_lower author).

Definition search_by_comment_content (fuel : nat) (board keyword : pystr) (count : Z)
    (start_time end_time : option pystr) : M (list article) :=
  let* all_articles := get_articles fuel board count start_time end_time in
  ret (filter_by_comments (content_matches keyword) all_articles).

Definition search_comments_by_author (fuel : nat) (board author : pystr)
    (start_time end_time : option pystr) (count : Z) : M (list article) :=
  let* all_articles := get_articles fuel board count start_time end_time in
  ret (filter_by_comments (author_matches author) all_articles).

(** *** Calendar date range *)

(** The loop of [get_articles_by_date_range] over the indices still to
    visit. *)
Fixpoint date_scan (board : pystr) (start end_ : datetime) (indices : list Z)
  : M (list article) :=
  match indices with
  | [] => ret []
  | i :: rest =>
      let* r := fetch board i None in
      match r with
      | FetchRaises =>
          let* _ := print (PrintFetchError i) in
          date_scan board start end_ rest
      | FetchFalsy => date_scan board start end_ rest
      | FetchPost a =>
          match date_str (date a) with
          | None =>
              (* strptime(None, ...) raises TypeError: the outer handler *)
              let* _ := print (PrintFetchError i) in
              date_scan board start end_ rest
          | Some s =>
              match strptime FmtPost s with
              | None => date_scan board start end_ rest
              | Some article_date =>
                  if DateTime.leb start article_date && DateTime.leb article_date end_
                  then
                    let* more := date_scan board start end_ rest in
                    ret (a :: more)
                  else if DateTime.ltb article_date start
                  then ret []
                  else date_scan board start end_ rest
              end
          end
      end
  end.

(** [datetime.strptime(s, '%Y-%m-%d')] *)
Definition parse_date (s : pystr) : M datetime :=
  match strptime FmtDate s with
  | Some d => ret d
  | None => raise ValueError
  end.

Definition get_articles_by_date_range (board start_date end_date : pystr)
  : M (list article) :=
  let* start := parse_date start_date in
  let* end_ := parse_date end_date in
  let* newest_index := call_newest_index board None in
  date_scan board start end_
    (py_range_down newest_index (Z.max 1 (newest_index - 1000))).

End Crawler.

(** ** What the claims are stated with *)

(** The first sample, in collection order, whose time of day is at or before
    [bound], with its position. *)
Definition first_at_or_before (bound : time) (samples : list sample)
  : option (nat * sample) :=
  list_find (λ s, Time.leb (s_time s) bound = true) samples.

(** The samples the locator's scan looks at: those up to and including the
    first one at or before the window's start. *)
Definition scanned (window_start : time) (samples : list sample) : list sample :=
  match first_at_or_before window_start samples with
  | Some (i, _) => take (S i) samples
  | None => samples
  end.

Global Arguments first_at_or_before : simpl never.
Global Arguments scanned : simpl never.

(** The bounds as the specification words them. *)
Definition spec_high (window_end : time) (stride : Z) (seen samples : list sample)
  : option Z :=
  match first_at_or_before window_end seen with
  | Some (_, s) => Some (s_index s + stride)
  | None => s_index <$> head samples
  end.

Definition spec_low (window_start : time) (stride : Z) (samples : list sample)
  : option Z :=
  match first_at_or_before window_start samples with
  | Some (_, s) => Some (Z.max 1 (s_index s - stride))
  | None => (λ oldest, Z.max 1 (s_index oldest - stride)) <$> last samples
  end.

(** The indices at which a trace calls [get_post], in order. *)
Definition calls (l : list event) : list Z :=
  omap (λ e, match e with CallGetPost i => Some i | _ => None end) l.

(** The indices a walk down from [start] visits in [n] steps of [stride]. *)
Definition descent (start stride : Z) (n : nat) : list Z :=
  (λ k : nat, start - Z.of_nat k * stride) <$> seq 0 n.

Definition newer (a b : sample) : Prop := s_index b < s_index a.

(** A sample sequence as the sampling loop collects it from a board whose
    newest index is [newest]: indices within the board, strictly descending,
    each time of day that of the sample's timestamp. *)
Definition sample_sequence (newest : Z) (samples : list sample) : Prop :=
  Forall (λ s, 1 <= s_index s <= newest
               ∧ s_time s = DateTime.time_of (s_datetime s)) samples
  ∧ StronglySorted newer samples.

(** The loop invariant of the sampling loop at [current_index]. *)
Definition collected (newest current_index : Z) (samples : list sample) : Prop :=
  sample_sequence newest samples
  ∧ Forall (λ s, current_index < s_index s) samples.

(** The time of day an [HH:MM] argument denotes, when it denotes one:
    [h, m = map(int, s.split(':'))] followed by [time(h, m)]. *)
Definition time_of_text `{PyRuntime} (s : pystr) : M time :=
  let* hm := parse_hhmm s in make_time hm.





(** [p] occurs in [s] as a contiguous run of code points. *)
Definition occurs_in (p s : pystr) : Prop :=
  ∃ before after, s = before ++ p ++ after.

(** Exactly one of [start_time] and [end_time] is given (present and not
    empty). *)
Definition exactly_one (start_time end_time : option pystr) : Prop :=
  truthy_opt start_time ≠ truthy_opt end_time.

(** ** Fixtures: a runtime and boards for the scenarios *)

Module Fixtures.

(** ASCII text as a Python string. *)
Definition ascii (s : String.string) : pystr :=
  map Ascii.N_of_ascii (String.list_ascii_of_string s).

Definition at_time (h m : Z) : time := mk_time h m 0.

(** A timestamp on 4 October 2025. *)
Definition oct4 (h m s : Z) : datetime := mk_datetime 2025 10 4 h m s.

Definition sample_at (i h m : Z) : sample :=
  mk_sample i (oct4 h m 0) (at_time h m).

(** The sample sequence of the specification's locator scenario. *)
Definition scenario_samples : list sample :=
  [sample_at 1000 15 0; sample_at 900 14 30; sample_at 800 13 50; sample_at 700 13 0].

(** [int] on a non-empty string of ASCII digits. *)
Definition digit (c : N) : option Z :=
  if ((48 <=? c) && (c <=? 57))%N then Some (Z.of_N c - 48) else None.

Fixpoint decimal_aux (acc : Z) (s : pystr) : option Z :=
  match s with
  | [] => Some acc
  | c :: s' =>
      match digit c with
      | Some d => decimal_aux (acc * 10 + d) s'
      | None => None
      end
  end.

Definition decimal (s : pystr) : option Z :=
  match s with [] => None | _ :: _ => decimal_aux 0 s end.

(** [lower] on text whose only cased letters are ASCII. *)
Definition ascii_lower (s : pystr) : pystr :=
  map (λ c, if ((65 <=? c) && (c <=? 90))%N then (c + 32)%N else c) s.

(** The timestamps of the fixtures, with what [strptime] returns on them;
    any other text is taken not to parse. *)
Definition timestamps : list (format * pystr * datetime) :=
  [ (FmtPost, ascii "Sat Oct  4 13:30:00 2025", oct4 13 30 0);
    (FmtPost, ascii "Sat Oct  4 13:05:00 2025", oct4 13 5 0);
    (FmtPost, ascii "Sat Oct  4 12:30:00 2025", oct4 12 30 0);
    (FmtPost, ascii "Sat Oct  4 12:00:00 2025", oct4 12 0 0);
    (FmtPost, ascii "Fri Oct  3 10:00:00 2025", mk_datetime 2025 10 3 10 0 0);
    (FmtPost, ascii "Fri Oct  3 00:00:00 2025", mk_datetime 2025 10 3 0 0 0);
    (FmtPost, ascii "Thu Oct  2 09:15:00 2025", mk_datetime 2025 10 2 9 15 0);
    (FmtPost, ascii "Tue Sep 30 23:59:59 2025", mk_datetime 2025 9 30 23 59 59);
    (FmtPost, ascii "Mon Sep 29 08:00:00 2025", mk_datetime 2025 9 29 8 0 0);
    (FmtDate, ascii "2025-10-01", mk_datetime 2025 10 1 0 0 0);
    (FmtDate, ascii "2025-10-03", mk_datetime 2025 10 3 0 0 0) ].

Definition format_eqb (a b : format) : bool :=
  match a, b with
  | FmtPost, FmtPost | FmtDate, FmtDate => true
  | _, _ => false
  end.

Fixpoint lookup_timestamp (table : list (format * pystr * datetime))
    (fmt : format) (s : pystr) : option datetime :=
  match table with
  | [] => None
  | (f, t, d) :: rest =>
      if format_eqb f fmt && bool_decide (t = s) then Some d
      else lookup_timestamp rest fmt s
  end.

Definition runtime : PyRuntime :=
  {| strptime := lookup_timestamp timestamps;
     py_int := decimal;
     py_lower := ascii_lower |}.

(** A post with a timestamp and no comments. *)
Definition post (name date_text : String.string) : article :=
  mk_article (ascii name) (DateStr (ascii date_text)) (Some []).

(** A board given by its readable posts; every other index is a deleted
    post. *)
Fixpoint post_at (posts : list (Z * fetch_result)) (i : Z) : fetch_result :=
  match posts with
  | [] => FetchFalsy
  | (j, r) :: rest => if i =? j then r else post_at rest i
  end.

(** [get_post] raises outside the board. *)
Definition board_of (newest : Z) (posts : list (Z * fetch_result)) : Bot :=
  {| get_newest_index := λ _ _, Some newest;
     get_post := λ _ i _,
       if (1 <=? i) && (i <=? newest) then post_at posts i else FetchRaises |}.

(** A board of 1000 posts whose newest post is inside the window 13:00-14:00. *)
Definition afternoon_board : Bot :=
  board_of 1000
    [ (1000, FetchPost (post "M.1000" "Sat Oct  4 13:30:00 2025"));
      (900, FetchPost (post "M.900" "Sat Oct  4 12:00:00 2025")) ].

(** A board of 1000 posts sampled at 13:05 and, a stride further down, at
    12:30. *)
Definition midday_board : Bot :=
  board_of 1000
    [ (1000, FetchPost (post "M.1000" "Sat Oct  4 13:05:00 2025"));
      (900, FetchPost (post "M.900" "Sat Oct  4 12:30:00 2025")) ].

(** A board of 50 posts, all deleted. *)
Definition small_board : Bot := board_of 50 [].

Definition gossiping : pystr := ascii "Gossiping".
Definition one_pm : pystr := ascii "13:00".
Definition two_pm : pystr := ascii "14:00".

Definition sample_1305 : sample := sample_at 1000 13 5.
Definition sample_1230 : sample := sample_at 900 12 30.

(** What the second probe of the midday board does. *)
Definition midday_second_probe : list event :=
  [CallGetPost 900; PrintSample 900 (at_time 12 30); PrintGoneTooFar].

(** A board of six posts around the first days of October 2025; index 6 is
    the newest and index 1 is a deleted post. *)
Definition friday_morning : article := post "M.6" "Fri Oct  3 10:00:00 2025".
Definition friday_midnight : article := post "M.5" "Fri Oct  3 00:00:00 2025".
Definition thursday : article := post "M.4" "Thu Oct  2 09:15:00 2025".
Definition tuesday : article := post "M.3" "Tue Sep 30 23:59:59 2025".
Definition monday : article := post "M.2" "Mon Sep 29 08:00:00 2025".

Definition october_board : Bot :=
  board_of 6
    [ (6, FetchPost friday_morning); (5, FetchPost friday_midnight);
      (4, FetchPost thursday); (3, FetchPost tuesday); (2, FetchPost monday) ].

(** The keyword U+63A8 and two posts: one with the comment
    U+597D U+6587 U+63A8, one with the comment U+7121 U+95DC. *)
Definition keyword_push : pystr := [25512%N].

Definition praised : article :=
  mk_article (ascii "M.7") DateAbsent
    (Some [mk_comment (Some (ascii "alice")) (Some [22909%N; 25991%N; 25512%N])]).

Definition unrelated : article :=
  mk_article (ascii "M.8") DateAbsent
    (Some [mk_comment (Some (ascii "bob")) (Some [28961%N; 38364%N])]).

(** Three fetched posts: 13:30, 12:00 and one without a date. *)
Definition fetched_posts : list article :=
  [ post "M.1000" "Sat Oct  4 13:30:00 2025";
    post "M.900" "Sat Oct  4 12:00:00 2025";
    praised ].

End Fixtures.

(** ** Further functions *)

Section FurtherFunctions.

Context `{PyRuntime}.
Variable ptt_bot : Bot.

(** [PTTCrawler.get_article_by_index]; the result [None] is a falsy return
    value ([None] itself or an empty dictionary). *)
Definition get_article_by_index (board : pystr) (index : Z) : M (option article) :=
  let* r := fetch ptt_bot board index None in
  match r with
  | FetchPost a => ret (Some a)
  | FetchFalsy => ret None
  | FetchRaises =>
      let* _ := print (PrintFetchError index) in
      ret None
  end.

(** [get_board_articles] of [main.py]. *)
Definition get_board_articles (board : pystr) (num_articles : Z) : M (list article) :=
  let* newest_index := call_newest_index ptt_bot board None in
  let* _ := print (PrintNewest newest_index) in
  fetch_newest ptt_bot board None newest_index num_articles.

(** *** What the further properties are stated with *)

(** The post the session returns at an index, if it returns one. *)
Definition post_at_index (board : pystr) (sl : search_list) (i : Z) : option article :=
  match get_post ptt_bot board i sl with
  | FetchPost a => Some a
  | _ => None
  end.

(** Whether [get_post] raises at an index. *)
Definition raises_at (board : pystr) (sl : search_list) (i : Z) : bool :=
  match get_post ptt_bot board i sl with
  | FetchRaises => true
  | _ => false
  end.

(** The timestamp a post's date parses to, if it parses. *)
Definition parsed_date (a : article) : option datetime :=
  match date_str (date a) with
  | Some s => strptime FmtPost s
  | None => None
  end.

(** The sample a probe at an index yields: the post there must exist and its
    date must parse. *)
Definition probe (board : pystr) (sl : search_list) (i : Z) : option sample :=
  match post_at_index board sl i with
  | Some a =>
      match parsed_date a with
      | Some dt => Some (mk_sample i dt (DateTime.time_of dt))
      | None => None
      end
  | None => None
  end.

(** The post at an index is dated before [start]. *)
Definition older_post (board : pystr) (start : datetime) (i : Z) : bool :=
  match post_at_index board None i with
  | Some a =>
      match parsed_date a with
      | Some d => DateTime.ltb d start
      | None => false
      end
  | None => false
  end.

(** The post at an index, when it is dated within [start, end_]. *)
Definition post_in_window (board : pystr) (start end_ : datetime) (i : Z)
  : option article :=
  match post_at_index board None i with
  | Some a =>
      match parsed_date a with
      | Some d =>
          if DateTime.leb start d && DateTime.leb d end_ then Some a else None
      | None => None
      end
  | None => None
  end.

(** The indices up to and including the first one whose post is dated before
    [start]. *)
Definition up_to_older (board : pystr) (start : datetime) (indices : list Z) : list Z :=
  match list_find (λ i, older_post board start i = true) indices with
  | Some (k, _) => take (S k) indices
  | None => indices
  end.

End FurtherFunctions.

(** The indices for which a trace prints a fetch error, in order. *)
Definition fetch_errors (l : list event) : list Z :=
  omap (λ e, match e with PrintFetchError i => Some i | _ => None end) l.

(** Times of day that do not increase along the sample sequence. *)
Definition times_descend (samples : list sample) : Prop :=
  StronglySorted (λ a b, Time.leb (s_time b) (s_time a) = true) samples.

(** ** The task runner *)

(** A task of the configuration file, for the task types [run_task] knows:
    the keys hold values of the types the crawler's methods are annotated
    with, [None] stands for an absent key ([count] then takes the default
    of its task type), and [UnknownTask] is any other ['type']. *)
Inductive task_kind :=
| GetArticles (board : pystr) (count : option Z) (start_time end_time : option pystr)
| SearchTitle (board keyword : pystr) (count : option Z)
    (start_time end_time : option pystr)
| SearchAuthor (board author : pystr) (count : option Z)
    (start_time end_time : option pystr)
| SearchComment (board keyword : pystr) (count : option Z)
    (start_time end_time : option pystr)
| SearchCommentsByAuthor (board author : pystr) (start_time end_time : option pystr)
    (count : option Z)
| GetArticle (board : pystr) (index : Z)
| GetArticlesByDate (board start_date end_date : pystr)
| UnknownTask.

Record task := mk_task {
  kind : task_kind;
  output : option pystr
}.

(** The value under ['delay_between_requests'] as [time.sleep] takes it: a
    duration it accepts, or a value it rejects with an exception (a
    negative number, something that is no number). *)
Inductive delay :=
| Accepted
| Rejected (e : exn).

(** What the runner does beyond the crawler's own effects. *)
Inductive runner_event :=
| Crawler (e : event)
| PrintBlankRule                 (** a blank line and a rule of 60 ['='] *)
| PrintRule                      (** a rule of 60 ['='] *)
| PrintTaskType (k : task_kind)
| PrintTimeRange (start_time end_time : pystr)
| PrintSearchingKeyword (keyword : pystr)
| PrintSearchingAuthor (author : pystr)
| PrintSearchingComments (keyword : pystr)
| PrintCommentedInWindow (author start_time end_time : pystr)
| PrintCommented (author : pystr)
| PrintDateRange (start_date end_date : pystr)
| PrintUnknownTask
| PrintFoundResults (n : nat)
| WriteJson (file : pystr) (data : list article)
| PrintSaved (n : nat) (file : pystr)
| Sleep
| PrintTaskFailed
| PrintTraceback
| PrintAllCompleted (n : nat).

Inductive runner_exn :=
| PyError (e : exn)
| FileError.

Inductive runner_outcome (A : Type) :=
| Done (a : A)
| Failed (e : runner_exn)
| Diverged.

Arguments Done {A} a.
Arguments Failed {A} e.
Arguments Diverged {A}.

Definition RM (A : Type) : Type := list runner_event * runner_outcome A.

Module Runner.

Definition ret {A} (a : A) : RM A := ([], Done a).
Definition print (e : runner_event) : RM unit := ([e], Done tt).

Definition bind {A B} (m : RM A) (f : A → RM B) : RM B :=
  match m with
  | (l, Done a) => let '(l', r) := f a in (l ++ l', r)
  | (l, Failed e) => (l, Failed e)
  | (l, Diverged) => (l, Diverged)
  end.

(** A call into the crawler. *)
Definition crawl {A} (m : M A) : RM A :=
  (Crawler <$> fst m,
   match snd m with
   | Return a => Done a
   | Raise e => Failed (PyError e)
   | OutOfFuel => Diverged
   end).

(** [try: m  except Exception: h] *)
Definition catch {A} (m : RM A) (h : RM A) : RM A :=
  match m with
  | (l, Failed _) => let '(l', r) := h in (l ++ l', r)
  | _ => m
  end.

End Runner.

Notation "'run*' x ':=' m 'in' k" := (Runner.bind m (fun x => k))
  (at level 10, x name, m at level 100, k at level 200).

Section TaskRunner.

Context `{PyRuntime}.
Variable ptt_bot : Bot.

(** Whether [open(file, 'w')] succeeds. *)
Variable writable : pystr → bool.

(** [PTTCrawler.save_to_json] *)
Definition save_to_json (data : list article) (output_file : pystr) : RM unit :=
  if writable output_file
  then run* _ := Runner.print (WriteJson output_file data) in
       Runner.print (PrintSaved (length data) output_file)
  else ([], Failed FileError).

(** The branch of [run_task] for a task type; [None] is the [return] of the
    unknown type. *)
Definition task_results (fuel : nat) (k : task_kind) : RM (option (list article)) :=
  let windowed (st et : option pystr) := truthy_opt st && truthy_opt et in
  match k with
  | GetArticles board count st et =>
      let count := default 10 count in
      if windowed st et
      then run* _ := Runner.print (PrintTimeRange (default [] st) (default [] et)) in
           run* r := Runner.crawl (get_articles ptt_bot fuel board count st et) in
           Runner.ret (Some r)
      else run* r := Runner.crawl (get_articles ptt_bot fuel board count None None) in
           Runner.ret (Some r)
  | SearchTitle board keyword count st et =>
      let count := default 10 count in
      run* _ := Runner.print (PrintSearchingKeyword keyword) in
      if windowed st et
      then run* _ := Runner.print (PrintTimeRange (default [] st) (default [] et)) in
           run* r := Runner.crawl
                       (search_by_title ptt_bot fuel board keyword count st et) in
           Runner.ret (Some r)
      else run* r := Runner.crawl
                       (search_by_title ptt_bot fuel board keyword count None None) in
           Runner.ret (Some r)
  | SearchAuthor board author count st et =>
      let count := default 10 count in
      run* _ := Runner.print (PrintSearchingAuthor author) in
      if windowed st et
      then run* _ := Runner.print (PrintTimeRange (default [] st) (default [] et)) in
           run* r := Runner.crawl
                       (search_by_author ptt_bot fuel board author count st et) in
           Runner.ret (Some r)
      else run* r := Runner.crawl
                       (search_by_author ptt_bot fuel board author count None None) in
           Runner.ret (Some r)
  | SearchComment board keyword count st et =>
      let count := default 50 count in
      run* _ := Runner.print (PrintSearchingComments keyword) in
      if windowed st et
      then run* _ := Runner.print (PrintTimeRange (default [] st) (default [] et)) in
           run* r := Runner.crawl
                       (search_by_comment_content ptt_bot fuel board keyword count
                          st et) in
           Runner.ret (Some r)
      else run* r := Runner.crawl
                       (search_by_comment_content ptt_bot fuel board keyword count
                          None None) in
           Runner.ret (Some r)
  | SearchCommentsByAuthor board author st et count =>
      let count := default 100 count in
      if windowed st et
      then run* _ := Runner.print
                       (PrintCommentedInWindow author (default [] st) (default [] et)) in
           run* r := Runner.crawl
                       (search_comments_by_author ptt_bot fuel board author st et
                          count) in
           Runner.ret (Some r)
      else run* _ := Runner.print (PrintCommented author) in
           run* r := Runner.crawl
                       (search_comments_by_author ptt_bot fuel board author None None
                          count) in
           Runner.ret (Some r)
  | GetArticle board index =>
      run* article := Runner.crawl (get_article_by_index ptt_bot board index) in
      Runner.ret (Some (option_list article))
  | GetArticlesByDate board start_date end_date =>
      run* _ := Runner.print (PrintDateRange start_date end_date) in
      run* r := Runner.crawl
                  (get_articles_by_date_range ptt_bot board start_date end_date) in
      Runner.ret (Some r)
  | UnknownTask =>
      run* _ := Runner.print PrintUnknownTask in
      Runner.ret None
  end.

(** [time.sleep(options.get('delay_between_requests', 0.5))]; [None] is an
    absent key. *)
Definition sleep_between (options : option delay) : RM unit :=
  match options with
  | None | Some Accepted => Runner.print Sleep
  | Some (Rejected e) => ([], Failed (PyError e))
  end.

(** [bool(results)] *)
Definition nonempty (results : list article) : bool :=
  match results with [] => false | _ :: _ => true end.

Definition run_task (fuel : nat) (t : task) (options : option delay) : RM unit :=
  run* _ := Runner.print PrintBlankRule in
  run* _ := Runner.print (PrintTaskType (kind t)) in
  run* _ := Runner.print PrintRule in
  run* found := task_results fuel (kind t) in
  match found with
  | None => Runner.ret tt
  | Some results =>
      run* _ := Runner.print (PrintFoundResults (length results)) in
      run* _ :=
        (if truthy_opt (output t) && nonempty results
         then save_to_json results (default [] (output t))
         else Runner.ret tt) in
      sleep_between options
  end.

(** The loop of [run_config] over the tasks still to run. *)
Fixpoint run_tasks (fuel : nat) (tasks : list task) (options : option delay) : RM unit :=
  match tasks with
  | [] => Runner.ret tt
  | t :: rest =>
      run* _ :=
        Runner.catch (run_task fuel t options)
          (run* _ := Runner.print PrintTaskFailed in
           Runner.print PrintTraceback) in
      run_tasks fuel rest options
  end.

(** [run_config], once the configuration file is read: [tasks] and
    [options] are what [config.get] returns. *)
Definition run_config (fuel : nat) (tasks : list task) (options : option delay)
  : RM unit :=
  run* _ := run_tasks fuel tasks options in
  run* _ := Runner.print PrintBlankRule in
  run* _ := Runner.print (PrintAllCompleted (length tasks)) in
  Runner.print PrintRule.

(** *** What the runner's properties are stated with *)

(** What handling one task adds to the trace of the batch. *)
Definition task_trace (fuel : nat) (options : option delay) (t : task)
  : list runner_event :=
  fst (run_task fuel t options)
  ++ match snd (run_task fuel t options) with
     | Failed _ => [PrintTaskFailed; PrintTraceback]
     | _ => []
     end.

End TaskRunner.

(** The files a trace writes, with their contents. *)
Definition written (l : list runner_event) : list (pystr * list article) :=
  omap (λ e, match e with WriteJson f d => Some (f, d) | _ => None end) l.

(** Whether [time.sleep] takes the delay of the options. *)
Definition accepts (options : option delay) : bool :=
  match options with
  | Some (Rejected _) => false
  | _ => true
  end.

(** The number of pauses in a trace. *)
Definition pauses (l : list runner_event) : nat :=
  length (omap (λ e, match e with Sleep => Some tt | _ => None end) l).

(** A computation of the runner that writes no file and does not pause. *)
Definition quiet {A} (m : RM A) : Prop :=
  written (fst m) = [] ∧ pauses (fst m) = 0%nat.

(** Further fixtures. *)
Module MoreFixtures.

(** A session that is down: every call raises. *)
Definition offline_bot : Bot :=
  {| get_newest_index := λ _ _, None;
     get_post := λ _ _ _, FetchRaises |}.

(** A post without comments and one whose only comment has no content. *)
Definition silent : article := mk_article (Fixtures.ascii "M.9") DateAbsent None.

Definition bare_comment : article :=
  mk_article (Fixtures.ascii "M.10") DateAbsent
    (Some [mk_comment (Some (Fixtures.ascii "Carol")) None]).

(** Two tasks: a windowed query whose end time is malformed, and the
    reading of post 1000 into a file. *)
Definition malformed_task : task :=
  mk_task (GetArticles Fixtures.gossiping None (Some Fixtures.one_pm)
             (Some (Fixtures.ascii "14:00:00")))
    (Some (Fixtures.ascii "window.json")).

Definition reading_task : task :=
  mk_task (GetArticle Fixtures.gossiping 1000) (Some (Fixtures.ascii "post.json")).

(** A task that finds nothing: post 999 of the afternoon board is deleted. *)
Definition empty_task : task :=
  mk_task (GetArticle Fixtures.gossiping 999) (Some (Fixtures.ascii "none.json")).

Definition any_file (file : pystr) : bool := true.

(** A board of 200000 posts, all of them deleted. *)
Definition deleted_board : Bot := Fixtures.board_of 200000 [].

(** A window text whose hour does not fit a C [int]. *)
Definition huge_hour : pystr := Fixtures.ascii "2147483648:00".

End MoreFixtures.

(** ** Order on times *)

Lemma time_leb_iff (a b : time) :
  Time.leb a b = true ↔
  hour a < hour b ∨
  (hour a = hour b ∧
   (minute a < minute b ∨ (minute a = minute b ∧ second a <= second b))).
Proof.
  unfold Time.leb, Time.compare, Time.fields; simpl.
  destruct (Z.compare_spec (hour a) (hour b));
    destruct (Z.compare_spec (minute a) (minute b));
    destruct (Z.compare_spec (second a) (second b));
    simpl; split; intros; try done; lia.
Qed.

Lemma time_ltb_iff (a b : time) :
  Time.ltb a b = true ↔
  hour a < hour b ∨
  (hour a = hour b ∧
   (minute a < minute b ∨ (minute a = minute b ∧ second a < second b))).
Proof.
  unfold Time.ltb, Time.compare, Time.fields; simpl.
  destruct (Z.compare_spec (hour a) (hour b));
    destruct (Z.compare_spec (minute a) (minute b));
    destruct (Z.compare_spec (second a) (second b));
    simpl; split; intros; try done; lia.
Qed.

Lemma time_leb_trans (a b c : time) :
  Time.leb a b = true → Time.leb b c = true → Time.leb a c = true.
Proof. rewrite !time_leb_iff. lia. Qed.

(** The ordinals of four dates and a difference across midnight, as
    [datetime] computes them. *)
Example toordinal_examples :
  DateTime.toordinal (mk_datetime 2025 10 4 0 0 0) = 739528 ∧
  DateTime.toordinal (mk_datetime 2024 3 1 0 0 0) = 738946 ∧
  DateTime.toordinal (mk_datetime 2000 12 31 0 0 0) = 730485 ∧
  DateTime.toordinal (mk_datetime 1900 3 1 0 0 0) = 693655 ∧
  DateTime.sub (mk_datetime 2025 10 5 0 10 0) (mk_datetime 2025 10 4 23 50 0) = 1200.
Proof. by vm_compute. Qed.

(** ** The range locator's scan *)

Section LocatorFacts.

Variables ws we : time.
Variable stride : Z.

Lemma first_at_or_before_cons bound s l :
  first_at_or_before bound (s :: l) =
  if Time.leb (s_time s) bound then Some (0%nat, s)
  else prod_map S id <$> first_at_or_before bound l.
Proof.
  unfold first_at_or_before; simpl.
  destruct (Time.leb (s_time s) bound); by case_decide.
Qed.

Lemma scanned_cons s l :
  scanned ws (s :: l) =
  if Time.leb (s_time s) ws then [s] else s :: scanned ws l.
Proof.
  unfold scanned. rewrite first_at_or_before_cons.
  destruct (Time.leb (s_time s) ws); [simpl; by rewrite take_0|].
  destruct (first_at_or_before ws l) as [[i x]|]; done.
Qed.

(** The loop with its flag and [break], against "the first sample at or
    before": the upper bound is sought among the scanned samples only. *)
Lemma scan_samples_first samples end_index :
  scan_samples ws we stride samples end_index =
  (match end_index with
   | Some e => Some e
   | None => (λ p, s_index (snd p) + stride) <$> first_at_or_before we (scanned ws samples)
   end,
   (λ p, Z.max 1 (s_index (snd p) - stride)) <$> first_at_or_before ws samples).
Proof.
  revert end_index. induction samples as [|s l IH]; intros e.
  - by destruct e.
  - rewrite scanned_cons, (first_at_or_before_cons ws). simpl.
    destruct (Time.leb (s_time s) ws) eqn:Hws.
    + rewrite first_at_or_before_cons.
      destruct e as [e|]; simpl; [by rewrite andb_false_r|].
      rewrite andb_true_r. by destruct (Time.leb (s_time s) we).
    + rewrite IH, first_at_or_before_cons.
      destruct e as [e|]; simpl.
      * rewrite andb_false_r.
        by destruct (first_at_or_before ws l) as [[??]|].
      * rewrite andb_true_r.
        destruct (Time.leb (s_time s) we); simpl;
          destruct (first_at_or_before we (scanned ws l)) as [[??]|];
          destruct (first_at_or_before ws l) as [[??]|]; done.
Qed.

(** The scan ends at the first sample at or before the window's start:
    what follows that sample has no part in the result. *)
Lemma scan_samples_cut samples i s later end_index :
  first_at_or_before ws samples = Some (i, s) →
  scan_samples ws we stride (take (S i) samples ++ later) end_index
  = scan_samples ws we stride samples end_index.
Proof.
  revert i end_index. induction samples as [|x l IH]; intros i e; [done|].
  rewrite first_at_or_before_cons.
  destruct (Time.leb (s_time x) ws) eqn:Hx.
  - intros [= <- <-]. simpl. by rewrite Hx.
  - destruct (first_at_or_before ws l) as [[j y]|] eqn:Hl; [|done].
    intros [= <- <-]. simpl. rewrite Hx. by apply IH.
Qed.

(** With the window's start at or before its end, cutting the scan at the
    first sample at or before the start hides no candidate for the end. *)
Lemma first_in_scanned samples :
  Time.leb ws we = true →
  snd <$> first_at_or_before we (scanned ws samples)
  = snd <$> first_at_or_before we samples.
Proof.
  intros Hw. induction samples as [|s l IH]; [done|].
  rewrite scanned_cons. destruct (Time.leb (s_time s) ws) eqn:Hws.
  - rewrite !first_at_or_before_cons.
    by rewrite (time_leb_trans _ _ _ Hws Hw).
  - rewrite !first_at_or_before_cons.
    destruct (Time.leb (s_time s) we); [done|].
    destruct (first_at_or_before we (scanned ws l)) as [[i x]|],
      (first_at_or_before we l) as [[j y]|]; simpl in *; congruence.
Qed.

Lemma determine_range_spec samples newest oldest :
  head samples = Some newest → last samples = Some oldest →
  determine_range ws we stride samples =
  Some (default (Z.max 1 (s_index oldest - stride))
          ((λ p, Z.max 1 (s_index (snd p) - stride)) <$> first_at_or_before ws samples),
        default (s_index newest)
          ((λ p, s_index (snd p) + stride) <$> first_at_or_before we (scanned ws samples))).
Proof.
  intros Hh Hl. unfold determine_range.
  rewrite scan_samples_first, Hh, Hl. done.
Qed.

End LocatorFacts.

Lemma two_samples_ends (samples : list sample) :
  (2 ≤ length samples)%nat →
  ∃ newest oldest, head samples = Some newest ∧ last samples = Some oldest.
Proof.
  intros Hlen. destruct samples as [|s l]; [simpl in Hlen; lia|].
  destruct (last_is_Some (s :: l)) as [_ [o Ho]]; [done|].
  by exists s, o.
Qed.

(** What [locate] returns on two samples or more. *)
Lemma locate_two_samples ws we stride samples newest oldest :
  (2 ≤ length samples)%nat →
  head samples = Some newest → last samples = Some oldest →
  result (locate ws we stride samples) =
  Return (Some
    (default (Z.max 1 (s_index oldest - stride))
       ((λ p, Z.max 1 (s_index (snd p) - stride)) <$> first_at_or_before ws samples),
     default (s_index newest)
       ((λ p, s_index (snd p) + stride) <$> first_at_or_before we (scanned ws samples)))).
Proof.
  intros Hlen Hh Hl. unfold locate.
  destruct (Nat.ltb_spec (length samples) 2) as [?|_]; [lia|].
  by rewrite (determine_range_spec _ _ _ _ _ _ Hh Hl).
Qed.

(** C1. On two samples or more the range locator returns
    high = (index of the first sample at or before the window's end) + stride,
    or the newest sampled index when there is none, and
    low = max(1, (index of the first sample at or before the window's start) - stride),
    or max(1, oldest sampled index - stride) when there is none. The scan
    ends at the first sample at or before the window's start, so the sample
    for high is sought among the samples up to that one; for a window whose
    start is at or before its end this is the first such sample of the whole
    sequence. On the samples (1000, 15:00), (900, 14:30), (800, 13:50),
    (700, 13:00) with stride 100 and window 13:00-14:00 the result is
    low = 600 and high = 900. *)
Theorem locate_bracket_first_samples :
  (∀ (ws we : time) (stride : Z) (samples : list sample),
     (2 ≤ length samples)%nat →
     ∃ low high,
       result (locate ws we stride samples) = Return (Some (low, high)) ∧
       spec_low ws stride samples = Some low ∧
       spec_high we stride (scanned ws samples) samples = Some high ∧
       (Time.leb ws we = true → spec_high we stride samples samples = Some high) ∧
       (∀ i s later,
          first_at_or_before ws samples = Some (i, s) →
          scan_samples ws we stride (take (S i) samples ++ later) None
          = scan_samples ws we stride samples None)) ∧
  result (locate (Fixtures.at_time 13 0) (Fixtures.at_time 14 0) 100
            Fixtures.scenario_samples)
  = Return (Some (600, 900)).
Proof.
  split; [|reflexivity].
  intros ws we stride samples Hlen.
  destruct (two_samples_ends samples Hlen) as (newest & oldest & Hh & Hl).
  eexists _, _. split; [by apply locate_two_samples|].
  unfold spec_low, spec_high. rewrite Hh, Hl. simpl.
  split; [by destruct (first_at_or_before ws samples) as [[??]|]|].
  split; [by destruct (first_at_or_before we (scanned ws samples)) as [[??]|]|].
  split; [|by intros i s later Hf; apply scan_samples_cut with s].
  intros Hw. pose proof (first_in_scanned ws we samples Hw) as Heq.
  destruct (first_at_or_before we (scanned ws samples)) as [[??]|],
    (first_at_or_before we samples) as [[??]|]; simpl in *; congruence.
Qed.

(** A window given back to front, 13:00 to 11:30: the scan ends at the very
    first sample (12:00, at or before 13:00) before any sample at or before
    11:30 is met, so the upper bound is the newest sampled index. *)
Example locate_window_back_to_front :
  result (locate (Fixtures.at_time 13 0) (Fixtures.at_time 11 30) 100
            [Fixtures.sample_at 1000 12 0; Fixtures.sample_at 900 11 50;
             Fixtures.sample_at 800 11 0])
  = Return (Some (900, 1000)).
Proof. reflexivity. Qed.

(** A window from 13:00 to 14:00 on four samples. *)
Lemma locate_bracket_first_samples_witness :
  (2 ≤ length Fixtures.scenario_samples)%nat ∧
  Time.leb (Fixtures.at_time 13 0) (Fixtures.at_time 14 0) = true ∧
  ∃ low high,
    result (locate (Fixtures.at_time 13 0) (Fixtures.at_time 14 0) 100
              Fixtures.scenario_samples) = Return (Some (low, high)) ∧
    spec_low (Fixtures.at_time 13 0) 100 Fixtures.scenario_samples = Some low ∧
    spec_high (Fixtures.at_time 14 0) 100
      (scanned (Fixtures.at_time 13 0) Fixtures.scenario_samples)
      Fixtures.scenario_samples = Some high ∧
    spec_high (Fixtures.at_time 14 0) 100 Fixtures.scenario_samples
      Fixtures.scenario_samples = Some high.
Proof.
  split; [simpl; lia|]. split; [reflexivity|].
  destruct (proj1 locate_bracket_first_samples
              (Fixtures.at_time 13 0) (Fixtures.at_time 14 0) 100
              Fixtures.scenario_samples) as (low & high & H1 & H2 & H3 & H4 & _);
    [simpl; lia|].
  exists low, high. repeat split; [exact H1|exact H2|exact H3|].
  apply H4. reflexivity.
Defined.

(** ** The sampling loop *)

Lemma calls_app (l1 l2 : list event) : calls (l1 ++ l2) = calls l1 ++ calls l2.
Proof. apply omap_app. Qed.

Lemma descent_S (start stride : Z) (n : nat) :
  descent start stride (S n) = start :: descent (start - stride) stride n.
Proof.
  unfold descent. simpl. f_equal; [lia|].
  rewrite <-fmap_S_seq, <-list_fmap_compose.
  apply list_fmap_ext. intros _ k _. simpl. lia.
Qed.

Lemma descent_1 (start stride : Z) : descent start stride 1 = [start].
Proof. rewrite descent_S. done. Qed.

Lemma elem_of_descent (start stride i : Z) (n : nat) :
  i ∈ descent start stride n ↔ ∃ k : nat, (k < n)%nat ∧ i = start - Z.of_nat k * stride.
Proof.
  unfold descent. rewrite list_elem_of_fmap. split.
  - intros (k & -> & Hk). apply elem_of_seq in Hk. exists k. split; [lia|done].
  - intros (k & Hk & ->). exists k. split; [done|]. apply elem_of_seq. lia.
Qed.

Local Arguments Nat.leb : simpl never.
Local Arguments Nat.ltb : simpl never.

Section SamplerFacts.

Context `{PyRuntime}.
Variable ptt_bot : Bot.
Variable board : pystr.
Variable sl : search_list.
Variable target_start : time.
Variable stride : Z.

(** One iteration calls [get_post] once, never raises, and either leaves
    [samples] alone or appends the sample taken at [current_index]; it
    breaks exactly when [early_stop] holds of the extended list. *)
Lemma sample_body_run current_index samples :
  ∃ l samples' fl,
    sample_body ptt_bot board sl target_start current_index samples = (l, Return (samples', fl)) ∧
    calls l = [current_index] ∧
    ((samples' = samples ∧ fl = Continue) ∨
     (∃ dt,
        samples' = samples ++ [mk_sample current_index dt (DateTime.time_of dt)] ∧
        fl = if early_stop target_start samples' then Break else Continue)).
Proof.
  unfold sample_body, fetch. simpl.
  destruct (get_post ptt_bot board current_index sl) as [| |a]; simpl;
    [eauto 10..|].
  destruct (date_str (date a)) as [s|]; simpl; [|eauto 10].
  destruct (strptime FmtPost s) as [dt|]; simpl; [|eauto 10].
  destruct (early_stop target_start _) eqn:Hstop; simpl;
    do 3 eexists; (split; [reflexivity|]); (split; [reflexivity|]);
    right; exists dt; rewrite Hstop; done.
Qed.

(** With a positive stride the loop returns once the fuel covers the walk
    from [current_index] down to 0; it calls [get_post] along that walk
    and nowhere else, at positive indices only. *)
Lemma sample_loop_run fuel :
  ∀ current_index samples,
    0 < stride → current_index <= Z.of_nat fuel * stride →
    ∃ l st (n : nat),
      sample_loop ptt_bot board sl target_start stride fuel current_index samples
      = (l, Return st) ∧
      calls l = descent current_index stride n ∧
      (n ≤ fuel)%nat ∧
      Forall (λ i, 0 < i) (descent current_index stride n).
Proof.
  induction fuel as [|fuel IH]; intros cur samples Hs Hfuel.
  - simpl. destruct (Z.ltb_spec 0 cur) as [?|_]; [lia|].
    by exists [], (cur, samples), 0%nat.
  - simpl. destruct (Z.ltb_spec 0 cur) as [Hpos|_].
    2: { exists [], (cur, samples), 0%nat. split_and!; [done|done|lia|constructor]. }
    destruct (sample_body_run cur samples) as (l & samples' & fl & -> & Hl & _).
    simpl. destruct fl.
    + destruct (1000 <=? length samples')%nat.
      * simpl. exists (l ++ [PrintSamplingLimit]), (cur - stride, samples'), 1%nat.
        rewrite calls_app, Hl, descent_1.
        split_and!; [done|done|lia|]. by repeat constructor.
      * destruct (IH (cur - stride) samples' Hs) as (l' & st & n & -> & Hl' & Hn & Hall);
          [lia|].
        exists (l ++ l'), st, (S n).
        rewrite calls_app, Hl, Hl', descent_S.
        split_and!; [done|done|lia|]. by constructor.
    + simpl. exists (l ++ []), (cur, samples'), 1%nat.
      rewrite calls_app, Hl, descent_1.
      split_and!; [done|done|lia|]. by repeat constructor.
Qed.

(** More fuel does not change a run that returned. *)
Lemma sample_loop_fuel_mono fuel :
  ∀ current_index samples st (fuel' : nat),
    result (sample_loop ptt_bot board sl target_start stride fuel current_index samples)
    = Return st →
    (fuel ≤ fuel')%nat →
    sample_loop ptt_bot board sl target_start stride fuel' current_index samples
    = sample_loop ptt_bot board sl target_start stride fuel current_index samples.
Proof.
  induction fuel as [|fuel IH]; intros cur samples st fuel' Hr Hle.
  - destruct fuel' as [|fuel']; [done|]. simpl in *.
    by destruct (0 <? cur).
  - destruct fuel' as [|fuel']; [lia|]. simpl in *.
    destruct (0 <? cur); [|done].
    destruct (sample_body_run cur samples) as (l & samples' & fl & Hb & _).
    rewrite Hb in *. simpl in *. destruct fl; [|done].
    destruct (1000 <=? length samples')%nat; [done|].
    destruct (sample_loop ptt_bot board sl target_start stride fuel (cur - stride) samples')
      as [l' r] eqn:Hloop.
    simpl in Hr. subst r.
    rewrite (IH (cur - stride) samples' st fuel'); [by rewrite Hloop| |lia].
    by rewrite Hloop.
Qed.

(** The samples the loop leaves form a sample sequence of the board, and
    at most one sample is added per iteration up to the ceiling. *)
Lemma sample_loop_collects newest fuel :
  ∀ current_index samples st,
    0 < stride → current_index <= newest →
    collected newest current_index samples →
    result (sample_loop ptt_bot board sl target_start stride fuel current_index samples)
    = Return st →
    sample_sequence newest (snd st).
Proof.
  induction fuel as [|fuel IH]; intros cur samples st Hs Hcur Hinv Hr; simpl in Hr.
  - destruct (0 <? cur); [done|]. injection Hr as <-. apply Hinv.
  - destruct (Z.ltb_spec 0 cur) as [Hpos|_];
      [|injection Hr as <-; apply Hinv].
    destruct (sample_body_run cur samples) as (l & samples' & fl & Hb & _ & Hcase).
    rewrite Hb in Hr. simpl in Hr.
    assert (collected newest (cur - stride) samples') as Hinv'.
    { destruct Hinv as [[Hall Hsorted] Hgt].
      destruct Hcase as [[-> _]|(dt & -> & _)].
      - repeat split; [done..|].
        eapply Forall_impl; [exact Hgt|]. simpl. intros; lia.
      - repeat split.
        + apply Forall_app. split; [done|]. repeat constructor; simpl; lia.
        + apply StronglySorted_app_2; [|done|repeat constructor].
          intros a b Ha Hb'. apply list_elem_of_singleton in Hb' as ->.
          unfold newer. simpl. rewrite Forall_forall in Hgt. by apply Hgt.
        + apply Forall_app. split.
          * eapply Forall_impl; [exact Hgt|]. simpl. intros; lia.
          * repeat constructor. simpl. lia. }
    destruct fl.
    + destruct (1000 <=? length samples')%nat.
      * simpl in Hr. injection Hr as <-. apply Hinv'.
      * eapply (IH (cur - stride) samples'); [done|lia|done|].
        destruct (sample_loop ptt_bot board sl target_start stride fuel (cur - stride)
                    samples').
        exact Hr.
    + simpl in Hr. injection Hr as <-. apply Hinv'.
Qed.

Lemma sample_loop_ceiling fuel :
  ∀ current_index samples st,
    (length samples < 1000)%nat →
    result (sample_loop ptt_bot board sl target_start stride fuel current_index samples)
    = Return st →
    (length (snd st) ≤ 1000)%nat.
Proof.
  induction fuel as [|fuel IH]; intros cur samples st Hlen Hr; simpl in Hr.
  - destruct (0 <? cur); [done|]. injection Hr as <-. simpl. lia.
  - destruct (0 <? cur); [|injection Hr as <-; simpl; lia].
    destruct (sample_body_run cur samples) as (l & samples' & fl & Hb & _ & Hcase).
    rewrite Hb in Hr. simpl in Hr.
    assert (length samples' ≤ 1000)%nat as Hlen'.
    { destruct Hcase as [[-> _]|(dt & -> & _)]; [lia|].
      rewrite length_app. simpl. lia. }
    destruct fl; [|simpl in Hr; injection Hr as <-; done].
    destruct (Nat.leb_spec 1000 (length samples')).
    + simpl in Hr. injection Hr as <-. done.
    + eapply (IH (cur - stride) samples'); [done|].
      destruct (sample_loop ptt_bot board sl target_start stride fuel (cur - stride)
                  samples').
      exact Hr.
Qed.

(** Why the loop was left. *)
Lemma sample_loop_exit fuel :
  ∀ current_index samples st,
    result (sample_loop ptt_bot board sl target_start stride fuel current_index samples)
    = Return st →
    fst st <= 0 ∨ (1000 ≤ length (snd st))%nat
    ∨ early_stop target_start (snd st) = true.
Proof.
  induction fuel as [|fuel IH]; intros cur samples st Hr; simpl in Hr.
  - destruct (Z.ltb_spec 0 cur); [done|]. injection Hr as <-. by left.
  - destruct (Z.ltb_spec 0 cur); [|injection Hr as <-; by left].
    destruct (sample_body_run cur samples) as (l & samples' & fl & Hb & _ & Hcase).
    rewrite Hb in Hr. simpl in Hr. destruct fl.
    + destruct (Nat.leb_spec 1000 (length samples')).
      * simpl in Hr. injection Hr as <-. right. by left.
      * eapply (IH (cur - stride) samples').
        destruct (sample_loop ptt_bot board sl target_start stride fuel (cur - stride)
                    samples').
        exact Hr.
    + simpl in Hr. injection Hr as <-. right. right. simpl.
      destruct Hcase as [[_ ?]|(dt & -> & Hfl)]; [done|].
      by destruct (early_stop target_start _).
Qed.

End SamplerFacts.

(** ** Runs of [find_article_range_by_time] *)

Lemma bind_return_inv {A B} (m : M A) (f : A → M B) (b : B) :
  result (bind m f) = Return b →
  ∃ a, result m = Return a ∧ result (f a) = Return b.
Proof.
  destruct m as [l [a| |]]; simpl; [|done..].
  intros Hb. exists a. split; [done|]. by destruct (f a).
Qed.

Lemma bind_trace_return {A B} (m : M A) (f : A → M B) (a : A) :
  result m = Return a →
  bind m f = (trace m ++ trace (f a), result (f a)).
Proof. destruct m as [l r]. simpl. intros ->. by destruct (f a). Qed.

Lemma call_newest_index_inv (bot : Bot) board sl n :
  result (call_newest_index bot board sl) = Return n →
  get_newest_index bot board sl = Some n.
Proof.
  unfold call_newest_index. simpl.
  destruct (get_newest_index bot board sl); [|done]. by intros [= ->].
Qed.

Section RangeFacts.

Context `{PyRuntime}.
Variable ptt_bot : Bot.

(** A run that returns went through every stage. *)
Lemma find_article_range_by_time_inv fuel board start_time end_time sl stride r :
  result (find_article_range_by_time ptt_bot fuel board start_time end_time sl stride)
  = Return r →
  ∃ ts te newest st,
    result (time_of_text start_time) = Return ts ∧
    result (time_of_text end_time) = Return te ∧
    get_newest_index ptt_bot board sl = Some newest ∧
    result (sample_loop ptt_bot board sl ts stride fuel newest []) = Return st ∧
    result (locate ts te stride (snd st)) = Return r.
Proof.
  unfold find_article_range_by_time, time_of_text. intros Hr.
  apply bind_return_inv in Hr as (shm & Hs & Hr).
  apply bind_return_inv in Hr as (ehm & He & Hr).
  apply bind_return_inv in Hr as (ts & Hts & Hr).
  apply bind_return_inv in Hr as (te & Hte & Hr).
  apply bind_return_inv in Hr as (newest & Hn & Hr).
  apply bind_return_inv in Hr as (_ & _ & Hr).
  apply bind_return_inv in Hr as (_ & _ & Hr).
  apply bind_return_inv in Hr as (st & Hst & Hr).
  exists ts, te, newest, st.
  rewrite (bind_trace_return _ _ _ Hs), (bind_trace_return _ _ _ He).
  split_and!; [done|done|by apply call_newest_index_inv|done|done].
Qed.

(** The samples behind a returned range form a sample sequence. *)
Lemma sampled_sequence board sl ts stride fuel newest st :
  0 < stride →
  result (sample_loop ptt_bot board sl ts stride fuel newest []) = Return st →
  sample_sequence newest (snd st).
Proof.
  intros Hs Hr.
  eapply (sample_loop_collects ptt_bot board sl ts stride newest fuel newest []);
    [done|lia| |done].
  repeat split; constructor.
Qed.

End RangeFacts.

(** ** Bounds of the bracket *)

Lemma locate_some_inv ws we stride samples r :
  result (locate ws we stride samples) = Return (Some r) →
  (2 ≤ length samples)%nat.
Proof.
  unfold locate. destruct (Nat.ltb_spec (length samples) 2); [done|lia].
Qed.

Lemma first_at_or_before_Some bound samples i s :
  first_at_or_before bound samples = Some (i, s) →
  samples !! i = Some s ∧ Time.leb (s_time s) bound = true.
Proof.
  unfold first_at_or_before. intros Hf.
  apply list_find_Some in Hf as (? & ? & _). done.
Qed.

Lemma first_at_or_before_None bound samples i s :
  first_at_or_before bound samples = None →
  samples !! i = Some s → Time.leb (s_time s) bound = false.
Proof.
  unfold first_at_or_before. intros Hf Hi.
  apply list_find_None in Hf. rewrite Forall_forall in Hf.
  apply not_true_is_false, Hf. by eapply list_elem_of_lookup_2.
Qed.

(** A hit among the scanned samples is a sample of the sequence, placed no
    later than the sample that ends the scan. *)
Lemma first_in_scanned_lookup ws we samples j s :
  first_at_or_before we (scanned ws samples) = Some (j, s) →
  samples !! j = Some s ∧
  ∀ i x, first_at_or_before ws samples = Some (i, x) → (j ≤ i)%nat.
Proof.
  intros Hf. apply first_at_or_before_Some in Hf as [Hj _].
  unfold scanned in Hj.
  destruct (first_at_or_before ws samples) as [[i x]|].
  - apply lookup_take_Some in Hj as [Hj Hlt].
    split; [done|]. intros ?? [= <- <-]. lia.
  - split; [done|]. by intros ??.
Qed.

Lemma sorted_lookup_le (samples : list sample) i j a b :
  StronglySorted newer samples →
  samples !! i = Some a → samples !! j = Some b → (i ≤ j)%nat →
  s_index b <= s_index a.
Proof.
  intros Hsorted Hi Hj Hle.
  destruct (decide (i = j)) as [->|Hne]; [by simplify_eq|].
  rewrite <-(take_drop_middle samples i a Hi) in Hsorted, Hj.
  apply StronglySorted_app_1_r, StronglySorted_cons in Hsorted as [Hall _].
  rewrite Forall_forall in Hall.
  assert (length (take i samples) = i) as Hlen.
  { apply length_take_le. apply lookup_lt_Some in Hi. lia. }
  rewrite lookup_app_r in Hj by lia. rewrite Hlen in Hj.
  destruct (j - i)%nat as [|k] eqn:Hk; [lia|]. simpl in Hj.
  apply list_elem_of_lookup_2, Hall in Hj. unfold newer in Hj. lia.
Qed.

Section BracketBounds.

Variables ws we : time.
Variables stride newest : Z.
Variable samples : list sample.
Hypothesis Hseq : sample_sequence newest samples.

Lemma sample_sequence_lookup i s :
  samples !! i = Some s → 1 <= s_index s <= newest.
Proof.
  intros Hi. destruct Hseq as [Hall _]. rewrite Forall_forall in Hall.
  apply (Hall s). by eapply list_elem_of_lookup_2.
Qed.

(** The bracket of a sample sequence: [low] is within the board, [high]
    exceeds the newest index by one stride at most. *)
Lemma locate_bounds low high :
  0 < stride →
  result (locate ws we stride samples) = Return (Some (low, high)) →
  1 <= low ∧ low <= newest ∧ high <= newest + stride.
Proof.
  intros Hs Hr. pose proof (locate_some_inv _ _ _ _ _ Hr) as Hlen.
  destruct (two_samples_ends samples Hlen) as (n & o & Hh & Hl).
  rewrite (locate_two_samples ws we stride samples n o Hlen Hh Hl) in Hr.
  injection Hr as <- <-.
  assert (1 <= s_index n <= newest) as Hn.
  { apply (sample_sequence_lookup 0). by rewrite <-head_lookup. }
  assert (1 <= s_index o <= newest) as Ho.
  { apply (sample_sequence_lookup (pred (length samples))). by rewrite <-last_lookup. }
  split_and!.
  - destruct (first_at_or_before ws samples) as [[i s]|]; simpl; lia.
  - destruct (first_at_or_before ws samples) as [[i s]|] eqn:Hf; simpl; [|lia].
    apply first_at_or_before_Some in Hf as [Hi _].
    apply sample_sequence_lookup in Hi. lia.
  - destruct (first_at_or_before we (scanned ws samples)) as [[j s]|] eqn:Hf;
      simpl; [|lia].
    apply first_in_scanned_lookup in Hf as [Hj _].
    apply sample_sequence_lookup in Hj. lia.
Qed.

(** With the window's start at or before its end the bracket is not
    empty. *)
Lemma locate_ordered low high :
  0 <= stride → Time.leb ws we = true →
  result (locate ws we stride samples) = Return (Some (low, high)) →
  low <= high.
Proof.
  intros Hs Hw Hr. pose proof (locate_some_inv _ _ _ _ _ Hr) as Hlen.
  destruct (two_samples_ends samples Hlen) as (n & o & Hh & Hl).
  rewrite (locate_two_samples ws we stride samples n o Hlen Hh Hl) in Hr.
  injection Hr as <- <-.
  rewrite head_lookup in Hh. rewrite last_lookup in Hl.
  pose proof (sample_sequence_lookup _ _ Hh) as Hn.
  destruct Hseq as [_ Hsorted].
  assert (s_index o <= s_index n) as Hon.
  { eapply sorted_lookup_le; [done|exact Hh|exact Hl|lia]. }
  destruct (first_at_or_before we (scanned ws samples)) as [[j hi]|] eqn:Hhi;
    destruct (first_at_or_before ws samples) as [[i lo]|] eqn:Hlo; simpl.
  - apply first_in_scanned_lookup in Hhi as [Hj Hji].
    pose proof (Hji _ _ Hlo) as Hle.
    apply first_at_or_before_Some in Hlo as [Hi _].
    pose proof (sample_sequence_lookup _ _ Hj).
    pose proof (sorted_lookup_le _ _ _ _ _ Hsorted Hj Hi Hle). lia.
  - apply first_in_scanned_lookup in Hhi as [Hj _].
    pose proof (sample_sequence_lookup _ _ Hj).
    assert (s_index o <= s_index hi).
    { eapply sorted_lookup_le; [done|exact Hj|exact Hl|].
      apply lookup_lt_Some in Hj. lia. }
    lia.
  - (* the sample that ends the scan is at or before the window's end too *)
    exfalso.
    pose proof (first_in_scanned ws we samples Hw) as Heq.
    rewrite Hhi in Heq. simpl in Heq.
    apply first_at_or_before_Some in Hlo as [Hi Hle].
    pose proof (time_leb_trans _ _ _ Hle Hw) as Hle'.
    destruct (first_at_or_before we samples) as [[k x]|] eqn:Hk; [done|].
    by rewrite (first_at_or_before_None _ _ _ _ Hk Hi) in Hle'.
  - lia.
Qed.

End BracketBounds.

(** ** Claims on the range locator and the sampling loop *)

(** On the afternoon board the newest post, at index 1000, is already inside
    the window, and the bracket's upper bound is padded past it. *)
Lemma afternoon_board_range :
  result (find_article_range_by_time (H:=Fixtures.runtime) Fixtures.afternoon_board 10
            (Fixtures.ascii "Gossiping") (Fixtures.ascii "13:00")
            (Fixtures.ascii "14:00") None 100)
  = Return (Some (800, 1100)).
Proof. vm_compute. reflexivity. Qed.

(** C2, as stated, fails: a bracket need not stay at or below the newest
    index. *)
Lemma bracket_exceeds_newest_index :
  ¬ (∀ (R : PyRuntime) (bot : Bot) (fuel : nat) (board start_time end_time : pystr)
       (sl : search_list) (stride newest low high : Z),
       get_newest_index bot board sl = Some newest →
       result (find_article_range_by_time (H:=R) bot fuel board start_time end_time
                 sl stride) = Return (Some (low, high)) →
       1 <= low ∧ high <= newest).
Proof.
  intros Hclaim.
  destruct (Hclaim Fixtures.runtime Fixtures.afternoon_board 10%nat
              (Fixtures.ascii "Gossiping") (Fixtures.ascii "13:00")
              (Fixtures.ascii "14:00") None 100 1000 800 1100) as [_ Hhigh];
    [reflexivity|exact afternoon_board_range|lia].
Qed.

(** C2, amended. Every bracket the range locator returns (from two samples
    or more, with a positive stride) has 1 <= low <= newestIndex and
    high <= newestIndex + stride, where newestIndex is the newest index
    obtained at the start of the locate operation. *)
Theorem bracket_within_one_stride `{PyRuntime} (bot : Bot) (fuel : nat)
    (board start_time end_time : pystr) (sl : search_list)
    (stride newest low high : Z) :
  0 < stride →
  get_newest_index bot board sl = Some newest →
  result (find_article_range_by_time bot fuel board start_time end_time sl stride)
  = Return (Some (low, high)) →
  1 <= low ∧ low <= newest ∧ high <= newest + stride.
Proof.
  intros Hs Hn Hr.
  apply find_article_range_by_time_inv in Hr as (ts & te & n & st & _ & _ & Hn' & Hst & Hr).
  assert (n = newest) as -> by congruence.
  apply sampled_sequence in Hst; [|done].
  by eapply locate_bounds.
Qed.

Lemma bracket_within_one_stride_witness :
  0 < 100 ∧
  get_newest_index Fixtures.afternoon_board (Fixtures.ascii "Gossiping") None = Some 1000 ∧
  result (find_article_range_by_time (H:=Fixtures.runtime) Fixtures.afternoon_board 10
            (Fixtures.ascii "Gossiping") (Fixtures.ascii "13:00")
            (Fixtures.ascii "14:00") None 100) = Return (Some (800, 1100)) ∧
  (1 <= 800 ∧ 800 <= 1000 ∧ 1100 <= 1000 + 100).
Proof.
  split; [lia|]. split; [reflexivity|]. split; [vm_compute; reflexivity|].
  apply (bracket_within_one_stride (H:=Fixtures.runtime) Fixtures.afternoon_board 10%nat
           (Fixtures.ascii "Gossiping") (Fixtures.ascii "13:00")
           (Fixtures.ascii "14:00") None 100 1000 800 1100);
    [lia|reflexivity|vm_compute; reflexivity].
Defined.

(** C5. For every sample sequence with at least two samples and every
    window whose start is at or before its end, the range locator returns a
    bracket (low, high) with low <= high. *)
Theorem bracket_low_le_high (newest stride : Z) (ws we : time) (samples : list sample) :
  sample_sequence newest samples →
  (2 ≤ length samples)%nat →
  0 <= stride →
  Time.leb ws we = true →
  ∃ low high,
    result (locate ws we stride samples) = Return (Some (low, high)) ∧ low <= high.
Proof.
  intros Hseq Hlen Hs Hw.
  destruct (two_samples_ends samples Hlen) as (n & o & Hh & Hl).
  pose proof (locate_two_samples ws we stride samples n o Hlen Hh Hl) as Hr.
  eexists _, _. split; [exact Hr|].
  by eapply locate_ordered.
Qed.

Lemma scenario_samples_sequence : sample_sequence 1000 Fixtures.scenario_samples.
Proof.
  split.
  - repeat constructor; simpl; lia.
  - repeat constructor; unfold newer; simpl; lia.
Qed.

Lemma bracket_low_le_high_witness :
  sample_sequence 1000 Fixtures.scenario_samples ∧
  (2 ≤ length Fixtures.scenario_samples)%nat ∧
  0 <= 100 ∧
  Time.leb (Fixtures.at_time 13 0) (Fixtures.at_time 14 0) = true ∧
  ∃ low high,
    result (locate (Fixtures.at_time 13 0) (Fixtures.at_time 14 0) 100
              Fixtures.scenario_samples) = Return (Some (low, high)) ∧ low <= high.
Proof.
  split; [exact scenario_samples_sequence|].
  split; [simpl; lia|]. split; [lia|]. split; [reflexivity|].
  apply (bracket_low_le_high 1000 100 (Fixtures.at_time 13 0) (Fixtures.at_time 14 0)
           Fixtures.scenario_samples);
    [exact scenario_samples_sequence|simpl; lia|lia|reflexivity].
Defined.

(** The same for a whole run of [find_article_range_by_time]: the sampling
    loop only yields sample sequences. *)
Lemma find_article_range_by_time_ordered `{PyRuntime} (bot : Bot) (fuel : nat)
    (board start_time end_time : pystr) (sl : search_list) (stride low high : Z)
    (ts te : time) :
  0 < stride →
  result (time_of_text start_time) = Return ts →
  result (time_of_text end_time) = Return te →
  Time.leb ts te = true →
  result (find_article_range_by_time bot fuel board start_time end_time sl stride)
  = Return (Some (low, high)) →
  low <= high.
Proof.
  intros Hs Hts Hte Hw Hr.
  apply find_article_range_by_time_inv in Hr as (ts' & te' & n & st & Hts' & Hte' & _ & Hst & Hr).
  assert (ts' = ts) as -> by congruence.
  assert (te' = te) as -> by congruence.
  apply sampled_sequence in Hst; [|done].
  exact (locate_ordered ts te stride n (snd st) Hst low high ltac:(lia) Hw Hr).
Qed.

(** ** Unresolved ranges *)

Section Unresolved.

Context `{PyRuntime}.
Variable ptt_bot : Bot.

Lemma time_of_text_inv s t :
  result (time_of_text s) = Return t →
  ∃ hm, parse_hhmm s = ([], Return hm) ∧ make_time hm = ([], Return t).
Proof.
  unfold time_of_text. intros Hr.
  apply bind_return_inv in Hr as (hm & Hp & Hm). exists hm.
  split.
  - unfold parse_hhmm in *.
    destruct (Str.split_colon s) as [|a [|b [|c l]]]; try done.
    destruct (py_int a), (py_int b); try done.
    simpl in Hp. by injection Hp as ->.
  - unfold make_time in *. destruct hm as [h m].
    destruct (fits_c_int h && fits_c_int m); [|done].
    destruct ((0 <=? h) && (h <? 24) && (0 <=? m) && (m <? 60)); [|done].
    simpl in Hm. by injection Hm as ->.
Qed.

(** A run of [find_article_range_by_time] whose arguments parse and whose
    session answers, stage by stage. *)
Lemma find_article_range_by_time_run fuel board start_time end_time sl stride
    ts te newest st :
  result (time_of_text start_time) = Return ts →
  result (time_of_text end_time) = Return te →
  get_newest_index ptt_bot board sl = Some newest →
  result (sample_loop ptt_bot board sl ts stride fuel newest []) = Return st →
  find_article_range_by_time ptt_bot fuel board start_time end_time sl stride =
  ([CallNewestIndex sl; PrintNewest newest; PrintSearching start_time end_time]
     ++ trace (sample_loop ptt_bot board sl ts stride fuel newest [])
     ++ trace (locate ts te stride (snd st)),
   result (locate ts te stride (snd st))).
Proof.
  intros Hts Hte Hn Hst.
  apply time_of_text_inv in Hts as (shm & Hsp & Hsm).
  apply time_of_text_inv in Hte as (ehm & Hep & Hem).
  unfold find_article_range_by_time, call_newest_index.
  rewrite Hsp, Hep, Hn. simpl. rewrite Hsm, Hem. simpl.
  destruct (sample_loop ptt_bot board sl ts stride fuel newest []) as [l r].
  simpl in *. subst r.
  by destruct (locate ts te stride (snd st)).
Qed.

Lemma locate_unresolved ts te stride samples :
  (length samples < 2)%nat →
  locate ts te stride samples = ([PrintNotEnoughSamples], Return None).
Proof.
  intros Hlen. unfold locate.
  by destruct (Nat.ltb_spec (length samples) 2); [|lia].
Qed.

End Unresolved.

(** C6. When the sampling loop leaves fewer than two samples, the locator
    returns (None, None), and the time-ranged query around it returns the
    empty list, having printed its warning last; it raises nothing. *)
Theorem unresolved_range_is_empty_result `{PyRuntime} (bot : Bot) (fuel : nat)
    (board start_time end_time : pystr) (sl : search_list)
    (ts te : time) (newest : Z) (st : Z * list sample) :
  result (time_of_text start_time) = Return ts →
  result (time_of_text end_time) = Return te →
  get_newest_index bot board sl = Some newest →
  result (sample_loop bot board sl ts default_sample_interval fuel newest []) = Return st →
  (length (snd st) < 2)%nat →
  result (locate ts te default_sample_interval (snd st)) = Return None ∧
  result (find_article_range_by_time bot fuel board start_time end_time sl
            default_sample_interval) = Return None ∧
  result (_get_articles_by_time_range bot fuel board start_time end_time sl) = Return [] ∧
  ∃ l, trace (_get_articles_by_time_range bot fuel board start_time end_time sl)
       = l ++ [PrintNotEnoughSamples; PrintCouldNotDetermine].
Proof.
  intros Hts Hte Hn Hst Hlen.
  pose proof (find_article_range_by_time_run bot fuel board start_time end_time sl
                default_sample_interval ts te newest st Hts Hte Hn Hst) as Hrun.
  rewrite (locate_unresolved ts te _ _ Hlen) in Hrun.
  rewrite (locate_unresolved ts te _ _ Hlen).
  unfold _get_articles_by_time_range. rewrite Hrun. simpl.
  split_and!; [done..|].
  exists ([CallNewestIndex sl; PrintNewest newest; PrintSearching start_time end_time]
            ++ trace (sample_loop bot board sl ts default_sample_interval fuel newest [])).
  simpl. by rewrite <-app_assoc.
Qed.

(** A board of 50 posts, all deleted: one probe, no sample. *)
Lemma unresolved_range_is_empty_result_witness :
  result (time_of_text (H:=Fixtures.runtime) Fixtures.one_pm)
  = Return (Fixtures.at_time 13 0) ∧
  result (time_of_text (H:=Fixtures.runtime) Fixtures.two_pm)
  = Return (Fixtures.at_time 14 0) ∧
  get_newest_index Fixtures.small_board Fixtures.gossiping None = Some 50 ∧
  result (sample_loop (H:=Fixtures.runtime) Fixtures.small_board Fixtures.gossiping None
            (Fixtures.at_time 13 0) default_sample_interval 1 50 [])
  = Return (-50, []) ∧
  (length (@nil sample) < 2)%nat ∧
  result (locate (Fixtures.at_time 13 0) (Fixtures.at_time 14 0)
            default_sample_interval []) = Return None ∧
  result (find_article_range_by_time (H:=Fixtures.runtime) Fixtures.small_board 1
            Fixtures.gossiping Fixtures.one_pm Fixtures.two_pm None
            default_sample_interval) = Return None ∧
  result (_get_articles_by_time_range (H:=Fixtures.runtime) Fixtures.small_board 1
            Fixtures.gossiping Fixtures.one_pm Fixtures.two_pm None) = Return [] ∧
  ∃ l, trace (_get_articles_by_time_range (H:=Fixtures.runtime) Fixtures.small_board 1
                Fixtures.gossiping Fixtures.one_pm Fixtures.two_pm None)
       = l ++ [PrintNotEnoughSamples; PrintCouldNotDetermine].
Proof.
  split; [reflexivity|]. split; [reflexivity|]. split; [reflexivity|].
  split; [reflexivity|]. split; [simpl; lia|].
  apply (unresolved_range_is_empty_result (H:=Fixtures.runtime) Fixtures.small_board 1
           Fixtures.gossiping Fixtures.one_pm Fixtures.two_pm None
           (Fixtures.at_time 13 0) (Fixtures.at_time 14 0) 50 (-50, []));
    [reflexivity|reflexivity|reflexivity|reflexivity|simpl; lia].
Defined.

(** ** Termination of the sampling loop *)

Lemma early_stop_short ws (samples : list sample) :
  (length samples < 2)%nat → early_stop ws samples = false.
Proof.
  intros Hlen. unfold early_stop.
  by destruct (Nat.leb_spec 2 (length samples)); [lia|].
Qed.

Lemma descent_bound (start stride : Z) (n : nat) :
  Forall (λ i, 0 < i) (descent start stride n) →
  n = 0%nat ∨ (Z.of_nat n - 1) * stride < start.
Proof.
  intros Hall. destruct n as [|n]; [by left|right].
  rewrite Forall_forall in Hall.
  specialize (Hall (start - Z.of_nat n * stride)).
  rewrite elem_of_descent in Hall.
  assert (0 < start - Z.of_nat n * stride) by (apply Hall; exists n; split; [lia|done]).
  lia.
Qed.

Section SamplerWalk.

Context `{PyRuntime}.
Variable ptt_bot : Bot.
Variable board : pystr.
Variable sl : search_list.
Variable target_start : time.
Variable stride : Z.

(** The walk of the loop, iteration by iteration: after [n] iterations the
    index stands [n] strides below where it started, or [n - 1] strides
    when the last iteration broke off; every iteration adds at most one
    sample; and when the loop is left at the ceiling or by the early stop,
    the last iteration is the one that took the last sample. *)
Lemma sample_loop_walk fuel :
  ∀ current_index samples,
    0 < stride → current_index <= Z.of_nat fuel * stride →
    ∃ l st (n : nat),
      sample_loop ptt_bot board sl target_start stride fuel current_index samples
      = (l, Return st) ∧
      calls l = descent current_index stride n ∧
      (length (snd st) ≤ length samples + n)%nat ∧
      ((fst st = current_index - Z.of_nat n * stride ∧
        (fst st <= 0 ∨ (1000 ≤ length (snd st))%nat))
       ∨ ((1 ≤ n)%nat ∧ fst st = current_index - (Z.of_nat n - 1) * stride ∧
          early_stop target_start (snd st) = true)) ∧
      ((1000 ≤ length (snd st))%nat ∨ early_stop target_start (snd st) = true →
       snd st = samples ∨
       ((1 ≤ n)%nat ∧
        ∃ s, last (snd st) = Some s ∧
             s_index s = current_index - (Z.of_nat n - 1) * stride)).
Proof.
  assert (∀ cur samples, cur <= 0 →
            ∃ l st (n : nat),
              ([] : list event, Return (cur, samples)) = (l, Return st) ∧
              calls l = descent cur stride n ∧
              (length (snd st) ≤ length samples + n)%nat ∧
              ((fst st = cur - Z.of_nat n * stride ∧
                (fst st <= 0 ∨ (1000 ≤ length (snd st))%nat))
               ∨ ((1 ≤ n)%nat ∧ fst st = cur - (Z.of_nat n - 1) * stride ∧
                  early_stop target_start (snd st) = true)) ∧
              ((1000 ≤ length (snd st))%nat ∨ early_stop target_start (snd st) = true →
               snd st = samples ∨
               ((1 ≤ n)%nat ∧
                ∃ s, last (snd st) = Some s ∧
                     s_index s = cur - (Z.of_nat n - 1) * stride))) as Hout.
  { intros cur samples Hle. exists [], (cur, samples), 0%nat. simpl.
    split_and!; [done|done|lia|left; split; [lia|by left]|by left]. }
  induction fuel as [|fuel IH]; intros cur samples Hs Hfuel.
  - simpl. destruct (Z.ltb_spec 0 cur) as [?|Hle]; [lia|]. by apply Hout.
  - simpl. destruct (Z.ltb_spec 0 cur) as [Hpos|Hle]; [|by apply Hout].
    destruct (sample_body_run ptt_bot board sl target_start cur samples)
      as (l & samples' & fl & -> & Hl & Hcase).
    assert (length samples' ≤ length samples + 1)%nat as Hgrow.
    { destruct Hcase as [[-> _]|(dt & -> & _)]; [lia|].
      rewrite length_app. simpl. lia. }
    simpl. destruct fl.
    + destruct (Nat.leb_spec 1000 (length samples')) as [Hceil|Hceil].
      * simpl. exists (l ++ [PrintSamplingLimit]), (cur - stride, samples'), 1%nat.
        rewrite calls_app, Hl, descent_1. simpl.
        split_and!; [done|done|done|left; split; [lia|by right]|].
        intros _. destruct Hcase as [[-> _]|(dt & -> & _)]; [by left|right].
        split; [lia|]. eexists. split; [apply last_snoc|simpl; lia].
      * destruct (IH (cur - stride) samples' Hs)
          as (l' & st & n & -> & Hl' & Hlen & Hexit & Hlast); [lia|].
        exists (l ++ l'), st, (S n). rewrite calls_app, Hl, Hl', descent_S.
        split_and!; [done|done|lia| |].
        -- destruct Hexit as [[Hi Hwhy]|(Hn & Hi & Hstop)].
           ++ left. split; [lia|done].
           ++ right. split_and!; [lia|lia|done].
        -- intros Hstopped. destruct (Hlast Hstopped) as [Heq|(Hn & s & Hs' & Hi)].
           ++ rewrite Heq in *. destruct Hcase as [[-> _]|(dt & Hsam & Hfl)]; [by left|].
              exfalso. destruct Hstopped as [?|Hes]; [lia|].
              by rewrite Hes in Hfl.
           ++ right. split; [lia|]. exists s. split; [done|lia].
    + simpl. exists (l ++ []), (cur, samples'), 1%nat.
      rewrite calls_app, Hl, descent_1. simpl.
      destruct Hcase as [[_ ?]|(dt & -> & Hfl)]; [done|].
      destruct (early_stop target_start _) eqn:Hstop; [|done].
      split_and!; [done|done|done|right; split_and!; [lia|lia|done]|].
      intros _. right. split; [lia|]. eexists. split; [apply last_snoc|simpl; lia].
Qed.

End SamplerWalk.

(** C9 on the code. With a positive stride the sampling loop terminates on
    every board: given fuel for the walk from the newest index down to 0 it
    returns, and more fuel changes nothing. Its iterations probe the indices
    newest, newest - stride, ..., all positive, so there are fewer than
    newest / stride + 1 of them; after n iterations the index stands at
    newest - n * stride, or one stride above when the last iteration broke
    off by the early stop; the loop is left with the index at or below 0, at
    the ceiling, or by the early stop, and in the last two cases right after
    the iteration that took the last sample. With newest index 50 and stride
    100 it probes index 50 and nothing else and is left with the index at
    -50. The ceiling, however, counts the samples collected (at most one per
    iteration, at most 1000 in all) and not the iterations: on a board of
    200000 deleted posts the loop probes 2000 indices, collects nothing and
    never reaches the ceiling. *)
Theorem sampling_loop_terminates :
  (∀ (R : PyRuntime) (bot : Bot) (board : pystr) (sl : search_list) (ts : time)
     (stride newest : Z) (fuel : nat),
     0 < stride → newest <= Z.of_nat fuel * stride →
     ∃ l st (n : nat),
       sample_loop bot board sl ts stride fuel newest [] = (l, Return st) ∧
       (∀ fuel' : nat, (fuel ≤ fuel')%nat →
          sample_loop bot board sl ts stride fuel' newest [] = (l, Return st)) ∧
       calls l = descent newest stride n ∧
       Forall (λ i, 0 < i) (calls l) ∧
       (n = 0%nat ∨ (Z.of_nat n - 1) * stride < newest) ∧
       (length (snd st) ≤ 1000)%nat ∧
       (length (snd st) ≤ n)%nat ∧
       ((fst st = newest - Z.of_nat n * stride ∧
         (fst st <= 0 ∨ (1000 ≤ length (snd st))%nat))
        ∨ ((1 ≤ n)%nat ∧ fst st = newest - (Z.of_nat n - 1) * stride ∧
           early_stop ts (snd st) = true)) ∧
       ((1000 ≤ length (snd st))%nat ∨ early_stop ts (snd st) = true →
        (1 ≤ n)%nat ∧
        ∃ s, last (snd st) = Some s ∧
             s_index s = newest - (Z.of_nat n - 1) * stride)) ∧
  (∀ (R : PyRuntime) (bot : Bot) (board : pystr) (sl : search_list) (ts : time)
     (fuel : nat),
     ∃ l samples,
       sample_loop bot board sl ts 100 (S fuel) 50 [] = (l, Return (-50, samples)) ∧
       calls l = [50] ∧ (length samples ≤ 1)%nat) ∧
  (sample_loop (H:=Fixtures.runtime) MoreFixtures.deleted_board Fixtures.gossiping None
     (Fixtures.at_time 13 0) 100 2000 200000 []
   = (CallGetPost <$> descent 200000 100 2000, Return (0, [])) ∧
   (1000 < length (descent 200000 100 2000))%nat ∧
   find_article_range_by_time (H:=Fixtures.runtime) MoreFixtures.deleted_board 2000
     Fixtures.gossiping Fixtures.one_pm Fixtures.two_pm None 100
   = ([CallNewestIndex None; PrintNewest 200000;
       PrintSearching Fixtures.one_pm Fixtures.two_pm]
        ++ (CallGetPost <$> descent 200000 100 2000) ++ [PrintNotEnoughSamples],
      Return None)).
Proof.
  split_and!.
  - intros R bot board sl ts stride newest fuel Hs Hfuel.
    destruct (sample_loop_walk bot board sl ts stride fuel newest [] Hs Hfuel)
      as (l & st & n & Hrun & Hcalls & Hlen & Hexit & Hlast).
    destruct (sample_loop_run bot board sl ts stride fuel newest [] Hs Hfuel)
      as (l0 & st0 & n0 & Hrun0 & Hcalls0 & _ & Hpos).
    rewrite Hrun in Hrun0. injection Hrun0 as <- <-.
    assert (result (sample_loop bot board sl ts stride fuel newest []) = Return st)
      as Hr by (by rewrite Hrun).
    exists l, st, n. split_and!.
    + done.
    + intros fuel' Hle. rewrite <-Hrun. by eapply sample_loop_fuel_mono.
    + done.
    + by rewrite Hcalls0.
    + apply descent_bound. by rewrite <-Hcalls, Hcalls0.
    + eapply sample_loop_ceiling; [|exact Hr]. simpl. lia.
    + simpl in Hlen. lia.
    + done.
    + intros Hstopped. destruct (Hlast Hstopped) as [Heq|Hdone]; [|done].
      exfalso. rewrite Heq in Hstopped. destruct Hstopped as [Hc|Hes]; [simpl in Hc; lia|].
      by rewrite early_stop_short in Hes by (simpl; lia).
  - intros R bot board sl ts fuel. simpl.
    destruct (sample_body_run bot board sl ts 50 [])
      as (l & samples' & fl & -> & Hcalls & Hcase).
    assert ((length samples' ≤ 1)%nat ∧ fl = Continue) as [Hlen ->].
    { destruct Hcase as [[-> ->]|(dt & -> & ->)]; [simpl; split; [lia|done]|].
      split; [simpl; lia|]. by rewrite early_stop_short by (simpl; lia). }
    simpl. destruct (Nat.leb_spec 1000 (length samples')); [lia|].
    exists (l ++ []), samples'. rewrite calls_app, Hcalls.
    by destruct fuel.
  - vm_compute. reflexivity.
  - vm_compute. lia.
  - vm_compute. reflexivity.
Qed.

(** Ten probes walk the afternoon board, from index 1000 down to 100. *)
Lemma sampling_loop_terminates_witness :
  0 < 100 ∧ 1000 <= Z.of_nat 10 * 100 ∧
  ∃ l st (n : nat),
    sample_loop (H:=Fixtures.runtime) Fixtures.afternoon_board Fixtures.gossiping None
      (Fixtures.at_time 13 0) 100 10 1000 [] = (l, Return st) ∧
    (∀ fuel' : nat, (10 ≤ fuel')%nat →
       sample_loop (H:=Fixtures.runtime) Fixtures.afternoon_board Fixtures.gossiping None
         (Fixtures.at_time 13 0) 100 fuel' 1000 [] = (l, Return st)) ∧
    calls l = descent 1000 100 n ∧
    Forall (λ i, 0 < i) (calls l) ∧
    (n = 0%nat ∨ (Z.of_nat n - 1) * 100 < 1000) ∧
    (length (snd st) ≤ 1000)%nat ∧
    (length (snd st) ≤ n)%nat ∧
    ((fst st = 1000 - Z.of_nat n * 100 ∧
      (fst st <= 0 ∨ (1000 ≤ length (snd st))%nat))
     ∨ ((1 ≤ n)%nat ∧ fst st = 1000 - (Z.of_nat n - 1) * 100 ∧
        early_stop (Fixtures.at_time 13 0) (snd st) = true)) ∧
    ((1000 ≤ length (snd st))%nat
     ∨ early_stop (Fixtures.at_time 13 0) (snd st) = true →
     (1 ≤ n)%nat ∧
     ∃ s, last (snd st) = Some s ∧ s_index s = 1000 - (Z.of_nat n - 1) * 100).
Proof.
  split; [lia|]. split; [lia|].
  apply (proj1 sampling_loop_terminates Fixtures.runtime Fixtures.afternoon_board
           Fixtures.gossiping None (Fixtures.at_time 13 0) 100 1000 10%nat); lia.
Defined.

(** ** The early stop *)










(** ** Calendar date range *)

Lemma lex_compare_antisym (a b : list Z) :
  lex_compare b a = CompOpp (lex_compare a b).
Proof.
  revert b. induction a as [|x a IH]; intros [|y b]; simpl; try done.
  rewrite (Z.compare_antisym x y).
  destruct (x ?= y); simpl; [apply IH|done..].
Qed.

Lemma datetime_leb_not_ltb (a b : datetime) :
  DateTime.leb a b = true → DateTime.ltb b a = false.
Proof.
  unfold DateTime.leb, DateTime.ltb, DateTime.compare.
  rewrite (lex_compare_antisym (DateTime.fields a)).
  by destruct (lex_compare _ _).
Qed.

Section DateRangeFacts.

Context `{PyRuntime}.
Variable ptt_bot : Bot.
Variable board : pystr.
Variables start end_ : datetime.

(** The scan ends at the first entry older than the start: that entry is
    fetched and dropped, and nothing below it is fetched. *)
Lemma date_scan_stops i rest a s article_date :
  get_post ptt_bot board i None = FetchPost a →
  date_str (date a) = Some s →
  strptime FmtPost s = Some article_date →
  DateTime.ltb article_date start = true →
  date_scan ptt_bot board start end_ (i :: rest) = ([CallGetPost i], Return []).
Proof.
  intros Hpost Hs Hdt Hlt. simpl. unfold fetch. simpl.
  rewrite Hpost, Hs, Hdt, Hlt.
  destruct (DateTime.leb start article_date) eqn:Hle; [|done].
  apply datetime_leb_not_ltb in Hle. congruence.
Qed.

(** An entry within the window is kept and the scan goes on. *)
Lemma date_scan_keeps i rest a s article_date :
  get_post ptt_bot board i None = FetchPost a →
  date_str (date a) = Some s →
  strptime FmtPost s = Some article_date →
  DateTime.leb start article_date = true →
  DateTime.leb article_date end_ = true →
  result (date_scan ptt_bot board start end_ (i :: rest)) =
  match result (date_scan ptt_bot board start end_ rest) with
  | Return more => Return (a :: more)
  | Raise e => Raise e
  | OutOfFuel => OutOfFuel
  end.
Proof.
  intros Hpost Hs Hdt Hle1 Hle2. simpl. unfold fetch. simpl.
  rewrite Hpost, Hs, Hdt, Hle1, Hle2. simpl.
  by destruct (date_scan ptt_bot board start end_ rest) as [l [more| |]].
Qed.

(** An entry newer than the window's end is skipped and the scan goes on. *)
Lemma date_scan_skips_newer i rest a s article_date :
  get_post ptt_bot board i None = FetchPost a →
  date_str (date a) = Some s →
  strptime FmtPost s = Some article_date →
  DateTime.leb article_date end_ = false →
  DateTime.ltb article_date start = false →
  result (date_scan ptt_bot board start end_ (i :: rest)) =
  result (date_scan ptt_bot board start end_ rest).
Proof.
  intros Hpost Hs Hdt Hle Hlt. simpl. unfold fetch. simpl.
  rewrite Hpost, Hs, Hdt, Hle, Hlt, andb_false_r.
  by destruct (date_scan ptt_bot board start end_ rest).
Qed.

End DateRangeFacts.

(** C4 on the code. The query for 2025-10-01 to 2025-10-03 on the October
    board parses the end date to midnight at the start of 3 October: the
    post of 3 October 10:00 (index 6) is fetched and left out, the posts of
    3 October 00:00 and 2 October are returned, and the scan ends at the
    post of 30 September (index 3) without fetching index 2. *)
Theorem date_range_ends_at_midnight :
  result (get_articles_by_date_range (H:=Fixtures.runtime) Fixtures.october_board
            Fixtures.gossiping (Fixtures.ascii "2025-10-01") (Fixtures.ascii "2025-10-03"))
  = Return [Fixtures.friday_midnight; Fixtures.thursday] ∧
  calls (trace (get_articles_by_date_range (H:=Fixtures.runtime) Fixtures.october_board
                  Fixtures.gossiping (Fixtures.ascii "2025-10-01")
                  (Fixtures.ascii "2025-10-03")))
  = [6; 5; 4; 3] ∧
  strptime (PyRuntime:=Fixtures.runtime) FmtPost (Fixtures.ascii "Fri Oct  3 10:00:00 2025")
  = Some (mk_datetime 2025 10 3 10 0 0) ∧
  strptime (PyRuntime:=Fixtures.runtime) FmtDate (Fixtures.ascii "2025-10-03")
  = Some (mk_datetime 2025 10 3 0 0 0) ∧
  Fixtures.friday_morning ∉ [Fixtures.friday_midnight; Fixtures.thursday].
Proof.
  split_and!; [vm_compute; reflexivity..|].
  intros Hin. apply list_elem_of_In in Hin. simpl in Hin.
  destruct Hin as [Heq|[Heq|[]]]; vm_compute in Heq; discriminate.
Qed.

(** ** Comment filters *)

Lemma starts_with_prefix (p s : pystr) :
  Str.starts_with p s = true ↔ ∃ after, s = p ++ after.
Proof.
  revert s. induction p as [|a p IH]; intros s; simpl.
  - split; [by exists s|done].
  - destruct s as [|b s]; [split; [done|by intros [? ?]]|].
    rewrite andb_true_iff, N.eqb_eq, IH. split.
    + intros [-> [after ->]]. by exists after.
    + intros [after [= -> ->]]. split; [done|by exists after].
Qed.

Lemma contains_occurs_in (p s : pystr) :
  Str.contains p s = true ↔ occurs_in p s.
Proof.
  unfold occurs_in. induction s as [|b s IH]; simpl.
  - rewrite orb_false_r, starts_with_prefix. split.
    + intros [after Heq]. by exists [], after.
    + intros (before & after & Heq). destruct before; [by exists after|done].
  - rewrite orb_true_iff, starts_with_prefix, IH. split.
    + intros [[after Heq]|(before & after & ->)].
      * by exists [], after.
      * by exists (b :: before), after.
    + intros (before & after & Heq). destruct before as [|c before].
      * left. by exists after.
      * right. injection Heq as -> ->. by exists before, after.
Qed.

Section CommentFacts.

Variable test : comment → bool.

(** The inner loop looks at the comments in order, up to and including
    the first one that passes the test. *)
Lemma scan_comments_first (cs : list comment) :
  scan_comments test cs =
  match list_find (λ c, test c = true) cs with
  | Some (i, _) => (true, S i)
  | None => (false, length cs)
  end.
Proof.
  induction cs as [|c cs IH]; [done|]. simpl.
  destruct (test c) eqn:Hc.
  - by rewrite decide_True.
  - rewrite decide_False by congruence. rewrite IH.
    by destruct (list_find _ cs) as [[i x]|].
Qed.

Lemma scan_comments_existsb (cs : list comment) :
  fst (scan_comments test cs) = existsb test cs.
Proof.
  induction cs as [|c cs IH]; [done|]. simpl.
  destruct (test c); [done|]. simpl. rewrite <-IH.
  by destruct (scan_comments test cs).
Qed.

(** The outer loop is a filter: order and multiplicity are kept. *)
Lemma filter_by_comments_filter (all_articles : list article) :
  filter_by_comments test all_articles =
  filter (λ a, existsb test (default [] (comments a)) = true) all_articles.
Proof.
  induction all_articles as [|a l IH]; [done|]. simpl.
  rewrite scan_comments_existsb, filter_cons, IH.
  destruct (existsb test (default [] (comments a))) eqn:He.
  - by rewrite decide_True.
  - by rewrite decide_False by congruence.
Qed.

End CommentFacts.

(** C7. For every input list the comment-keyword search returns the
    articles with a comment whose lower-cased content contains the
    lower-cased keyword, and only these, each as often and in the order it
    occurs in the input; an article's comments are looked at in order, up to
    the first match. The keyword U+63A8 keeps the article commented
    U+597D U+6587 U+63A8 and drops the one commented U+7121 U+95DC. *)
Theorem comment_search_keeps_matching_articles :
  (∀ (R : PyRuntime) (keyword : pystr) (all_articles : list article),
     let kept := filter_by_comments (content_matches keyword) all_articles in
     kept = filter (λ a, existsb (content_matches keyword) (default [] (comments a)) = true)
              all_articles ∧
     kept `sublist_of` all_articles ∧
     (∀ a, a ∈ kept ↔
           a ∈ all_articles ∧
           ∃ c, c ∈ default [] (comments a) ∧
                occurs_in (py_lower keyword) (py_lower (default [] (c_content c)))) ∧
     (∀ a, scan_comments (content_matches keyword) (default [] (comments a)) =
           match list_find (λ c, content_matches keyword c = true)
                   (default [] (comments a)) with
           | Some (i, _) => (true, S i)
           | None => (false, length (default [] (comments a)))
           end)) ∧
  (∀ (R : PyRuntime) (bot : Bot) (fuel : nat) (board keyword : pystr) (count : Z)
     (start_time end_time : option pystr),
     result (search_by_comment_content bot fuel board keyword count start_time end_time) =
     match result (get_articles bot fuel board count start_time end_time) with
     | Return all_articles =>
         Return (filter_by_comments (content_matches keyword) all_articles)
     | Raise e => Raise e
     | OutOfFuel => OutOfFuel
     end) ∧
  filter_by_comments (content_matches (H:=Fixtures.runtime) Fixtures.keyword_push)
    [Fixtures.praised; Fixtures.unrelated] = [Fixtures.praised].
Proof.
  split_and!; [|by intros R bot fuel board keyword count st et;
                    unfold search_by_comment_content;
                    destruct (get_articles _ _ _ _ _ _) as [l [all| |]]
               |vm_compute; reflexivity].
  intros R keyword all_articles kept.
  assert (kept = filter (λ a, existsb (content_matches keyword)
                                (default [] (comments a)) = true) all_articles) as Hkept
    by apply filter_by_comments_filter.
  split_and!; [done| | |].
  - rewrite Hkept. apply sublist_filter.
  - intros a. rewrite Hkept, list_elem_of_filter, existsb_exists.
    split.
    + intros ((c & Hc & Hm) & Ha). split; [done|]. exists c.
      split; [by apply list_elem_of_In|]. by apply contains_occurs_in.
    + intros (Ha & c & Hc & Hm). split; [|done]. exists c.
      split; [by apply list_elem_of_In|]. by apply contains_occurs_in.
  - intros a. apply scan_comments_first.
Qed.

(** ** Filtering by time of day *)

Section TimeFilterFacts.

Context `{PyRuntime}.
Variables start_time_obj end_time_obj : time.

Lemma filter_by_time_filter (all_articles : list article) :
  filter_by_time start_time_obj end_time_obj all_articles =
  filter (λ a, in_time_range start_time_obj end_time_obj a = true) all_articles.
Proof.
  induction all_articles as [|a l IH]; [done|]. simpl.
  rewrite filter_cons, IH.
  destruct (in_time_range start_time_obj end_time_obj a) eqn:He.
  - by rewrite decide_True.
  - by rewrite decide_False by congruence.
Qed.

(** An article passes when its date is a non-empty string that parses to
    a timestamp whose time of day is within the window. *)
Lemma in_time_range_iff (a : article) :
  in_time_range start_time_obj end_time_obj a = true ↔
  ∃ s article_datetime,
    date a = DateStr s ∧ s ≠ [] ∧
    strptime FmtPost s = Some article_datetime ∧
    Time.leb start_time_obj (DateTime.time_of article_datetime) = true ∧
    Time.leb (DateTime.time_of article_datetime) end_time_obj = true.
Proof.
  unfold in_time_range. split.
  - destruct (date a) as [| |s]; [done..|].
    destruct s as [|c s]; [done|]. simpl.
    destruct (strptime FmtPost (c :: s)) as [dt|] eqn:Hdt; [|done].
    intros [? ?]%andb_true_iff. by exists (c :: s), dt.
  - intros (s & dt & -> & Hs & -> & -> & ->).
    by destruct s.
Qed.

Lemma fetch_all_returns (bot : Bot) board sl indices :
  ∃ l all_articles,
    fetch_all bot board sl indices = (l, Return all_articles) ∧ calls l = indices.
Proof.
  induction indices as [|i rest (l & more & IH & Hcalls)]; [by exists [], []|].
  simpl. rewrite IH. unfold fetch. simpl.
  destruct (get_post bot board i sl); simpl;
    eexists _, _; (split; [reflexivity|]);
    rewrite ?app_nil_r; simpl; by rewrite ?calls_app, Hcalls.
Qed.

End TimeFilterFacts.

(** C8. The time-of-day stage keeps a fetched entry exactly when its date
    string parses against the post format and the parsed timestamp's time of
    day lies between the window's start and end, both included; an entry
    whose date is absent, [None] or does not parse is left out, and the
    stage raises nothing: once a range is found, the query returns the
    filtered list. (The empty string does not parse.) *)
Theorem time_filter_keeps_parsed_in_window `{PyRuntime}
    (start_time_obj end_time_obj : time) (all_articles : list article) :
  strptime FmtPost [] = None →
  let kept := filter_by_time start_time_obj end_time_obj all_articles in
  kept = filter (λ a, in_time_range start_time_obj end_time_obj a = true) all_articles ∧
  (∀ a, a ∈ kept ↔
        a ∈ all_articles ∧
        ∃ s article_datetime,
          date a = DateStr s ∧
          strptime FmtPost s = Some article_datetime ∧
          Time.leb start_time_obj (DateTime.time_of article_datetime) = true ∧
          Time.leb (DateTime.time_of article_datetime) end_time_obj = true) ∧
  (∀ a, date a = DateAbsent ∨ date a = DateNone
        ∨ (∃ s, date a = DateStr s ∧ strptime FmtPost s = None) →
        a ∉ kept) ∧
  (∀ (bot : Bot) (fuel : nat) (board start_time end_time : pystr) (sl : search_list)
     (start_index end_index : Z),
     result (time_of_text start_time) = Return start_time_obj →
     result (time_of_text end_time) = Return end_time_obj →
     result (find_article_range_by_time bot fuel board start_time end_time sl
               default_sample_interval) = Return (Some (start_index, end_index)) →
     ∃ fetched,
       result (fetch_all bot board sl (py_range start_index (end_index + 1)))
       = Return fetched ∧
       result (_get_articles_by_time_range bot fuel board start_time end_time sl)
       = Return (filter_by_time start_time_obj end_time_obj fetched)).
Proof.
  intros Hempty kept.
  assert (kept = filter (λ a, in_time_range start_time_obj end_time_obj a = true)
                   all_articles) as Hkept by apply filter_by_time_filter.
  assert (∀ a, a ∈ kept ↔
        a ∈ all_articles ∧
        ∃ s article_datetime,
          date a = DateStr s ∧
          strptime FmtPost s = Some article_datetime ∧
          Time.leb start_time_obj (DateTime.time_of article_datetime) = true ∧
          Time.leb (DateTime.time_of article_datetime) end_time_obj = true) as Hiff.
  { intros a. rewrite Hkept, list_elem_of_filter, in_time_range_iff. split.
    - intros ((s & dt & ? & ? & ? & ? & ?) & ?). split; [done|]. by exists s, dt.
    - intros (? & s & dt & ? & Hdt & ? & ?). split; [|done]. exists s, dt.
      split_and!; try done. intros ->. congruence. }
  split_and!; [done|done| |].
  - intros a Hbad [_ (s & dt & Hs & Hdt & _)]%Hiff.
    destruct Hbad as [?|[?|(s' & ? & ?)]]; congruence.
  - intros bot fuel board start_time end_time sl lo hi Hts Hte Hr.
    destruct (fetch_all_returns bot board sl (py_range lo (hi + 1)))
      as (l & fetched & Hf & _).
    exists fetched. split; [by rewrite Hf|].
    apply time_of_text_inv in Hts as (shm & Hsp & Hsm).
    apply time_of_text_inv in Hte as (ehm & Hep & Hem).
    unfold _get_articles_by_time_range.
    destruct (find_article_range_by_time bot fuel board start_time end_time sl
                default_sample_interval) as [l0 r0].
    simpl in Hr. subst r0. simpl.
    rewrite Hf, Hsp, Hep. simpl. rewrite Hsm, Hem. done.
Qed.

(** ** Dispatch on the time window *)

Section DispatchFacts.

Context `{PyRuntime}.
Variable ptt_bot : Bot.

Lemma get_articles_count_based fuel board count start_time end_time :
  truthy_opt start_time && truthy_opt end_time = false →
  get_articles ptt_bot fuel board count start_time end_time =
  (let* newest_index := call_newest_index ptt_bot board None in
   fetch_newest ptt_bot board None newest_index count).
Proof. unfold get_articles. by intros ->. Qed.

Lemma search_by_count_based ty fuel board key count start_time end_time :
  truthy_opt start_time && truthy_opt end_time = false →
  search_by ptt_bot ty fuel board key count start_time end_time =
  search_by ptt_bot ty fuel board key count None None.
Proof. unfold search_by. by intros ->. Qed.

Lemma exactly_one_not_both start_time end_time :
  exactly_one start_time end_time →
  truthy_opt start_time && truthy_opt end_time = false.
Proof.
  unfold exactly_one.
  by destruct (truthy_opt start_time), (truthy_opt end_time).
Qed.

(** The count-based path asks for the newest index and fetches the
    [count] indices that end there, oldest first. *)
Lemma fetch_newest_calls board sl newest count :
  calls (trace (fetch_newest ptt_bot board sl newest count)) =
  py_range (Z.max 1 (newest - count + 1)) (newest + 1).
Proof.
  unfold fetch_newest.
  destruct (fetch_all_returns ptt_bot board sl
              (py_range (Z.max 1 (newest - count + 1)) (newest + 1)))
    as (l & all_articles & -> & Hcalls).
  done.
Qed.

End DispatchFacts.

(** C10. When exactly one of [start_time] and [end_time] is given (the
    other absent or empty), each of [get_articles], [search_by_title],
    [search_by_author], [search_by_comment_content] and
    [search_comments_by_author] does what it does with no time window at
    all: it takes the count-based path and fetches the indices
    max(1, newest - count + 1) .. newest. *)
Theorem half_window_is_ignored `{PyRuntime} (bot : Bot) (fuel : nat)
    (board key : pystr) (count : Z) (start_time end_time : option pystr) :
  exactly_one start_time end_time →
  get_articles bot fuel board count start_time end_time
  = get_articles bot fuel board count None None ∧
  search_by_title bot fuel board key count start_time end_time
  = search_by_title bot fuel board key count None None ∧
  search_by_author bot fuel board key count start_time end_time
  = search_by_author bot fuel board key count None None ∧
  search_by_comment_content bot fuel board key count start_time end_time
  = search_by_comment_content bot fuel board key count None None ∧
  search_comments_by_author bot fuel board key start_time end_time count
  = search_comments_by_author bot fuel board key None None count ∧
  get_articles bot fuel board count start_time end_time
  = (let* newest_index := call_newest_index bot board None in
     fetch_newest bot board None newest_index count) ∧
  (∀ newest, get_newest_index bot board None = Some newest →
     calls (trace (get_articles bot fuel board count start_time end_time))
     = py_range (Z.max 1 (newest - count + 1)) (newest + 1)) ∧
  (∀ ty newest, get_newest_index bot board (Some (ty, key)) = Some newest →
     calls (trace (search_by bot ty fuel board key count start_time end_time))
     = py_range (Z.max 1 (newest - count + 1)) (newest + 1)).
Proof.
  intros Hone%exactly_one_not_both.
  assert (get_articles bot fuel board count start_time end_time
          = get_articles bot fuel board count None None) as Hget
    by (by rewrite !get_articles_count_based).
  split_and!.
  - done.
  - by apply search_by_count_based.
  - by apply search_by_count_based.
  - unfold search_by_comment_content. by rewrite Hget.
  - unfold search_comments_by_author. by rewrite Hget.
  - by apply get_articles_count_based.
  - intros newest Hn. rewrite get_articles_count_based by done.
    unfold call_newest_index. rewrite Hn. simpl.
    pose proof (fetch_newest_calls bot board None newest count) as Hc.
    by destruct (fetch_newest bot board None newest count).
  - intros ty newest Hn. unfold search_by. rewrite Hone.
    unfold call_newest_index. rewrite Hn. simpl.
    pose proof (fetch_newest_calls bot board (Some (ty, key)) newest count) as Hc.
    by destruct (fetch_newest bot board (Some (ty, key)) newest count).
Qed.

(** Only [start_time] given, on the afternoon board with [count = 3]. *)
Lemma half_window_is_ignored_witness :
  exactly_one (Some Fixtures.one_pm) None ∧
  get_articles (H:=Fixtures.runtime) Fixtures.afternoon_board 10 Fixtures.gossiping 3
    (Some Fixtures.one_pm) None
  = get_articles (H:=Fixtures.runtime) Fixtures.afternoon_board 10 Fixtures.gossiping 3
      None None ∧
  calls (trace (get_articles (H:=Fixtures.runtime) Fixtures.afternoon_board 10
                  Fixtures.gossiping 3 (Some Fixtures.one_pm) None))
  = [998; 999; 1000].
Proof.
  assert (exactly_one (Some Fixtures.one_pm) None) as Hone by (by vm_compute).
  split; [exact Hone|].
  destruct (half_window_is_ignored (H:=Fixtures.runtime) Fixtures.afternoon_board 10
              Fixtures.gossiping (Fixtures.ascii "alice") 3 (Some Fixtures.one_pm) None
              Hone) as (Hget & _ & _ & _ & _ & _ & Hcalls & _).
  split; [exact Hget|].
  rewrite (Hcalls 1000 eq_refl). reflexivity.
Defined.

(** The window 13:00-14:00 on three fetched posts. *)
Lemma time_filter_keeps_parsed_in_window_witness :
  strptime (PyRuntime:=Fixtures.runtime) FmtPost [] = None ∧
  filter_by_time (H:=Fixtures.runtime) (Fixtures.at_time 13 0) (Fixtures.at_time 14 0)
    Fixtures.fetched_posts
  = filter (λ a, in_time_range (H:=Fixtures.runtime) (Fixtures.at_time 13 0)
                   (Fixtures.at_time 14 0) a = true) Fixtures.fetched_posts ∧
  Fixtures.praised ∉ filter_by_time (H:=Fixtures.runtime) (Fixtures.at_time 13 0)
                       (Fixtures.at_time 14 0) Fixtures.fetched_posts.
Proof.
  assert (strptime (PyRuntime:=Fixtures.runtime) FmtPost [] = None) as Hempty
    by reflexivity.
  split; [exact Hempty|].
  destruct (time_filter_keeps_parsed_in_window (H:=Fixtures.runtime)
              (Fixtures.at_time 13 0) (Fixtures.at_time 14 0) Fixtures.fetched_posts
              Hempty) as (Hkept & _ & Hdrop & _).
  split; [exact Hkept|].
  apply Hdrop. by left.
Defined.

(** * Further properties *)

(** ** The dense fetch *)

Lemma length_omap_le {A B} (f : A → option B) (l : list A) :
  (length (omap f l) ≤ length l)%nat.
Proof.
  induction l as [|x l IH]; simpl; [lia|].
  unfold omap in IH. destruct (f x); simpl; lia.
Qed.

Lemma fetch_errors_app (l1 l2 : list event) :
  fetch_errors (l1 ++ l2) = fetch_errors l1 ++ fetch_errors l2.
Proof. apply omap_app. Qed.

Lemma fetch_all_run `{PyRuntime} (bot : Bot) (board : pystr)
    (sl : search_list) (indices : list Z) :
  ∃ l,
    fetch_all bot board sl indices
    = (l, Return (omap (post_at_index bot board sl) indices)) ∧
    calls l = indices ∧
    fetch_errors l = filter (λ i, raises_at bot board sl i = true) indices.
Proof.
  induction indices as [|i rest (l & IH & Hcalls & Herrs)]; [by exists []|].
  simpl. rewrite IH. unfold fetch, post_at_index, raises_at in *. simpl.
  rewrite filter_cons.
  destruct (get_post bot board i sl) as [| |a]; simpl;
    eexists; (split; [reflexivity|]); simpl;
    rewrite ?calls_app, ?fetch_errors_app, ?Hcalls, ?Herrs; simpl;
    by rewrite ?app_nil_r.
Qed.

(** X1. The dense fetch never raises. It calls [get_post] once at every index
    given, in the order given, returns the posts found there in that order,
    skipping the indices where the session returns nothing or raises, and
    prints one error line for every index where it raises. *)
Theorem dense_fetch_collects `{PyRuntime} (bot : Bot) (board : pystr)
    (sl : search_list) (indices : list Z) :
  ∃ l,
    fetch_all bot board sl indices
    = (l, Return (omap (post_at_index bot board sl) indices)) ∧
    calls l = indices ∧
    fetch_errors l = filter (λ i, raises_at bot board sl i = true) indices.
Proof. apply fetch_all_run. Qed.

(** ** Count-based queries *)

Lemma py_range_bounds (a b i : Z) : i ∈ py_range a b ↔ a <= i < b.
Proof. unfold py_range. rewrite elem_of_seqZ. lia. Qed.

Lemma fetch_newest_run `{PyRuntime} (bot : Bot) (board : pystr) (sl : search_list)
    (newest count : Z) :
  ∃ l,
    fetch_newest bot board sl newest count
    = (l, Return (omap (post_at_index bot board sl) (calls l))) ∧
    calls l = py_range (Z.max 1 (newest - count + 1)) (newest + 1) ∧
    Forall (λ i, 1 <= i <= newest) (calls l) ∧
    length (calls l) = Z.to_nat (Z.min count newest).
Proof.
  unfold fetch_newest.
  destruct (fetch_all_run bot board sl
              (py_range (Z.max 1 (newest - count + 1)) (newest + 1)))
    as (l & Hrun & Hcalls & _).
  exists l. rewrite Hcalls. split_and!; [done|done| |].
  - apply Forall_forall. intros i Hi%py_range_bounds. lia.
  - unfold py_range. rewrite length_seqZ. lia.
Qed.

(** X2. Without a time window [get_articles] fetches the indices
    max(1, newest - count + 1) .. newest and no other: never an index below
    1 or above the newest, min(count, newest) fetches in all (none when
    that is not positive), and it returns the posts found there, oldest
    first, so at most [count] articles. *)
Theorem count_based_fetch_bounds `{PyRuntime} (bot : Bot) (fuel : nat)
    (board : pystr) (count newest : Z) :
  get_newest_index bot board None = Some newest →
  ∃ l articles,
    get_articles bot fuel board count None None = (l, Return articles) ∧
    articles = omap (post_at_index bot board None) (calls l) ∧
    calls l = py_range (Z.max 1 (newest - count + 1)) (newest + 1) ∧
    Forall (λ i, 1 <= i <= newest) (calls l) ∧
    length (calls l) = Z.to_nat (Z.min count newest) ∧
    (length articles ≤ Z.to_nat (Z.min count newest))%nat.
Proof.
  intros Hn. unfold get_articles, call_newest_index. simpl. rewrite Hn. simpl.
  destruct (fetch_newest_run bot board None newest count)
    as (l & -> & Hcalls & Hall & Hlen).
  exists (CallNewestIndex None :: l), (omap (post_at_index bot board None) (calls l)).
  change (calls (CallNewestIndex None :: l)) with (calls l).
  split_and!; [done..|].
  rewrite <-Hlen. apply length_omap_le.
Qed.

(** Three posts asked of the afternoon board, whose newest index is 1000. *)
Lemma count_based_fetch_bounds_witness :
  get_newest_index Fixtures.afternoon_board Fixtures.gossiping None = Some 1000 ∧
  ∃ l articles,
    get_articles (H:=Fixtures.runtime) Fixtures.afternoon_board 0 Fixtures.gossiping 3
      None None = (l, Return articles) ∧
    articles = omap (post_at_index Fixtures.afternoon_board Fixtures.gossiping None)
                 (calls l) ∧
    calls l = py_range (Z.max 1 (1000 - 3 + 1)) (1000 + 1) ∧
    Forall (λ i, 1 <= i <= 1000) (calls l) ∧
    length (calls l) = Z.to_nat (Z.min 3 1000) ∧
    (length articles ≤ Z.to_nat (Z.min 3 1000))%nat.
Proof.
  split; [reflexivity|].
  apply (count_based_fetch_bounds (H:=Fixtures.runtime) Fixtures.afternoon_board 0
           Fixtures.gossiping 3 1000).
  reflexivity.
Defined.

(** X3. When the session cannot give the newest index, [get_articles]
    raises the session's exception, while [search_by_title] and
    [search_by_author] return an empty list on the count-based path; none of
    them calls [get_post]. *)
Theorem newest_index_failure `{PyRuntime} (bot : Bot) (fuel : nat)
    (board key : pystr) (count : Z) (ty : search_type) :
  get_newest_index bot board None = None →
  get_newest_index bot board (Some (ty, key)) = None →
  get_articles bot fuel board count None None
  = ([CallNewestIndex None], Raise ApiError) ∧
  search_by bot ty fuel board key count None None
  = ([CallNewestIndex (Some (ty, key))], Return []) ∧
  (∀ keyword,
     search_by_comment_content bot fuel board keyword count None None
     = ([CallNewestIndex None], Raise ApiError)) ∧
  (∀ author,
     search_comments_by_author bot fuel board author None None count
     = ([CallNewestIndex None], Raise ApiError)).
Proof.
  intros Hn Hs.
  assert (get_articles bot fuel board count None None
          = ([CallNewestIndex None], Raise ApiError)) as Hget.
  { unfold get_articles, call_newest_index. simpl. by rewrite Hn. }
  split_and!; [done| | |].
  - unfold search_by, call_newest_index. simpl. by rewrite Hs.
  - intros keyword. unfold search_by_comment_content. by rewrite Hget.
  - intros author. unfold search_comments_by_author. by rewrite Hget.
Qed.

(** [main.py]'s [get_board_articles] and the crawler's [get_articles] make
    the same session calls and end alike. *)
Lemma get_board_articles_run `{PyRuntime} (bot : Bot) (fuel : nat)
    (board : pystr) (count : Z) :
  result (get_board_articles bot board count)
  = result (get_articles bot fuel board count None None) ∧
  calls (trace (get_board_articles bot board count))
  = calls (trace (get_articles bot fuel board count None None)) ∧
  fetch_errors (trace (get_board_articles bot board count))
  = fetch_errors (trace (get_articles bot fuel board count None None)).
Proof.
  unfold get_board_articles, get_articles, call_newest_index. simpl.
  destruct (get_newest_index bot board None) as [newest|]; [|done]. simpl.
  by destruct (fetch_newest bot board None newest count) as [l r].
Qed.

(** X4. [get_board_articles] of [main.py] and [get_articles] without a time
    window are the same query: the same result or exception, the same
    [get_post] calls and the same fetch errors; only the line announcing the
    newest index differs. *)
Theorem get_board_articles_is_get_articles `{PyRuntime} (bot : Bot) (fuel : nat)
    (board : pystr) (count : Z) :
  result (get_board_articles bot board count)
  = result (get_articles bot fuel board count None None) ∧
  calls (trace (get_board_articles bot board count))
  = calls (trace (get_articles bot fuel board count None None)) ∧
  fetch_errors (trace (get_board_articles bot board count))
  = fetch_errors (trace (get_articles bot fuel board count None None)) ∧
  (∀ newest, get_newest_index bot board None = Some newest →
     ∃ l, trace (get_articles bot fuel board count None None)
          = CallNewestIndex None :: l ∧
          trace (get_board_articles bot board count)
          = CallNewestIndex None :: PrintNewest newest :: l).
Proof.
  destruct (get_board_articles_run bot fuel board count) as (Hr & Hc & He).
  split_and!; [done..|].
  intros newest Hn.
  unfold get_board_articles, get_articles, call_newest_index. simpl.
  rewrite Hn. simpl.
  destruct (fetch_newest bot board None newest count) as [l r].
  by exists l.
Qed.

Lemma newest_index_failure_witness :
  get_newest_index MoreFixtures.offline_bot Fixtures.gossiping None = None ∧
  get_newest_index MoreFixtures.offline_bot Fixtures.gossiping
    (Some (KEYWORD, Fixtures.keyword_push)) = None ∧
  get_articles (H:=Fixtures.runtime) MoreFixtures.offline_bot 0 Fixtures.gossiping 10
    None None = ([CallNewestIndex None], Raise ApiError) ∧
  search_by (H:=Fixtures.runtime) MoreFixtures.offline_bot KEYWORD 0 Fixtures.gossiping
    Fixtures.keyword_push 10 None None
  = ([CallNewestIndex (Some (KEYWORD, Fixtures.keyword_push))], Return []).
Proof.
  split; [reflexivity|]. split; [reflexivity|].
  destruct (newest_index_failure (H:=Fixtures.runtime) MoreFixtures.offline_bot 0
              Fixtures.gossiping Fixtures.keyword_push 10 KEYWORD eq_refl eq_refl)
    as (Hget & Hsearch & _).
  split; [exact Hget|exact Hsearch].
Defined.

Lemma get_board_articles_is_get_articles_witness :
  get_newest_index Fixtures.afternoon_board Fixtures.gossiping None = Some 1000 ∧
  ∃ l, trace (get_articles (H:=Fixtures.runtime) Fixtures.afternoon_board 0
                Fixtures.gossiping 3 None None)
       = CallNewestIndex None :: l ∧
       trace (get_board_articles Fixtures.afternoon_board Fixtures.gossiping 3)
       = CallNewestIndex None :: PrintNewest 1000 :: l.
Proof.
  split; [reflexivity|].
  destruct (get_board_articles_is_get_articles (H:=Fixtures.runtime)
              Fixtures.afternoon_board 0 Fixtures.gossiping 3) as (_ & _ & _ & Htrace).
  apply (Htrace 1000). reflexivity.
Defined.

(** ** Comment filters, continued *)

(** X5. The comment-author search keeps the articles with a comment whose
    author equals the given one up to letter case, and only these, each as
    often and in the order it occurs in the input; it returns what
    [get_articles] raises or the filtered list. *)
Theorem comment_author_search_keeps_matching_articles :
  (∀ (R : PyRuntime) (author : pystr) (all_articles : list article),
     let kept := filter_by_comments (author_matches author) all_articles in
     kept = filter (λ a, existsb (author_matches author) (default [] (comments a)) = true)
              all_articles ∧
     kept `sublist_of` all_articles ∧
     (∀ a, a ∈ kept ↔
           a ∈ all_articles ∧
           ∃ c, c ∈ default [] (comments a) ∧
                py_lower (default [] (c_author c)) = py_lower author)) ∧
  (∀ (R : PyRuntime) (bot : Bot) (fuel : nat) (board author : pystr) (count : Z)
     (start_time end_time : option pystr),
     result (search_comments_by_author bot fuel board author start_time end_time count) =
     match result (get_articles bot fuel board count start_time end_time) with
     | Return all_articles =>
         Return (filter_by_comments (author_matches author) all_articles)
     | Raise e => Raise e
     | OutOfFuel => OutOfFuel
     end).
Proof.
  split; [|by intros R bot fuel board author count st et;
                unfold search_comments_by_author;
                destruct (get_articles _ _ _ _ _ _) as [l [all| |]]].
  intros R author all_articles kept.
  assert (kept = filter (λ a, existsb (author_matches author)
                                (default [] (comments a)) = true) all_articles) as Hkept
    by apply filter_by_comments_filter.
  split_and!; [done| |].
  - rewrite Hkept. apply sublist_filter.
  - intros a. rewrite Hkept, list_elem_of_filter, existsb_exists.
    unfold author_matches. split.
    + intros ((c & Hc & Hm) & Ha). split; [done|]. exists c.
      split; [by apply list_elem_of_In|]. by apply bool_decide_eq_true in Hm.
    + intros (Ha & c & Hc & Hm). split; [|done]. exists c.
      split; [by apply list_elem_of_In|]. by apply bool_decide_eq_true.
Qed.

Lemma existsb_nil_false {A} (f : A → bool) (l : list A) :
  existsb f l = true → l ≠ [].
Proof. by destruct l. Qed.

(** X6. Neither comment search ever returns an article without comments
    (the key absent or the list empty); and the empty keyword, whose lower
    case is empty, matches every comment, so the keyword search then keeps
    exactly the articles that have a comment. *)
Theorem comment_search_needs_comments `{PyRuntime} (test : comment → bool)
    (all_articles : list article) :
  py_lower [] = [] →
  (∀ a, a ∈ filter_by_comments test all_articles → default [] (comments a) ≠ []) ∧
  filter_by_comments (content_matches []) all_articles
  = filter (λ a, default [] (comments a) ≠ []) all_articles.
Proof.
  intros Hlower. rewrite !filter_by_comments_filter. split.
  - intros a [Ha _]%list_elem_of_filter. by eapply existsb_nil_false.
  - apply list_filter_iff. intros a. unfold content_matches. rewrite Hlower.
    destruct (default [] (comments a)) as [|c cs]; [done|]. simpl.
    by destruct (py_lower (default [] (c_content c))).
Qed.

Lemma comment_search_needs_comments_witness :
  py_lower (PyRuntime:=Fixtures.runtime) [] = [] ∧
  (∀ a, a ∈ filter_by_comments (content_matches (H:=Fixtures.runtime) Fixtures.keyword_push)
              [MoreFixtures.silent; Fixtures.praised; MoreFixtures.bare_comment] →
        default [] (comments a) ≠ []) ∧
  filter_by_comments (content_matches (H:=Fixtures.runtime) [])
    [MoreFixtures.silent; Fixtures.praised; MoreFixtures.bare_comment]
  = filter (λ a, default [] (comments a) ≠ [])
      [MoreFixtures.silent; Fixtures.praised; MoreFixtures.bare_comment].
Proof.
  split; [reflexivity|].
  apply (comment_search_needs_comments (H:=Fixtures.runtime)
           (content_matches (H:=Fixtures.runtime) Fixtures.keyword_push)
           [MoreFixtures.silent; Fixtures.praised; MoreFixtures.bare_comment]).
  reflexivity.
Defined.

(** X7. The filters compose as predicates do: filtering a second time by the
    same comment test or the same time window changes nothing, and the
    comment filter and the time-of-day filter can be applied in either
    order. *)
Theorem filters_idempotent_and_commute `{PyRuntime} (test : comment → bool)
    (start_time_obj end_time_obj : time) (all_articles : list article) :
  filter_by_comments test (filter_by_comments test all_articles)
  = filter_by_comments test all_articles ∧
  filter_by_time start_time_obj end_time_obj
    (filter_by_time start_time_obj end_time_obj all_articles)
  = filter_by_time start_time_obj end_time_obj all_articles ∧
  filter_by_comments test (filter_by_time start_time_obj end_time_obj all_articles)
  = filter_by_time start_time_obj end_time_obj (filter_by_comments test all_articles).
Proof.
  repeat (rewrite filter_by_comments_filter || rewrite filter_by_time_filter).
  split_and!.
  - by apply list_filter_filter_l.
  - by apply list_filter_filter_l.
  - rewrite !list_filter_filter. apply list_filter_iff.
    intros a. split; intros [? ?]; by split.
Qed.

(** ** The texts of a time window *)

Lemma split_colon_aux_nonempty (cur s : pystr) : Str.split_colon_aux cur s ≠ [].
Proof.
  revert cur. induction s as [|c s IH]; intros cur; simpl; [done|].
  destruct (c =? 58)%N; [done|apply IH].
Qed.

Lemma split_colon_aux_one (cur s x : pystr) :
  Str.split_colon_aux cur s = [x] ↔ x = cur ++ s ∧ (58 ∉ s)%N.
Proof.
  revert cur. induction s as [|c s IH]; intros cur; simpl.
  - rewrite app_nil_r. split; [intros [= <-]|intros [-> _]]; [|done].
    split; [done|]. apply not_elem_of_nil.
  - destruct (N.eqb_spec c 58) as [->|Hc].
    + split.
      * intros [= _ Hnil]. by apply split_colon_aux_nonempty in Hnil.
      * intros [_ Hnot]. exfalso. apply Hnot. by left.
    + rewrite IH, <-app_assoc. simpl. rewrite not_elem_of_cons.
      split; [intros [-> ?]|intros [-> [_ ?]]]; by repeat split; try congruence.
Qed.

Lemma split_colon_aux_two (cur s x y : pystr) :
  Str.split_colon_aux cur s = [x; y] ↔
  ∃ a, x = cur ++ a ∧ s = a ++ (58%N :: y) ∧ (58 ∉ a)%N ∧ (58 ∉ y)%N.
Proof.
  revert cur. induction s as [|c s IH]; intros cur; simpl.
  - split; [done|]. intros (a & _ & Heq & _). by destruct a.
  - destruct (N.eqb_spec c 58) as [->|Hc].
    + split.
      * intros [= <- Hy]. apply split_colon_aux_one in Hy as [-> Hy].
        exists []. rewrite app_nil_r. split_and!; [done|done|apply not_elem_of_nil|done].
      * intros (a & -> & Heq & Ha & Hy). destruct a as [|c a].
        -- injection Heq as ->. rewrite app_nil_r. f_equal.
           by apply split_colon_aux_one.
        -- injection Heq as <- _. exfalso. apply Ha. by left.
    + rewrite IH. split.
      * intros (a & -> & -> & Ha & Hy). exists (c :: a).
        rewrite <-app_assoc. split_and!; [done|done| |done].
        rewrite not_elem_of_cons. by split; [congruence|].
      * intros (a & -> & Heq & Ha & Hy). destruct a as [|c' a].
        -- injection Heq as -> _. done.
        -- injection Heq as <- ->. exists a.
           rewrite <-app_assoc. apply not_elem_of_cons in Ha as [_ Ha]. done.
Qed.

Section WindowTexts.

Context `{PyRuntime}.

Lemma parse_hhmm_cases (s : pystr) :
  (∃ hm, parse_hhmm s = ([], Return hm)) ∨ parse_hhmm s = ([], Raise ValueError).
Proof.
  unfold parse_hhmm.
  destruct (Str.split_colon s) as [|a [|b [|c l]]]; [by right..| |by right].
  destruct (py_int a), (py_int b); [left; by eexists|by right..].
Qed.

Lemma fits_c_int_spec (z : Z) :
  fits_c_int z = true ↔ -2147483648 <= z <= 2147483647.
Proof. unfold fits_c_int. rewrite andb_true_iff. lia. Qed.

Lemma make_time_cases (hm : Z * Z) :
  (∃ t, make_time hm = ([], Return t))
  ∨ make_time hm = ([], Raise ValueError)
  ∨ make_time hm = ([], Raise OverflowError).
Proof.
  unfold make_time. destruct hm as [h m].
  destruct (fits_c_int h && fits_c_int m); [|by right; right].
  destruct ((0 <=? h) && (h <? 24) && (0 <=? m) && (m <? 60));
    [left; by eexists|by right; left].
Qed.

Lemma make_time_overflow (h m : Z) :
  result (make_time (h, m)) = Raise OverflowError ↔
  ¬ (-2147483648 <= h <= 2147483647 ∧ -2147483648 <= m <= 2147483647).
Proof.
  unfold make_time. rewrite <-!fits_c_int_spec, <-andb_true_iff.
  destruct (fits_c_int h && fits_c_int m).
  - by destruct ((0 <=? h) && (h <? 24) && (0 <=? m) && (m <? 60)).
  - simpl. split; [by intros _ ?|done].
Qed.

Lemma time_of_text_cases (s : pystr) :
  (∃ t, time_of_text s = ([], Return t))
  ∨ time_of_text s = ([], Raise ValueError)
  ∨ time_of_text s = ([], Raise OverflowError).
Proof.
  unfold time_of_text.
  destruct (parse_hhmm_cases s) as [[hm ->]| ->]; [|by right; left]. simpl.
  destruct (make_time_cases hm) as [[t ->]|[->| ->]];
    [left; by eexists|by right; left|by right; right].
Qed.

Lemma parse_hhmm_Return (s : pystr) (h m : Z) :
  result (parse_hhmm s) = Return (h, m) ↔
  ∃ a b,
    s = a ++ (58%N :: b) ∧ (58 ∉ a)%N ∧ (58 ∉ b)%N ∧
    py_int a = Some h ∧ py_int b = Some m.
Proof.
  unfold parse_hhmm, Str.split_colon. split.
  - destruct (Str.split_colon_aux [] s) as [|a [|b [|c l]]] eqn:Hsplit; try done.
    apply split_colon_aux_two in Hsplit as (a' & -> & -> & Ha & Hb). simpl in *.
    destruct (py_int a') as [h'|] eqn:Hh; [|done].
    destruct (py_int b) as [m'|] eqn:Hm; [|done]. simpl.
    intros [= <- <-]. by exists a', b.
  - intros (a & b & -> & Ha & Hb & Hh & Hm).
    assert (Str.split_colon_aux [] (a ++ (58%N :: b)) = [a; b]) as ->.
    { apply split_colon_aux_two. by exists a. }
    by rewrite Hh, Hm.
Qed.

Lemma time_of_text_Return (s : pystr) (t : time) :
  result (time_of_text s) = Return t ↔
  ∃ a b h m,
    s = a ++ (58%N :: b) ∧ (58 ∉ a)%N ∧ (58 ∉ b)%N ∧
    py_int a = Some h ∧ py_int b = Some m ∧
    0 <= h < 24 ∧ 0 <= m < 60 ∧ t = mk_time h m 0.
Proof.
  unfold time_of_text. split.
  - intros Hr. apply bind_return_inv in Hr as ([h m] & Hp & Hm).
    apply parse_hhmm_Return in Hp as (a & b & -> & Ha & Hb & Hh & Hmm).
    exists a, b, h, m. unfold make_time in Hm.
    destruct (fits_c_int h && fits_c_int m); [|done].
    destruct ((0 <=? h) && (h <? 24) && (0 <=? m) && (m <? 60)) eqn:Hrange; [|done].
    simpl in Hm. injection Hm as <-. split_and!; try done; lia.
  - intros (a & b & h & m & -> & Ha & Hb & Hh & Hm & Hhr & Hmr & ->).
    assert (result (parse_hhmm (a ++ (58%N :: b))) = Return (h, m)) as Hp.
    { apply parse_hhmm_Return. by exists a, b. }
    rewrite (bind_trace_return _ _ _ Hp). unfold make_time.
    replace (fits_c_int h && fits_c_int m) with true
      by (symmetry; rewrite andb_true_iff, !fits_c_int_spec; lia).
    replace ((0 <=? h) && (h <? 24) && (0 <=? m) && (m <? 60)) with true; [done|].
    symmetry. rewrite !andb_true_iff. lia.
Qed.

Lemma time_of_text_overflow (s : pystr) :
  result (time_of_text s) = Raise OverflowError ↔
  ∃ a b h m,
    s = a ++ (58%N :: b) ∧ (58 ∉ a)%N ∧ (58 ∉ b)%N ∧
    py_int a = Some h ∧ py_int b = Some m ∧
    ¬ (-2147483648 <= h <= 2147483647 ∧ -2147483648 <= m <= 2147483647).
Proof.
  unfold time_of_text. split.
  - destruct (parse_hhmm_cases s) as [[[h m] Hp]|Hp]; rewrite Hp; [|done].
    unfold bind. destruct (make_time (h, m)) as [l r] eqn:Hm. simpl. intros ->.
    assert (result (parse_hhmm s) = Return (h, m)) as Hr by (by rewrite Hp).
    apply parse_hhmm_Return in Hr as (a & b & -> & Ha & Hb & Hh & Hmm).
    exists a, b, h, m. split_and!; try done.
    apply make_time_overflow. by rewrite Hm.
  - intros (a & b & h & m & -> & Ha & Hb & Hh & Hm & Hbig).
    assert (result (parse_hhmm (a ++ (58%N :: b))) = Return (h, m)) as Hp.
    { apply parse_hhmm_Return. by exists a, b. }
    rewrite (bind_trace_return _ _ _ Hp).
    change (result (make_time (h, m)) = Raise OverflowError).
    by apply make_time_overflow.
Qed.

End WindowTexts.

(** X8. A text denotes a time of day exactly when it has one colon, both
    parts are integers to [int], the first within 0..23 and the second
    within 0..59; the time then has these hours and minutes and 0 seconds.
    Any other text raises, and nothing is printed either way: it raises
    [OverflowError] exactly when it has one colon, both parts are integers
    and one of them does not fit a C [int] (an hour of 2147483648), and
    [ValueError] otherwise (no colon, two colons, a part that is no number,
    an hour of 24). *)
Theorem window_text_is_hours_and_minutes `{PyRuntime} (s : pystr) :
  (∀ t, result (time_of_text s) = Return t ↔
        ∃ a b h m,
          s = a ++ (58%N :: b) ∧ (58 ∉ a)%N ∧ (58 ∉ b)%N ∧
          py_int a = Some h ∧ py_int b = Some m ∧
          0 <= h < 24 ∧ 0 <= m < 60 ∧ t = mk_time h m 0) ∧
  (result (time_of_text s) = Raise OverflowError ↔
   ∃ a b h m,
     s = a ++ (58%N :: b) ∧ (58 ∉ a)%N ∧ (58 ∉ b)%N ∧
     py_int a = Some h ∧ py_int b = Some m ∧
     ¬ (-2147483648 <= h <= 2147483647 ∧ -2147483648 <= m <= 2147483647)) ∧
  ((∃ t, time_of_text s = ([], Return t))
   ∨ time_of_text s = ([], Raise ValueError)
   ∨ time_of_text s = ([], Raise OverflowError)).
Proof.
  split_and!;
    [apply time_of_text_Return|apply time_of_text_overflow|apply time_of_text_cases].
Qed.

(** ** Failing fast on a malformed window *)

Section MalformedWindow.

Context `{PyRuntime}.
Variable ptt_bot : Bot.

(** Both texts are split and converted before either time is built, so the
    exception is that of the first of these four steps that fails. *)
Lemma find_article_range_by_time_malformed fuel board start_time end_time sl stride :
  (∀ t, result (time_of_text start_time) ≠ Return t)
  ∨ (∀ t, result (time_of_text end_time) ≠ Return t) →
  ∃ e,
    find_article_range_by_time ptt_bot fuel board start_time end_time sl stride
    = ([], Raise e) ∧
    (e = ValueError ∨ e = OverflowError) ∧
    (e = OverflowError ↔
     (result (time_of_text start_time) = Raise OverflowError
      ∧ ∃ ehm, result (parse_hhmm end_time) = Return ehm)
     ∨ ((∃ t, result (time_of_text start_time) = Return t)
        ∧ result (time_of_text end_time) = Raise OverflowError)).
Proof.
  unfold find_article_range_by_time, time_of_text.
  destruct (parse_hhmm_cases start_time) as [[shm ->]| ->].
  2: { intros _. exists ValueError. simpl. split_and!; [done|by left|].
       split; [done|]. by intros [[? _]|[[t ?] _]]. }
  destruct (parse_hhmm_cases end_time) as [[ehm ->]| ->].
  2: { intros _. exists ValueError. simpl. split_and!; [done|by left|].
       split; [done|]. intros [[_ [? ?]]|[_ ?]]; done. }
  simpl.
  destruct (make_time_cases shm) as [[ts ->]|[->| ->]].
  - destruct (make_time_cases ehm) as [[te ->]|[->| ->]]; simpl.
    + intros [Hbad|Hbad]; by destruct (Hbad _ eq_refl).
    + intros _. exists ValueError. split_and!; [done|by left|].
      split; [done|]. intros [[? _]|[_ ?]]; done.
    + intros _. exists OverflowError. split_and!; [done|by right|].
      split; [|done]. intros _. right. split; [by exists ts|done].
  - intros _. exists ValueError. simpl. split_and!; [done|by left|].
    split; [done|]. intros [[? _]|[[t ?] _]]; done.
  - intros _. exists OverflowError. simpl. split_and!; [done|by right|].
    split; [|done]. intros _. left. split; [done|by exists ehm].
Qed.

Lemma get_articles_by_time_range_malformed fuel board start_time end_time sl e :
  find_article_range_by_time ptt_bot fuel board start_time end_time sl
    default_sample_interval = ([], Raise e) →
  _get_articles_by_time_range ptt_bot fuel board start_time end_time sl
  = ([], Raise e).
Proof. intros Hfind. unfold _get_articles_by_time_range. by rewrite Hfind. Qed.

End MalformedWindow.

(** X9. When both window texts are given and one of them is not a time of
    day, every query raises at once: no session call is made and nothing is
    printed. Both texts are split into integers before either time is
    built, so the exception is [OverflowError] exactly when the start text
    holds a number beyond a C [int] and the end text splits into two
    integers, or the start text is a time of day and the end text holds a
    number beyond a C [int]; it is [ValueError] otherwise. *)
Theorem malformed_window_fails_fast `{PyRuntime} (bot : Bot) (fuel : nat)
    (board key start_time end_time : pystr) (count : Z) (ty : search_type) :
  Str.truthy start_time = true → Str.truthy end_time = true →
  (∀ t, result (time_of_text start_time) ≠ Return t)
  ∨ (∀ t, result (time_of_text end_time) ≠ Return t) →
  ∃ e,
    get_articles bot fuel board count (Some start_time) (Some end_time)
    = ([], Raise e) ∧
    search_by bot ty fuel board key count (Some start_time) (Some end_time)
    = ([], Raise e) ∧
    search_by_comment_content bot fuel board key count (Some start_time) (Some end_time)
    = ([], Raise e) ∧
    search_comments_by_author bot fuel board key (Some start_time) (Some end_time) count
    = ([], Raise e) ∧
    (e = ValueError ∨ e = OverflowError) ∧
    (e = OverflowError ↔
     (result (time_of_text start_time) = Raise OverflowError
      ∧ ∃ ehm, result (parse_hhmm end_time) = Return ehm)
     ∨ ((∃ t, result (time_of_text start_time) = Return t)
        ∧ result (time_of_text end_time) = Raise OverflowError)).
Proof.
  intros Hs He Hbad.
  destruct (find_article_range_by_time_malformed bot fuel board start_time end_time
              None default_sample_interval Hbad) as (e & Hnone & Hkind & Hover).
  destruct (find_article_range_by_time_malformed bot fuel board start_time end_time
              (Some (ty, key)) default_sample_interval Hbad)
    as (e' & Hsome & Hkind' & Hover').
  assert (e' = e) as ->.
  { destruct Hkind as [->| ->], Hkind' as [->| ->]; [done| | |done].
    - symmetry. apply Hover. by apply Hover'.
    - apply Hover'. by apply Hover. }
  exists e.
  assert (get_articles bot fuel board count (Some start_time) (Some end_time)
          = ([], Raise e)) as Hget.
  { unfold get_articles. simpl. rewrite Hs, He. simpl.
    by apply get_articles_by_time_range_malformed. }
  split_and!; [done| | | |done|done].
  - unfold search_by. simpl. rewrite Hs, He. simpl.
    by apply get_articles_by_time_range_malformed.
  - unfold search_by_comment_content. by rewrite Hget.
  - unfold search_comments_by_author. by rewrite Hget.
Qed.

(** A window from an hour of 2147483648 to 14:00: the hour does not fit a
    C [int]. *)
Lemma malformed_window_fails_fast_witness :
  Str.truthy MoreFixtures.huge_hour = true ∧
  Str.truthy Fixtures.two_pm = true ∧
  ((∀ t, result (time_of_text (H:=Fixtures.runtime) MoreFixtures.huge_hour) ≠ Return t)
   ∨ (∀ t, result (time_of_text (H:=Fixtures.runtime) Fixtures.two_pm) ≠ Return t)) ∧
  ∃ e,
    get_articles (H:=Fixtures.runtime) Fixtures.afternoon_board 10 Fixtures.gossiping 5
      (Some MoreFixtures.huge_hour) (Some Fixtures.two_pm)
    = ([], Raise e) ∧
    (e = OverflowError ↔
     (result (time_of_text (H:=Fixtures.runtime) MoreFixtures.huge_hour)
      = Raise OverflowError
      ∧ ∃ ehm, result (parse_hhmm (H:=Fixtures.runtime) Fixtures.two_pm) = Return ehm)
     ∨ ((∃ t, result (time_of_text (H:=Fixtures.runtime) MoreFixtures.huge_hour)
              = Return t)
        ∧ result (time_of_text (H:=Fixtures.runtime) Fixtures.two_pm)
          = Raise OverflowError)).
Proof.
  assert ((∀ t, result (time_of_text (H:=Fixtures.runtime) MoreFixtures.huge_hour)
                ≠ Return t)
          ∨ (∀ t, result (time_of_text (H:=Fixtures.runtime) Fixtures.two_pm)
                  ≠ Return t)) as Hbad by (left; intros t; vm_compute; discriminate).
  split; [reflexivity|]. split; [reflexivity|]. split; [exact Hbad|].
  destruct (malformed_window_fails_fast (H:=Fixtures.runtime) Fixtures.afternoon_board 10
              Fixtures.gossiping Fixtures.keyword_push MoreFixtures.huge_hour
              Fixtures.two_pm 5 KEYWORD eq_refl eq_refl Hbad)
    as (e & Hget & _ & _ & _ & _ & Hover).
  exists e. split; [exact Hget|exact Hover].
Defined.

(** ** Sampling, continued *)

Section SamplerMore.

Context `{PyRuntime}.
Variable ptt_bot : Bot.
Variable board : pystr.
Variable sl : search_list.
Variable target_start : time.
Variable stride : Z.

(** One iteration in terms of the probe at its index. *)
Lemma sample_body_probe current_index samples :
  ∃ l,
    sample_body ptt_bot board sl target_start current_index samples =
    (l, Return
          (samples ++ option_list (probe ptt_bot board sl current_index),
           match probe ptt_bot board sl current_index with
           | Some s => if early_stop target_start (samples ++ [s]) then Break
                       else Continue
           | None => Continue
           end)) ∧
    calls l = [current_index].
Proof.
  unfold sample_body, fetch, probe, post_at_index, parsed_date. simpl.
  destruct (get_post ptt_bot board current_index sl) as [| |a]; simpl;
    rewrite ?app_nil_r; [by eexists..|].
  destruct (date_str (date a)) as [s|]; simpl; rewrite ?app_nil_r; [|by eexists].
  destruct (strptime FmtPost s) as [dt|]; simpl; rewrite ?app_nil_r; [|by eexists].
  destruct (early_stop target_start _); simpl; by eexists.
Qed.

Lemma omap_cons_option_list {A B} (f : A → option B) (x : A) (l : list A) :
  omap f (x :: l) = option_list (f x) ++ omap f l.
Proof. simpl. by destruct (f x). Qed.

(** The samples the loop adds are the probes that yield one, in the order of
    the calls. *)
Lemma sample_loop_probes fuel :
  ∀ current_index samples l st,
    sample_loop ptt_bot board sl target_start stride fuel current_index samples
    = (l, Return st) →
    snd st = samples ++ omap (probe ptt_bot board sl) (calls l).
Proof.
  induction fuel as [|fuel IH]; intros cur samples l st; simpl.
  - destruct (0 <? cur); [done|]. intros [= <- <-]. simpl. by rewrite app_nil_r.
  - destruct (0 <? cur); [|intros [= <- <-]; simpl; by rewrite app_nil_r].
    destruct (sample_body_probe cur samples) as (l0 & -> & Hcalls). simpl.
    set (samples' := samples ++ _).
    destruct (match probe ptt_bot board sl cur with
              | Some s => if early_stop target_start (samples ++ [s]) then Break
                          else Continue
              | None => Continue
              end).
    + destruct (1000 <=? length samples')%nat.
      * simpl. intros [= <- <-].
        rewrite calls_app, Hcalls, omap_app, omap_cons_option_list.
        simpl. by rewrite !app_nil_r.
      * destruct (sample_loop ptt_bot board sl target_start stride fuel
                    (cur - stride) samples') as [l1 r1] eqn:Hloop.
        intros [= <- ->]. rewrite (IH _ _ _ _ Hloop).
        rewrite calls_app, Hcalls, omap_app, omap_cons_option_list.
        unfold samples'. simpl. by rewrite app_nil_r, <-app_assoc.
    + simpl. intros [= <- <-].
      rewrite calls_app, Hcalls, omap_app, omap_cons_option_list.
      simpl. by rewrite !app_nil_r.
Qed.

(** The calls of a run that returns lie between 1 and the index it started
    at. *)
Lemma sample_loop_calls_bounded fuel :
  ∀ current_index samples l st,
    0 < stride →
    sample_loop ptt_bot board sl target_start stride fuel current_index samples
    = (l, Return st) →
    Forall (λ i, 1 <= i <= current_index) (calls l).
Proof.
  induction fuel as [|fuel IH]; intros cur samples l st Hs; simpl.
  - destruct (0 <? cur); [done|]. intros [= <- <-]. constructor.
  - destruct (Z.ltb_spec 0 cur); [|intros [= <- <-]; constructor].
    destruct (sample_body_probe cur samples) as (l0 & -> & Hcalls). simpl.
    set (samples' := samples ++ _).
    destruct (match probe ptt_bot board sl cur with
              | Some s => if early_stop target_start (samples ++ [s]) then Break
                          else Continue
              | None => Continue
              end).
    + destruct (1000 <=? length samples')%nat.
      * simpl. intros [= <- <-]. rewrite calls_app, Hcalls. simpl.
        repeat constructor; lia.
      * destruct (sample_loop ptt_bot board sl target_start stride fuel
                    (cur - stride) samples') as [l1 r1] eqn:Hloop.
        intros [= <- ->]. rewrite calls_app, Hcalls. simpl.
        constructor; [lia|].
        eapply Forall_impl; [by eapply IH|]. simpl. intros; lia.
    + simpl. intros [= <- <-]. rewrite calls_app, Hcalls. simpl.
      repeat constructor; lia.
Qed.

(** A board that one stride covers is probed once. *)
Lemma sample_loop_single_probe fuel newest :
  0 < newest <= stride →
  ∃ l samples,
    sample_loop ptt_bot board sl target_start stride (S fuel) newest []
    = (l, Return (newest - stride, samples)) ∧
    calls l = [newest] ∧ (length samples ≤ 1)%nat.
Proof.
  intros Hn. simpl. destruct (Z.ltb_spec 0 newest); [|lia].
  destruct (sample_body_probe newest []) as (l0 & -> & Hcalls).
  assert (∀ samples : list sample,
            sample_loop ptt_bot board sl target_start stride fuel (newest - stride)
              samples = ([], Return (newest - stride, samples))) as Hrest.
  { intros samples. destruct fuel; simpl;
      by destruct (Z.ltb_spec 0 (newest - stride)); [lia|]. }
  destruct (probe ptt_bot board sl newest) as [s|];
    [rewrite (early_stop_short target_start ([] ++ [s])) by (simpl; lia)|]; simpl.
  - destruct (Nat.leb_spec 1000 (length [s])); [simpl in *; lia|].
    rewrite Hrest. exists (l0 ++ []), [s].
    rewrite calls_app, Hcalls. split_and!; [done|done|simpl; lia].
  - destruct (Nat.leb_spec 1000 (length (@nil sample))); [simpl in *; lia|].
    rewrite Hrest. exists (l0 ++ []), [].
    rewrite calls_app, Hcalls. split_and!; [done|done|simpl; lia].
Qed.

(** Without a positive stride the loop cannot leave a stretch of the board
    that yields no sample. *)
Lemma sample_loop_stuck fuel :
  ∀ current_index samples,
    stride <= 0 → 0 < current_index →
    (∀ i, current_index <= i → probe ptt_bot board sl i = None) →
    (length samples < 1000)%nat →
    result (sample_loop ptt_bot board sl target_start stride fuel current_index samples)
    = OutOfFuel.
Proof.
  induction fuel as [|fuel IH]; intros cur samples Hs Hcur Hnone Hlen; simpl.
  - by destruct (Z.ltb_spec 0 cur); [|lia].
  - destruct (Z.ltb_spec 0 cur); [|lia].
    destruct (sample_body_probe cur samples) as (l0 & -> & _). simpl.
    rewrite (Hnone cur) by lia. simpl. rewrite app_nil_r.
    destruct (Nat.leb_spec 1000 (length samples)); [lia|].
    specialize (IH (cur - stride) samples Hs).
    destruct (sample_loop ptt_bot board sl target_start stride fuel
                (cur - stride) samples) as [l1 r1].
    simpl in *. apply IH; [lia| |done].
    intros i Hi. apply Hnone. lia.
Qed.

End SamplerMore.

Lemma bind_out_of_fuel {A B} (m : M A) (f : A → M B) :
  result m = OutOfFuel → result (bind m f) = OutOfFuel.
Proof. destruct m as [l r]. simpl. by intros ->. Qed.

Lemma locate_calls ws we stride samples : calls (trace (locate ws we stride samples)) = [].
Proof.
  unfold locate. destruct (length samples <? 2)%nat; [done|].
  by destruct (determine_range ws we stride samples) as [[lo hi]|].
Qed.

Lemma calls_cons_fetching lo hi l : calls (PrintFetching lo hi :: l) = calls l.
Proof. done. Qed.

Section WindowRuns.

Context `{PyRuntime}.
Variable ptt_bot : Bot.

(** A windowed query that returns: its stages, its result and its calls. *)
Lemma get_articles_by_time_range_inv fuel board start_time end_time sl r :
  result (_get_articles_by_time_range ptt_bot fuel board start_time end_time sl)
  = Return r →
  ∃ ts te newest st,
    result (time_of_text start_time) = Return ts ∧
    result (time_of_text end_time) = Return te ∧
    get_newest_index ptt_bot board sl = Some newest ∧
    sample_loop ptt_bot board sl ts default_sample_interval fuel newest []
    = (trace (sample_loop ptt_bot board sl ts default_sample_interval fuel newest []),
       Return st) ∧
    ((result (locate ts te default_sample_interval (snd st)) = Return None ∧
      r = [] ∧
      calls (trace (_get_articles_by_time_range ptt_bot fuel board start_time end_time sl))
      = calls (trace (sample_loop ptt_bot board sl ts default_sample_interval fuel
                        newest [])))
     ∨
     (∃ lo hi,
        result (locate ts te default_sample_interval (snd st)) = Return (Some (lo, hi)) ∧
        r = filter_by_time ts te
              (omap (post_at_index ptt_bot board sl) (py_range lo (hi + 1))) ∧
        calls (trace (_get_articles_by_time_range ptt_bot fuel board start_time
                        end_time sl))
        = calls (trace (sample_loop ptt_bot board sl ts default_sample_interval fuel
                          newest []))
          ++ py_range lo (hi + 1))).
Proof.
  intros Hr. unfold _get_articles_by_time_range in *.
  pose proof Hr as Hr'.
  apply bind_return_inv in Hr' as (range & Hfind & Hcont).
  pose proof Hfind as Hstages.
  apply find_article_range_by_time_inv
    in Hstages as (ts & te & newest & st & Hts & Hte & Hn & Hst & Hloc).
  exists ts, te, newest, st. split_and!; [done|done|done| |].
  { destruct (sample_loop ptt_bot board sl ts default_sample_interval fuel newest [])
      as [l0 r0]. simpl in *. by subst r0. }
  rewrite (find_article_range_by_time_run ptt_bot fuel board start_time end_time sl
             default_sample_interval ts te newest st Hts Hte Hn Hst) in *.
  simpl in Hfind. rewrite Hloc in *. simpl.
  pose proof (locate_calls ts te default_sample_interval (snd st)) as Hlc.
  destruct range as [[lo hi]|].
  - right. exists lo, hi. split; [done|].
    destruct (fetch_all_run ptt_bot board sl (py_range lo (hi + 1)))
      as (lf & Hf & Hfc & _).
    apply time_of_text_inv in Hts as (shm & Hsp & Hsm).
    apply time_of_text_inv in Hte as (ehm & Hep & Hem).
    simpl in Hcont. rewrite Hf, Hsp, Hep in Hcont. simpl in Hcont.
    rewrite Hsm, Hem in Hcont. simpl in Hcont. injection Hcont as <-.
    split; [done|].
    rewrite Hf, Hsp, Hep. simpl. rewrite Hsm, Hem. simpl.
    rewrite !calls_app, Hlc, calls_cons_fetching, calls_app, Hfc. simpl.
    by rewrite !app_nil_r.
  - left. split; [done|]. simpl in Hcont. injection Hcont as <-. split; [done|].
    simpl. rewrite !calls_app, Hlc. simpl. by rewrite !app_nil_r.
Qed.

End WindowRuns.

(** X10. A board, or a search, of at most [sample_interval] = 100 posts is
    probed once, at its newest index, which never gives the two samples the
    locator needs: whatever the window, a windowed query there returns the
    empty list and fetches no range. *)
Theorem window_query_on_small_board `{PyRuntime} (bot : Bot) (fuel : nat)
    (board start_time end_time : pystr) (sl : search_list)
    (ts te : time) (newest : Z) :
  result (time_of_text start_time) = Return ts →
  result (time_of_text end_time) = Return te →
  get_newest_index bot board sl = Some newest →
  newest <= default_sample_interval →
  result (_get_articles_by_time_range bot (S fuel) board start_time end_time sl)
  = Return [] ∧
  calls (trace (_get_articles_by_time_range bot (S fuel) board start_time end_time sl))
  = (if 0 <? newest then [newest] else []).
Proof.
  intros Hts Hte Hn Hsmall.
  assert (∃ l st,
            sample_loop bot board sl ts default_sample_interval (S fuel) newest []
            = (l, Return st) ∧
            calls l = (if 0 <? newest then [newest] else []) ∧
            (length (snd st) < 2)%nat) as (l & st & Hloop & Hcalls & Hlen).
  { destruct (Z.ltb_spec 0 newest) as [Hpos|Hneg].
    - destruct (sample_loop_single_probe bot board sl ts default_sample_interval
                  fuel newest) as (l & samples & Hl & Hc & Hlen); [lia|].
      exists l, (newest - default_sample_interval, samples).
      split_and!; [done|done|simpl; lia].
    - exists [], (newest, []). simpl.
      destruct (Z.ltb_spec 0 newest); [lia|]. split_and!; [done|done|simpl; lia]. }
  assert (result (sample_loop bot board sl ts default_sample_interval (S fuel) newest [])
          = Return st) as Hr by (by rewrite Hloop).
  pose proof (find_article_range_by_time_run bot (S fuel) board start_time end_time sl
                default_sample_interval ts te newest st Hts Hte Hn Hr) as Hrun.
  rewrite (locate_unresolved ts te _ _ Hlen), Hloop in Hrun.
  unfold _get_articles_by_time_range. rewrite Hrun. simpl.
  split; [done|].
  rewrite !calls_app, Hcalls. simpl. by rewrite !app_nil_r.
Qed.

(** The small board of 50 deleted posts, window 13:00-14:00. *)
Lemma window_query_on_small_board_witness :
  result (time_of_text (H:=Fixtures.runtime) Fixtures.one_pm)
  = Return (Fixtures.at_time 13 0) ∧
  result (time_of_text (H:=Fixtures.runtime) Fixtures.two_pm)
  = Return (Fixtures.at_time 14 0) ∧
  get_newest_index Fixtures.small_board Fixtures.gossiping None = Some 50 ∧
  50 <= default_sample_interval ∧
  result (_get_articles_by_time_range (H:=Fixtures.runtime) Fixtures.small_board 1
            Fixtures.gossiping Fixtures.one_pm Fixtures.two_pm None) = Return [] ∧
  calls (trace (_get_articles_by_time_range (H:=Fixtures.runtime) Fixtures.small_board 1
                  Fixtures.gossiping Fixtures.one_pm Fixtures.two_pm None))
  = (if 0 <? 50 then [50] else []).
Proof.
  split; [reflexivity|]. split; [reflexivity|]. split; [reflexivity|].
  split; [by vm_compute|].
  apply (window_query_on_small_board (H:=Fixtures.runtime) Fixtures.small_board 0
           Fixtures.gossiping Fixtures.one_pm Fixtures.two_pm None
           (Fixtures.at_time 13 0) (Fixtures.at_time 14 0) 50);
    [reflexivity|reflexivity|reflexivity|by vm_compute].
Defined.

(** X11. The samples the sampling loop leaves are exactly the probes that
    yield one, in the order of the [get_post] calls: each sample carries the
    index of a post the session returned, the timestamp that post's date
    parses to and that timestamp's time of day, and every probed post whose
    date parses is among the samples. *)
Theorem samples_are_parsed_probes `{PyRuntime} (bot : Bot) (board : pystr)
    (sl : search_list) (ts : time) (stride : Z) (fuel : nat) (newest : Z)
    (l : list event) (st : Z * list sample) :
  sample_loop bot board sl ts stride fuel newest [] = (l, Return st) →
  snd st = omap (probe bot board sl) (calls l) ∧
  (∀ s, s ∈ snd st →
        s_index s ∈ calls l ∧
        ∃ a, get_post bot board (s_index s) sl = FetchPost a ∧
             parsed_date a = Some (s_datetime s) ∧
             s_time s = DateTime.time_of (s_datetime s)) ∧
  (∀ i a dt, i ∈ calls l → get_post bot board i sl = FetchPost a →
             parsed_date a = Some dt →
             mk_sample i dt (DateTime.time_of dt) ∈ snd st).
Proof.
  intros Hrun. pose proof (sample_loop_probes bot board sl ts stride fuel _ _ _ _ Hrun)
    as Hst. simpl in Hst.
  split_and!; [done| |].
  - intros s Hs. rewrite Hst in Hs.
    apply list_elem_of_omap in Hs as (i & Hi & Hp).
    unfold probe, post_at_index in Hp.
    destruct (get_post bot board i sl) as [| |a] eqn:Hpost; try done.
    destruct (parsed_date a) as [dt|] eqn:Hdt; [|done].
    injection Hp as <-. simpl. split; [done|]. by exists a.
  - intros i a dt Hi Hpost Hdt. rewrite Hst.
    apply list_elem_of_omap. exists i. split; [done|].
    unfold probe, post_at_index. by rewrite Hpost, Hdt.
Qed.

(** The two probes of the midday board that ends with the early stop. *)
Lemma samples_are_parsed_probes_witness :
  sample_loop (H:=Fixtures.runtime) Fixtures.midday_board Fixtures.gossiping None
    (Fixtures.at_time 14 0) 100 10 1000 []
  = ([CallGetPost 1000; PrintSample 1000 (Fixtures.at_time 13 5)]
       ++ Fixtures.midday_second_probe,
     Return (900, [Fixtures.sample_1305; Fixtures.sample_1230])) ∧
  [Fixtures.sample_1305; Fixtures.sample_1230]
  = omap (probe (H:=Fixtures.runtime) Fixtures.midday_board Fixtures.gossiping None)
      (calls ([CallGetPost 1000; PrintSample 1000 (Fixtures.at_time 13 5)]
                ++ Fixtures.midday_second_probe)).
Proof.
  assert (sample_loop (H:=Fixtures.runtime) Fixtures.midday_board Fixtures.gossiping None
            (Fixtures.at_time 14 0) 100 10 1000 []
          = ([CallGetPost 1000; PrintSample 1000 (Fixtures.at_time 13 5)]
               ++ Fixtures.midday_second_probe,
             Return (900, [Fixtures.sample_1305; Fixtures.sample_1230]))) as Hrun
    by (vm_compute; reflexivity).
  split; [exact Hrun|].
  destruct (samples_are_parsed_probes (H:=Fixtures.runtime) Fixtures.midday_board
              Fixtures.gossiping None (Fixtures.at_time 14 0) 100 10 1000 _ _ Hrun)
    as (Hst & _).
  exact Hst.
Defined.

(** X12. [find_article_range_by_time] called with a [sample_interval] of 0
    or less does not return when the newest index is positive and no post at
    or above it yields a sample: the index never falls and no sample is ever
    collected, so the loop runs on whatever the fuel. *)
Theorem sampling_needs_positive_stride `{PyRuntime} (bot : Bot)
    (board start_time end_time : pystr) (sl : search_list)
    (ts te : time) (stride newest : Z) :
  result (time_of_text start_time) = Return ts →
  result (time_of_text end_time) = Return te →
  get_newest_index bot board sl = Some newest →
  0 < newest → stride <= 0 →
  (∀ i, newest <= i → probe bot board sl i = None) →
  ∀ fuel,
    result (find_article_range_by_time bot fuel board start_time end_time sl stride)
    = OutOfFuel.
Proof.
  intros Hts Hte Hn Hpos Hs Hnone fuel.
  apply time_of_text_inv in Hts as (shm & Hsp & Hsm).
  apply time_of_text_inv in Hte as (ehm & Hep & Hem).
  unfold find_article_range_by_time, call_newest_index.
  rewrite Hsp, Hep, Hn. simpl. rewrite Hsm, Hem. simpl.
  pose proof (sample_loop_stuck bot board sl ts stride fuel newest [] Hs Hpos Hnone)
    as Hstuck.
  destruct (sample_loop bot board sl ts stride fuel newest []) as [l r].
  simpl in *. rewrite Hstuck; [done|lia].
Qed.

Lemma small_board_yields_no_sample (i : Z) :
  probe (H:=Fixtures.runtime) Fixtures.small_board Fixtures.gossiping None i = None.
Proof.
  unfold probe, post_at_index, Fixtures.small_board, Fixtures.board_of. simpl.
  by destruct ((1 <=? i) && (i <=? 50)).
Qed.

(** A stride of 0 on the small board of deleted posts. *)
Lemma sampling_needs_positive_stride_witness :
  result (time_of_text (H:=Fixtures.runtime) Fixtures.one_pm)
  = Return (Fixtures.at_time 13 0) ∧
  result (time_of_text (H:=Fixtures.runtime) Fixtures.two_pm)
  = Return (Fixtures.at_time 14 0) ∧
  get_newest_index Fixtures.small_board Fixtures.gossiping None = Some 50 ∧
  0 < 50 ∧ 0 <= 0 ∧
  (∀ i, 50 <= i →
        probe (H:=Fixtures.runtime) Fixtures.small_board Fixtures.gossiping None i
        = None) ∧
  result (find_article_range_by_time (H:=Fixtures.runtime) Fixtures.small_board 25
            Fixtures.gossiping Fixtures.one_pm Fixtures.two_pm None 0)
  = OutOfFuel.
Proof.
  split; [reflexivity|]. split; [reflexivity|]. split; [reflexivity|].
  split; [lia|]. split; [lia|].
  split; [intros i _; apply small_board_yields_no_sample|].
  apply (sampling_needs_positive_stride (H:=Fixtures.runtime) Fixtures.small_board
           Fixtures.gossiping Fixtures.one_pm Fixtures.two_pm None
           (Fixtures.at_time 13 0) (Fixtures.at_time 14 0) 0 50);
    [reflexivity|reflexivity|reflexivity|lia|lia|].
  intros i _. apply small_board_yields_no_sample.
Defined.

(** ** Windowed queries end to end *)

Section WindowedQueries.

Context `{PyRuntime}.
Variable ptt_bot : Bot.

Lemma windowed_calls_bounded fuel board start_time end_time sl newest r :
  get_newest_index ptt_bot board sl = Some newest →
  result (_get_articles_by_time_range ptt_bot fuel board start_time end_time sl)
  = Return r →
  Forall (λ i, 1 <= i <= newest + default_sample_interval)
    (calls (trace (_get_articles_by_time_range ptt_bot fuel board start_time
                     end_time sl))).
Proof.
  intros Hn Hr.
  apply get_articles_by_time_range_inv
    in Hr as (ts & te & n & st & _ & _ & Hn' & Hloop & Hcases).
  assert (n = newest) as -> by congruence.
  assert (0 < default_sample_interval) as Hs by done.
  pose proof (sample_loop_calls_bounded ptt_bot board sl ts default_sample_interval
                fuel newest [] _ st Hs Hloop) as Hsampled.
  assert (Forall (λ i, 1 <= i <= newest + default_sample_interval)
            (calls (trace (sample_loop ptt_bot board sl ts default_sample_interval
                             fuel newest [])))) as Hsampled'.
  { eapply Forall_impl; [exact Hsampled|]. simpl. intros; lia. }
  destruct Hcases as [(_ & _ & ->)|(lo & hi & Hloc & _ & ->)]; [done|].
  apply Forall_app. split; [done|].
  assert (sample_sequence newest (snd st)) as Hseq.
  { eapply sampled_sequence; [exact Hs|]. by rewrite Hloop. }
  destruct (locate_bounds ts te default_sample_interval newest (snd st) Hseq lo hi
              Hs Hloc) as (Hlo & _ & Hhi).
  apply Forall_forall. intros i Hi%py_range_bounds. lia.
Qed.

Lemma windowed_results fuel board start_time end_time sl ts te r :
  result (time_of_text start_time) = Return ts →
  result (time_of_text end_time) = Return te →
  result (_get_articles_by_time_range ptt_bot fuel board start_time end_time sl)
  = Return r →
  Forall (λ a, in_time_range ts te a = true
               ∧ ∃ i, 1 <= i ∧ post_at_index ptt_bot board sl i = Some a) r.
Proof.
  intros Hts Hte Hr.
  apply get_articles_by_time_range_inv
    in Hr as (ts' & te' & n & st & Hts' & Hte' & Hn & Hloop & Hcases).
  assert (ts' = ts) as -> by congruence.
  assert (te' = te) as -> by congruence.
  destruct Hcases as [(_ & -> & _)|(lo & hi & Hloc & -> & _)]; [constructor|].
  assert (0 < default_sample_interval) as Hs by done.
  assert (sample_sequence n (snd st)) as Hseq.
  { eapply sampled_sequence; [exact Hs|]. by rewrite Hloop. }
  destruct (locate_bounds ts te default_sample_interval n (snd st) Hseq lo hi
              Hs Hloc) as (Hlo & _ & _).
  apply Forall_forall. intros a. rewrite filter_by_time_filter.
  intros [Hin Ha]%list_elem_of_filter. split; [done|].
  apply list_elem_of_omap in Ha as (i & Hi%py_range_bounds & Hpost).
  exists i. split; [lia|done].
Qed.

End WindowedQueries.

(** X13. A windowed query that returns has called [get_post] only at
    indices from 1 to the newest index plus one stride of 100: the probes
    lie within the board and the dense fetch within the bracket. *)
Theorem windowed_query_stays_near_board `{PyRuntime} (bot : Bot) (fuel : nat)
    (board start_time end_time : pystr) (sl : search_list) (newest : Z)
    (r : list article) :
  get_newest_index bot board sl = Some newest →
  result (_get_articles_by_time_range bot fuel board start_time end_time sl)
  = Return r →
  Forall (λ i, 1 <= i <= newest + default_sample_interval)
    (calls (trace (_get_articles_by_time_range bot fuel board start_time end_time sl))).
Proof. apply windowed_calls_bounded. Qed.

Lemma afternoon_window_result :
  result (_get_articles_by_time_range (H:=Fixtures.runtime) Fixtures.afternoon_board 10
            Fixtures.gossiping Fixtures.one_pm Fixtures.two_pm None)
  = Return [Fixtures.post "M.1000" "Sat Oct  4 13:30:00 2025"].
Proof. vm_compute. reflexivity. Qed.

Lemma windowed_query_stays_near_board_witness :
  get_newest_index Fixtures.afternoon_board Fixtures.gossiping None = Some 1000 ∧
  result (_get_articles_by_time_range (H:=Fixtures.runtime) Fixtures.afternoon_board 10
            Fixtures.gossiping Fixtures.one_pm Fixtures.two_pm None)
  = Return [Fixtures.post "M.1000" "Sat Oct  4 13:30:00 2025"] ∧
  Forall (λ i, 1 <= i <= 1000 + default_sample_interval)
    (calls (trace (_get_articles_by_time_range (H:=Fixtures.runtime)
                     Fixtures.afternoon_board 10 Fixtures.gossiping Fixtures.one_pm
                     Fixtures.two_pm None))).
Proof.
  split; [reflexivity|]. split; [exact afternoon_window_result|].
  apply (windowed_query_stays_near_board (H:=Fixtures.runtime) Fixtures.afternoon_board
           10 Fixtures.gossiping Fixtures.one_pm Fixtures.two_pm None 1000
           [Fixtures.post "M.1000" "Sat Oct  4 13:30:00 2025"]);
    [reflexivity|exact afternoon_window_result].
Defined.

(** X14. With a time window, every article [get_articles] returns is a post
    of the board whose date parses to a time of day within the window, and
    [count] plays no part; [search_by_comment_content] and
    [search_comments_by_author] return only articles that pass both the
    window and their comment test. *)
Theorem windowed_results_pass_the_window `{PyRuntime} (bot : Bot) (fuel : nat)
    (board key start_time end_time : pystr) (count : Z) (ts te : time) :
  Str.truthy start_time = true → Str.truthy end_time = true →
  result (time_of_text start_time) = Return ts →
  result (time_of_text end_time) = Return te →
  (∀ r, result (get_articles bot fuel board count (Some start_time) (Some end_time))
        = Return r →
        Forall (λ a, in_time_range ts te a = true
                     ∧ ∃ i, 1 <= i ∧ post_at_index bot board None i = Some a) r) ∧
  (∀ count',
     get_articles bot fuel board count' (Some start_time) (Some end_time)
     = get_articles bot fuel board count (Some start_time) (Some end_time)) ∧
  (∀ r, result (search_by_comment_content bot fuel board key count
                  (Some start_time) (Some end_time)) = Return r →
        Forall (λ a, in_time_range ts te a = true
                     ∧ existsb (content_matches key) (default [] (comments a)) = true) r) ∧
  (∀ r, result (search_comments_by_author bot fuel board key
                  (Some start_time) (Some end_time) count) = Return r →
        Forall (λ a, in_time_range ts te a = true
                     ∧ existsb (author_matches key) (default [] (comments a)) = true) r).
Proof.
  intros Hs He Hts Hte.
  assert (∀ c, get_articles bot fuel board c (Some start_time) (Some end_time)
               = _get_articles_by_time_range bot fuel board start_time end_time None)
    as Hget.
  { intros c. unfold get_articles. simpl. by rewrite Hs, He. }
  assert (∀ (test : comment → bool) r all,
            result (get_articles bot fuel board count (Some start_time) (Some end_time))
            = Return all →
            r = filter_by_comments test all →
            Forall (λ a, in_time_range ts te a = true
                         ∧ existsb test (default [] (comments a)) = true) r) as Hboth.
  { intros test r all Hall ->. rewrite Hget in Hall.
    pose proof (windowed_results bot fuel board start_time end_time None ts te all
                  Hts Hte Hall) as Hwin.
    rewrite Forall_forall in Hwin. apply Forall_forall. intros a.
    rewrite filter_by_comments_filter. intros [Ha Hin]%list_elem_of_filter.
    split; [by apply Hwin|done]. }
  split_and!.
  - intros r Hr. rewrite Hget in Hr. by eapply windowed_results.
  - intros c. by rewrite !Hget.
  - intros r Hr. unfold search_by_comment_content in Hr.
    apply bind_return_inv in Hr as (all & Hall & Hret).
    eapply Hboth; [exact Hall|]. by injection Hret.
  - intros r Hr. unfold search_comments_by_author in Hr.
    apply bind_return_inv in Hr as (all & Hall & Hret).
    eapply Hboth; [exact Hall|]. by injection Hret.
Qed.

Lemma windowed_results_pass_the_window_witness :
  Str.truthy Fixtures.one_pm = true ∧ Str.truthy Fixtures.two_pm = true ∧
  result (time_of_text (H:=Fixtures.runtime) Fixtures.one_pm)
  = Return (Fixtures.at_time 13 0) ∧
  result (time_of_text (H:=Fixtures.runtime) Fixtures.two_pm)
  = Return (Fixtures.at_time 14 0) ∧
  result (get_articles (H:=Fixtures.runtime) Fixtures.afternoon_board 10
            Fixtures.gossiping 5 (Some Fixtures.one_pm) (Some Fixtures.two_pm))
  = Return [Fixtures.post "M.1000" "Sat Oct  4 13:30:00 2025"] ∧
  Forall (λ a, in_time_range (H:=Fixtures.runtime) (Fixtures.at_time 13 0)
                 (Fixtures.at_time 14 0) a = true
               ∧ ∃ i, 1 <= i ∧
                      post_at_index Fixtures.afternoon_board Fixtures.gossiping None i
                      = Some a)
    [Fixtures.post "M.1000" "Sat Oct  4 13:30:00 2025"].
Proof.
  split; [reflexivity|]. split; [reflexivity|].
  split; [reflexivity|]. split; [reflexivity|].
  assert (result (get_articles (H:=Fixtures.runtime) Fixtures.afternoon_board 10
                    Fixtures.gossiping 5 (Some Fixtures.one_pm) (Some Fixtures.two_pm))
          = Return [Fixtures.post "M.1000" "Sat Oct  4 13:30:00 2025"]) as Hrun
    by exact afternoon_window_result.
  split; [exact Hrun|].
  destruct (windowed_results_pass_the_window (H:=Fixtures.runtime)
              Fixtures.afternoon_board 10 Fixtures.gossiping Fixtures.keyword_push
              Fixtures.one_pm Fixtures.two_pm 5 (Fixtures.at_time 13 0)
              (Fixtures.at_time 14 0) eq_refl eq_refl eq_refl eq_refl) as (Hwin & _).
  apply Hwin. exact Hrun.
Defined.

(** ** The bracket covers the samples inside the window *)

Lemma time_leb_refl (t : time) : Time.leb t t = true.
Proof. apply time_leb_iff. lia. Qed.

Lemma time_ltb_not_leb (a b : time) : Time.ltb a b = true → Time.leb b a = false.
Proof.
  intros Hlt%time_ltb_iff. apply not_true_iff_false. intros Hle%time_leb_iff. lia.
Qed.

Lemma times_descend_lookup (samples : list sample) i j a b :
  times_descend samples →
  samples !! i = Some a → samples !! j = Some b → (i ≤ j)%nat →
  Time.leb (s_time b) (s_time a) = true.
Proof.
  intros Hsorted Hi Hj Hle.
  destruct (decide (i = j)) as [->|Hne]; [simplify_eq; apply time_leb_refl|].
  unfold times_descend in Hsorted.
  rewrite <-(take_drop_middle samples i a Hi) in Hsorted, Hj.
  apply StronglySorted_app_1_r, StronglySorted_cons in Hsorted as [Hall _].
  rewrite Forall_forall in Hall.
  assert (length (take i samples) = i) as Hlen.
  { apply length_take_le. apply lookup_lt_Some in Hi. lia. }
  rewrite lookup_app_r in Hj by lia. rewrite Hlen in Hj.
  destruct (j - i)%nat as [|k] eqn:Hk; [lia|]. simpl in Hj.
  by apply list_elem_of_lookup_2, Hall in Hj.
Qed.

Lemma scanned_lookup ws samples k s :
  samples !! k = Some s →
  (∀ c x, first_at_or_before ws samples = Some (c, x) → (k ≤ c)%nat) →
  scanned ws samples !! k = Some s.
Proof.
  intros Hk Hcut. unfold scanned.
  destruct (first_at_or_before ws samples) as [[c x]|]; [|done].
  apply lookup_take_Some. split; [done|]. specialize (Hcut c x eq_refl). lia.
Qed.

(** X15. When the times of day do not increase along a sample sequence, the
    bracket covers every sample strictly after the window's start and at or
    before its end: low <= index <= high. *)
Theorem bracket_covers_samples_in_window (newest stride : Z) (ws we : time)
    (samples : list sample) (s : sample) :
  sample_sequence newest samples →
  times_descend samples →
  (2 ≤ length samples)%nat →
  0 <= stride →
  s ∈ samples →
  Time.ltb ws (s_time s) = true →
  Time.leb (s_time s) we = true →
  ∃ low high,
    result (locate ws we stride samples) = Return (Some (low, high)) ∧
    low <= s_index s <= high.
Proof.
  intros Hseq Htimes Hlen Hs Hin Hafter Hbefore.
  destruct (two_samples_ends samples Hlen) as (n & o & Hh & Hl).
  pose proof (locate_two_samples ws we stride samples n o Hlen Hh Hl) as Hr.
  eexists _, _. split; [exact Hr|].
  apply list_elem_of_lookup in Hin as [k Hk].
  pose proof (sample_sequence_lookup newest samples Hseq _ _ Hk) as Hidx.
  destruct Hseq as [_ Hsorted].
  rewrite last_lookup in Hl.
  assert (∀ c x, first_at_or_before ws samples = Some (c, x) → (k ≤ c)%nat) as Hcut.
  { intros c x [Hc Hle]%first_at_or_before_Some.
    destruct (decide (k ≤ c)%nat) as [?|Hgt]; [done|exfalso].
    pose proof (times_descend_lookup samples c k x s Htimes Hc Hk ltac:(lia)) as Hsx.
    pose proof (time_leb_trans _ _ _ Hsx Hle) as Hsw.
    by rewrite (time_ltb_not_leb _ _ Hafter) in Hsw. }
  split.
  - destruct (first_at_or_before ws samples) as [[c x]|] eqn:Hlo; simpl.
    + pose proof (Hcut c x eq_refl) as Hkc.
      apply first_at_or_before_Some in Hlo as [Hc _].
      pose proof (sorted_lookup_le samples k c s x Hsorted Hk Hc Hkc). lia.
    + assert (s_index o <= s_index s).
      { eapply sorted_lookup_le; [done|exact Hk|exact Hl|].
        apply lookup_lt_Some in Hk. lia. }
      lia.
  - pose proof (scanned_lookup ws samples k s Hk Hcut) as Hks.
    destruct (first_at_or_before we (scanned ws samples)) as [[j x]|] eqn:Hhi; simpl.
    + assert (j ≤ k)%nat as Hjk.
      { unfold first_at_or_before in Hhi.
        apply list_find_Some in Hhi as (_ & _ & Hfirst).
        destruct (decide (j ≤ k)%nat) as [?|Hgt]; [done|exfalso].
        by apply (Hfirst k s Hks ltac:(lia)). }
      apply first_in_scanned_lookup in Hhi as [Hj _].
      pose proof (sorted_lookup_le samples j k x s Hsorted Hj Hk Hjk). lia.
    + by rewrite (first_at_or_before_None _ _ _ _ Hhi Hks) in Hbefore.
Qed.

Lemma scenario_times_descend : times_descend Fixtures.scenario_samples.
Proof. repeat constructor. Qed.

(** The sample of 13:50 at index 800 in the window 13:00-14:00. *)
Lemma bracket_covers_samples_in_window_witness :
  sample_sequence 1000 Fixtures.scenario_samples ∧
  times_descend Fixtures.scenario_samples ∧
  (2 ≤ length Fixtures.scenario_samples)%nat ∧
  0 <= 100 ∧
  Fixtures.sample_at 800 13 50 ∈ Fixtures.scenario_samples ∧
  Time.ltb (Fixtures.at_time 13 0) (s_time (Fixtures.sample_at 800 13 50)) = true ∧
  Time.leb (s_time (Fixtures.sample_at 800 13 50)) (Fixtures.at_time 14 0) = true ∧
  ∃ low high,
    result (locate (Fixtures.at_time 13 0) (Fixtures.at_time 14 0) 100
              Fixtures.scenario_samples) = Return (Some (low, high)) ∧
    low <= s_index (Fixtures.sample_at 800 13 50) <= high.
Proof.
  assert (Fixtures.sample_at 800 13 50 ∈ Fixtures.scenario_samples) as Hin
    by (apply list_elem_of_In; simpl; right; right; left; reflexivity).
  split; [exact scenario_samples_sequence|].
  split; [exact scenario_times_descend|].
  split; [simpl; lia|]. split; [lia|]. split; [exact Hin|].
  split; [reflexivity|]. split; [reflexivity|].
  apply (bracket_covers_samples_in_window 1000 100 (Fixtures.at_time 13 0)
           (Fixtures.at_time 14 0) Fixtures.scenario_samples
           (Fixtures.sample_at 800 13 50));
    [exact scenario_samples_sequence|exact scenario_times_descend|simpl; lia|lia
    |exact Hin|reflexivity|reflexivity].
Defined.

(** ** Calendar date range, continued *)

Lemma lex_compare_le_trans (a b c : list Z) :
  lex_compare a b ≠ Gt → lex_compare b c ≠ Gt → lex_compare a c ≠ Gt.
Proof.
  revert b c. induction a as [|x a IH]; intros [|y b] [|z c]; simpl; try done.
  destruct (Z.compare_spec x y), (Z.compare_spec y z), (Z.compare_spec x z);
    try done; try lia. apply IH.
Qed.

Lemma datetime_leb_trans (a b c : datetime) :
  DateTime.leb a b = true → DateTime.leb b c = true → DateTime.leb a c = true.
Proof.
  unfold DateTime.leb, DateTime.compare. intros Hab Hbc.
  pose proof (lex_compare_le_trans (DateTime.fields a) (DateTime.fields b)
                (DateTime.fields c)) as Htrans.
  destruct (lex_compare (DateTime.fields a) (DateTime.fields b)),
    (lex_compare (DateTime.fields b) (DateTime.fields c)),
    (lex_compare (DateTime.fields a) (DateTime.fields c)); try done;
    by exfalso; apply Htrans.
Qed.

Lemma py_range_down_bounds (a b i : Z) : i ∈ py_range_down a b ↔ b < i <= a.
Proof. unfold py_range_down. rewrite elem_of_reverse, elem_of_seqZ. lia. Qed.

Lemma py_range_down_length (a b : Z) : length (py_range_down a b) = Z.to_nat (a - b).
Proof. unfold py_range_down. by rewrite length_reverse, length_seqZ. Qed.

Section DateScanFacts.

Context `{PyRuntime}.
Variable ptt_bot : Bot.
Variable board : pystr.
Variables start end_ : datetime.

Lemma up_to_older_cons i rest :
  up_to_older ptt_bot board start (i :: rest) =
  if older_post ptt_bot board start i then [i]
  else i :: up_to_older ptt_bot board start rest.
Proof.
  unfold up_to_older. simpl.
  destruct (older_post ptt_bot board start i) eqn:Ho.
  - rewrite decide_True by done. simpl. by rewrite take_0.
  - rewrite decide_False by congruence.
    by destruct (list_find _ rest) as [[k x]|].
Qed.

Lemma up_to_older_prefix indices :
  up_to_older ptt_bot board start indices `prefix_of` indices.
Proof.
  unfold up_to_older.
  destruct (list_find _ indices) as [[k x]|]; [apply prefix_take|done].
Qed.

(** The scan fetches the indices up to and including the first post older
    than [start], and returns those of the posts fetched that are dated
    within the window. *)
Lemma date_scan_run indices :
  ∃ l,
    date_scan ptt_bot board start end_ indices
    = (l, Return (omap (post_in_window ptt_bot board start end_)
                    (up_to_older ptt_bot board start indices))) ∧
    calls l = up_to_older ptt_bot board start indices.
Proof.
  induction indices as [|i rest (l & IH & Hcalls)]; [by exists []|].
  rewrite up_to_older_cons.
  assert (∀ older kept,
            older_post ptt_bot board start i = older →
            post_in_window ptt_bot board start end_ i = kept →
            omap (post_in_window ptt_bot board start end_)
              (if older then [i] else i :: up_to_older ptt_bot board start rest)
            = option_list kept
              ++ (if older then []
                  else omap (post_in_window ptt_bot board start end_)
                         (up_to_older ptt_bot board start rest))) as Homap.
  { intros older kept <- <-. destruct (older_post ptt_bot board start i);
      by rewrite omap_cons_option_list. }
  assert (∀ older kept,
            older_post ptt_bot board start i = older →
            post_in_window ptt_bot board start end_ i = kept →
            ∀ l', date_scan ptt_bot board start end_ (i :: rest)
                  = (l', Return (option_list kept
                           ++ (if older then []
                               else omap (post_in_window ptt_bot board start end_)
                                      (up_to_older ptt_bot board start rest)))) →
                  calls l' = (if older then [i]
                              else i :: up_to_older ptt_bot board start rest) →
            ∃ l0,
              date_scan ptt_bot board start end_ (i :: rest)
              = (l0, Return
                       (omap (post_in_window ptt_bot board start end_)
                          (if older_post ptt_bot board start i then [i]
                           else i :: up_to_older ptt_bot board start rest))) ∧
              calls l0 = (if older_post ptt_bot board start i then [i]
                          else i :: up_to_older ptt_bot board start rest)) as Hclose.
  { intros older kept <- <- l' Hrun Hc. exists l'.
    by rewrite (Homap _ _ eq_refl eq_refl). }
  clear Homap. revert Hclose.
  unfold older_post, post_in_window, post_at_index, parsed_date.
  cbn [date_scan]. unfold fetch. rewrite IH.
  destruct (get_post ptt_bot board i None) as [| |a]; cbn [bind ret print];
    intros Hclose.
  - eapply (Hclose false None); [done|done|reflexivity|]. simpl. by rewrite Hcalls.
  - eapply (Hclose false None); [done|done|reflexivity|]. simpl. by rewrite Hcalls.
  - destruct (date_str (date a)) as [s|].
    2: { eapply (Hclose false None); [done|done|reflexivity|].
         simpl. by rewrite Hcalls. }
    destruct (strptime FmtPost s) as [d|].
    2: { eapply (Hclose false None); [done|done|reflexivity|].
         simpl. by rewrite Hcalls. }
    destruct (DateTime.leb start d) eqn:Hsd.
    + rewrite (datetime_leb_not_ltb _ _ Hsd) in *.
      destruct (DateTime.leb d end_).
      * eapply (Hclose false (Some a)); [done|done|reflexivity|].
        simpl. by rewrite calls_app, Hcalls, app_nil_r.
      * eapply (Hclose false None); [done|done|reflexivity|].
        simpl. by rewrite Hcalls.
    + destruct (DateTime.ltb d start).
      * by eapply (Hclose true None).
      * eapply (Hclose false None); [done|done|reflexivity|].
        simpl. by rewrite Hcalls.
Qed.

End DateScanFacts.

Section DateRangeRuns.

Context `{PyRuntime}.
Variable ptt_bot : Bot.
Variable board : pystr.

Lemma get_articles_by_date_range_run start_date end_date start end_ newest :
  strptime FmtDate start_date = Some start →
  strptime FmtDate end_date = Some end_ →
  get_newest_index ptt_bot board None = Some newest →
  ∃ l,
    get_articles_by_date_range ptt_bot board start_date end_date
    = (CallNewestIndex None :: l,
       Return (omap (post_in_window ptt_bot board start end_)
                 (up_to_older ptt_bot board start
                    (py_range_down newest (Z.max 1 (newest - 1000)))))) ∧
    calls l = up_to_older ptt_bot board start
                (py_range_down newest (Z.max 1 (newest - 1000))).
Proof.
  intros Hs He Hn.
  unfold get_articles_by_date_range, parse_date, call_newest_index.
  rewrite Hs, He, Hn. simpl.
  destruct (date_scan_run ptt_bot board start end_
              (py_range_down newest (Z.max 1 (newest - 1000)))) as (l & -> & Hcalls).
  by exists l.
Qed.

(** A post older than [start] among the indices scanned is the last of them. *)
Lemma up_to_older_last start indices k i :
  up_to_older ptt_bot board start indices !! k = Some i →
  older_post ptt_bot board start i = true →
  length (up_to_older ptt_bot board start indices) = S k.
Proof.
  unfold up_to_older.
  destruct (list_find _ indices) as [[c x]|] eqn:Hfind.
  - apply list_find_Some in Hfind as (Hc & _ & Hfirst).
    intros [Hk Hlt]%lookup_take_Some Hold.
    rewrite length_take_le by (apply lookup_lt_Some in Hc; lia).
    destruct (decide (k = c)) as [->|Hne]; [done|].
    exfalso. apply (Hfirst k i Hk); [lia|done].
  - apply list_find_None in Hfind. rewrite Forall_forall in Hfind.
    intros Hk Hold. exfalso. apply (Hfind i); [|done].
    by eapply list_elem_of_lookup_2.
Qed.

Lemma post_in_window_Some start end_ i a :
  post_in_window ptt_bot board start end_ i = Some a →
  post_at_index ptt_bot board None i = Some a ∧
  ∃ d, parsed_date a = Some d ∧
       DateTime.leb start d = true ∧ DateTime.leb d end_ = true.
Proof.
  unfold post_in_window.
  destruct (post_at_index ptt_bot board None i) as [a'|]; [|done].
  destruct (parsed_date a') as [d|] eqn:Hd; [|done].
  destruct (DateTime.leb start d) eqn:Hsd; [|done].
  destruct (DateTime.leb d end_) eqn:Hde; [|done].
  simpl. intros [= <-]. split; [done|]. by exists d.
Qed.

End DateRangeRuns.

(** X16. When both dates parse and the session answers,
    [get_articles_by_date_range] fetches the indices from the newest one
    downwards up to and including the first post dated before the start,
    and returns, newest first, the posts fetched whose date parses to a
    timestamp between the parsed start and end, both included. A post dated
    before the start ends the scan: it is the last index fetched. *)
Theorem date_range_returns_posts_in_window `{PyRuntime} (bot : Bot)
    (board start_date end_date : pystr) (start end_ : datetime) (newest : Z) :
  strptime FmtDate start_date = Some start →
  strptime FmtDate end_date = Some end_ →
  get_newest_index bot board None = Some newest →
  result (get_articles_by_date_range bot board start_date end_date)
  = Return (omap (post_in_window bot board start end_)
              (calls (trace (get_articles_by_date_range bot board start_date end_date)))) ∧
  calls (trace (get_articles_by_date_range bot board start_date end_date))
  = up_to_older bot board start (py_range_down newest (Z.max 1 (newest - 1000))) ∧
  (∀ a, a ∈ omap (post_in_window bot board start end_)
              (calls (trace (get_articles_by_date_range bot board start_date end_date))) →
        ∃ i d,
          i ∈ calls (trace (get_articles_by_date_range bot board start_date end_date)) ∧
          post_at_index bot board None i = Some a ∧
          parsed_date a = Some d ∧
          DateTime.leb start d = true ∧ DateTime.leb d end_ = true) ∧
  (∀ k i,
     calls (trace (get_articles_by_date_range bot board start_date end_date)) !! k
     = Some i →
     older_post bot board start i = true →
     length (calls (trace (get_articles_by_date_range bot board start_date end_date)))
     = S k).
Proof.
  intros Hs He Hn.
  destruct (get_articles_by_date_range_run bot board start_date end_date start end_
              newest Hs He Hn) as (l & -> & Hcalls).
  change (calls (trace (CallNewestIndex None :: l, _))) with (calls l).
  rewrite Hcalls. split_and!; [done|done| |].
  - intros a (i & Hi & Ha)%list_elem_of_omap.
    apply post_in_window_Some in Ha as (Hpost & d & Hd & Hsd & Hde).
    by exists i, d.
  - apply up_to_older_last.
Qed.

Lemma date_range_returns_posts_in_window_witness :
  strptime (PyRuntime:=Fixtures.runtime) FmtDate (Fixtures.ascii "2025-10-01")
  = Some (mk_datetime 2025 10 1 0 0 0) ∧
  strptime (PyRuntime:=Fixtures.runtime) FmtDate (Fixtures.ascii "2025-10-03")
  = Some (mk_datetime 2025 10 3 0 0 0) ∧
  get_newest_index Fixtures.october_board Fixtures.gossiping None = Some 6 ∧
  calls (trace (get_articles_by_date_range (H:=Fixtures.runtime) Fixtures.october_board
                  Fixtures.gossiping (Fixtures.ascii "2025-10-01")
                  (Fixtures.ascii "2025-10-03")))
  = up_to_older (H:=Fixtures.runtime) Fixtures.october_board Fixtures.gossiping
      (mk_datetime 2025 10 1 0 0 0) (py_range_down 6 (Z.max 1 (6 - 1000))).
Proof.
  split; [reflexivity|]. split; [reflexivity|]. split; [reflexivity|].
  destruct (date_range_returns_posts_in_window (H:=Fixtures.runtime)
              Fixtures.october_board Fixtures.gossiping (Fixtures.ascii "2025-10-01")
              (Fixtures.ascii "2025-10-03") (mk_datetime 2025 10 1 0 0 0)
              (mk_datetime 2025 10 3 0 0 0) 6 eq_refl eq_refl eq_refl)
    as (_ & Hcalls & _).
  exact Hcalls.
Defined.

(** X17. [get_articles_by_date_range] fetches at most 1000 indices, all of
    them above max(1, newest - 1000) and at most the newest: the board's
    first post, index 1, is never looked at. *)
Theorem date_range_scan_bounds `{PyRuntime} (bot : Bot)
    (board start_date end_date : pystr) (start end_ : datetime) (newest : Z) :
  strptime FmtDate start_date = Some start →
  strptime FmtDate end_date = Some end_ →
  get_newest_index bot board None = Some newest →
  Forall (λ i, Z.max 1 (newest - 1000) < i <= newest)
    (calls (trace (get_articles_by_date_range bot board start_date end_date))) ∧
  (length (calls (trace (get_articles_by_date_range bot board start_date end_date)))
   ≤ 1000)%nat ∧
  1 ∉ calls (trace (get_articles_by_date_range bot board start_date end_date)).
Proof.
  intros Hs He Hn.
  destruct (get_articles_by_date_range_run bot board start_date end_date start end_
              newest Hs He Hn) as (l & -> & Hcalls).
  change (calls (trace (CallNewestIndex None :: l, _))) with (calls l).
  rewrite Hcalls.
  pose proof (up_to_older_prefix bot board start
                (py_range_down newest (Z.max 1 (newest - 1000)))) as Hprefix.
  assert (∀ i, i ∈ up_to_older bot board start
                     (py_range_down newest (Z.max 1 (newest - 1000))) →
               Z.max 1 (newest - 1000) < i <= newest) as Hin.
  { intros i Hi. apply py_range_down_bounds.
    destruct Hprefix as [k ->]. apply elem_of_app. by left. }
  split_and!.
  - by apply Forall_forall.
  - apply prefix_length in Hprefix. rewrite py_range_down_length in Hprefix. lia.
  - intros H1%Hin. lia.
Qed.

Lemma date_range_scan_bounds_witness :
  strptime (PyRuntime:=Fixtures.runtime) FmtDate (Fixtures.ascii "2025-10-01")
  = Some (mk_datetime 2025 10 1 0 0 0) ∧
  strptime (PyRuntime:=Fixtures.runtime) FmtDate (Fixtures.ascii "2025-10-03")
  = Some (mk_datetime 2025 10 3 0 0 0) ∧
  get_newest_index Fixtures.october_board Fixtures.gossiping None = Some 6 ∧
  Forall (λ i, Z.max 1 (6 - 1000) < i <= 6)
    (calls (trace (get_articles_by_date_range (H:=Fixtures.runtime)
                     Fixtures.october_board Fixtures.gossiping
                     (Fixtures.ascii "2025-10-01") (Fixtures.ascii "2025-10-03")))) ∧
  (length (calls (trace (get_articles_by_date_range (H:=Fixtures.runtime)
                           Fixtures.october_board Fixtures.gossiping
                           (Fixtures.ascii "2025-10-01") (Fixtures.ascii "2025-10-03"))))
   ≤ 1000)%nat ∧
  1 ∉ calls (trace (get_articles_by_date_range (H:=Fixtures.runtime)
                      Fixtures.october_board Fixtures.gossiping
                      (Fixtures.ascii "2025-10-01") (Fixtures.ascii "2025-10-03"))).
Proof.
  split; [reflexivity|]. split; [reflexivity|]. split; [reflexivity|].
  apply (date_range_scan_bounds (H:=Fixtures.runtime) Fixtures.october_board
           Fixtures.gossiping (Fixtures.ascii "2025-10-01") (Fixtures.ascii "2025-10-03")
           (mk_datetime 2025 10 1 0 0 0) (mk_datetime 2025 10 3 0 0 0) 6);
    reflexivity.
Defined.

Lemma omap_all_None {A B} (f : A → option B) (l : list A) :
  (∀ x, f x = None) → omap f l = [].
Proof.
  intros Hnone. induction l as [|x l IH]; [done|].
  rewrite omap_cons_option_list, Hnone, IH. done.
Qed.

(** X18. [get_articles_by_date_range] raises [ValueError] before any
    session call when a date does not parse, and lets the session's
    exception through when the newest index cannot be had. With an end date
    before the start date it raises nothing and returns the empty list. *)
Theorem date_range_edge_cases `{PyRuntime} (bot : Bot)
    (board start_date end_date : pystr) :
  (strptime FmtDate start_date = None ∨
   (is_Some (strptime FmtDate start_date) ∧ strptime FmtDate end_date = None) →
   get_articles_by_date_range bot board start_date end_date = ([], Raise ValueError)) ∧
  (is_Some (strptime FmtDate start_date) → is_Some (strptime FmtDate end_date) →
   get_newest_index bot board None = None →
   get_articles_by_date_range bot board start_date end_date
   = ([CallNewestIndex None], Raise ApiError)) ∧
  (∀ start end_ newest,
     strptime FmtDate start_date = Some start →
     strptime FmtDate end_date = Some end_ →
     get_newest_index bot board None = Some newest →
     DateTime.ltb end_ start = true →
     result (get_articles_by_date_range bot board start_date end_date) = Return []).
Proof.
  split_and!.
  - unfold get_articles_by_date_range, parse_date.
    intros [->|[[start ->] ->]]; done.
  - unfold get_articles_by_date_range, parse_date, call_newest_index.
    intros [start ->] [end_ ->] ->. done.
  - intros start end_ newest Hs He Hn Hlt.
    destruct (get_articles_by_date_range_run bot board start_date end_date start end_
                newest Hs He Hn) as (l & -> & _).
    simpl. f_equal. apply omap_all_None. intros i.
    destruct (post_in_window bot board start end_ i) as [a|] eqn:Ha; [|done].
    apply post_in_window_Some in Ha as (_ & d & _ & Hsd & Hde).
    pose proof (datetime_leb_trans _ _ _ Hsd Hde) as Hle.
    apply datetime_leb_not_ltb in Hle. congruence.
Qed.

(** The October board asked for 3 October back to 1 October. *)
Lemma date_range_edge_cases_witness :
  strptime (PyRuntime:=Fixtures.runtime) FmtDate (Fixtures.ascii "2025-10-03")
  = Some (mk_datetime 2025 10 3 0 0 0) ∧
  strptime (PyRuntime:=Fixtures.runtime) FmtDate (Fixtures.ascii "2025-10-01")
  = Some (mk_datetime 2025 10 1 0 0 0) ∧
  get_newest_index Fixtures.october_board Fixtures.gossiping None = Some 6 ∧
  DateTime.ltb (mk_datetime 2025 10 1 0 0 0) (mk_datetime 2025 10 3 0 0 0) = true ∧
  result (get_articles_by_date_range (H:=Fixtures.runtime) Fixtures.october_board
            Fixtures.gossiping (Fixtures.ascii "2025-10-03")
            (Fixtures.ascii "2025-10-01")) = Return [].
Proof.
  split; [reflexivity|]. split; [reflexivity|]. split; [reflexivity|].
  split; [reflexivity|].
  destruct (date_range_edge_cases (H:=Fixtures.runtime) Fixtures.october_board
              Fixtures.gossiping (Fixtures.ascii "2025-10-03")
              (Fixtures.ascii "2025-10-01")) as (_ & _ & Hempty).
  apply (Hempty (mk_datetime 2025 10 3 0 0 0) (mk_datetime 2025 10 1 0 0 0) 6);
    reflexivity.
Defined.

(** ** The task runner *)

Lemma written_app (l1 l2 : list runner_event) :
  written (l1 ++ l2) = written l1 ++ written l2.
Proof. apply omap_app. Qed.

Lemma pauses_app (l1 l2 : list runner_event) : pauses (l1 ++ l2) = (pauses l1 + pauses l2)%nat.
Proof. unfold pauses. by rewrite omap_app, length_app. Qed.

Lemma written_crawler (l : list event) : written (Crawler <$> l) = [].
Proof. induction l as [|e l IH]; [done|]. simpl. exact IH. Qed.

Lemma pauses_crawler (l : list event) : pauses (Crawler <$> l) = 0%nat.
Proof. induction l as [|e l IH]; [done|]. simpl. exact IH. Qed.

(** *** Every crawler call returns or raises, given the fuel *)

Lemma bind_halts {A B} (m : M A) (f : A → M B) :
  result m ≠ OutOfFuel →
  (∀ a, result m = Return a → result (f a) ≠ OutOfFuel) →
  result (bind m f) ≠ OutOfFuel.
Proof.
  destruct m as [l [a|e|]]; simpl; [|done..].
  intros _ Hf. specialize (Hf a eq_refl). by destruct (f a).
Qed.

Lemma runner_bind_halts {A B} (m : RM A) (f : A → RM B) :
  snd m ≠ Diverged → (∀ a, snd (f a) ≠ Diverged) → snd (Runner.bind m f) ≠ Diverged.
Proof.
  destruct m as [l [a|e|]]; simpl; [|done..].
  intros _ Hf. specialize (Hf a). by destruct (f a).
Qed.

Lemma crawl_halts {A} (m : M A) :
  result m ≠ OutOfFuel → snd (Runner.crawl m) ≠ Diverged.
Proof. destruct m as [l [a|e|]]; done. Qed.

Section Halting.

Context `{PyRuntime}.
Variable ptt_bot : Bot.
Variable fuel : nat.

Hypothesis fuel_covers :
  ∀ board sl n,
    get_newest_index ptt_bot board sl = Some n →
    n <= Z.of_nat fuel * default_sample_interval.

Lemma parse_hhmm_halts s : result (parse_hhmm s) ≠ OutOfFuel.
Proof. unfold parse_hhmm. by repeat case_match. Qed.

Lemma make_time_halts hm : result (make_time hm) ≠ OutOfFuel.
Proof. unfold make_time. by repeat case_match. Qed.

Lemma call_newest_index_halts board sl :
  result (call_newest_index ptt_bot board sl) ≠ OutOfFuel.
Proof. unfold call_newest_index. simpl. by case_match. Qed.

Lemma fetch_all_halts board sl indices :
  result (fetch_all ptt_bot board sl indices) ≠ OutOfFuel.
Proof. by destruct (fetch_all_returns ptt_bot board sl indices) as (l & r & -> & _). Qed.

Lemma locate_halts ws we stride samples : result (locate ws we stride samples) ≠ OutOfFuel.
Proof. unfold locate. by repeat case_match. Qed.

Lemma find_article_range_by_time_halts board start_time end_time sl :
  result (find_article_range_by_time ptt_bot fuel board start_time end_time sl
            default_sample_interval) ≠ OutOfFuel.
Proof.
  unfold find_article_range_by_time.
  apply bind_halts; [apply parse_hhmm_halts|intros shm _].
  apply bind_halts; [apply parse_hhmm_halts|intros ehm _].
  apply bind_halts; [apply make_time_halts|intros ts _].
  apply bind_halts; [apply make_time_halts|intros te _].
  apply bind_halts; [apply call_newest_index_halts|intros newest Hn].
  apply call_newest_index_inv, fuel_covers in Hn.
  apply bind_halts; [done|intros _ _].
  apply bind_halts; [done|intros _ _].
  apply bind_halts; [|intros st _; apply locate_halts].
  destruct (sample_loop_run ptt_bot board sl ts default_sample_interval fuel newest [])
    as (l & st & n & -> & _); done.
Qed.

Lemma get_articles_by_time_range_halts board start_time end_time sl :
  result (_get_articles_by_time_range ptt_bot fuel board start_time end_time sl)
  ≠ OutOfFuel.
Proof.
  unfold _get_articles_by_time_range.
  apply bind_halts; [apply find_article_range_by_time_halts|intros [[lo hi]|] _].
  - apply bind_halts; [done|intros _ _].
    apply bind_halts; [apply fetch_all_halts|intros all_articles _].
    apply bind_halts; [apply parse_hhmm_halts|intros shm _].
    apply bind_halts; [apply parse_hhmm_halts|intros ehm _].
    apply bind_halts; [apply make_time_halts|intros ts _].
    apply bind_halts; [apply make_time_halts|intros te _].
    done.
  - done.
Qed.

Lemma get_articles_halts board count start_time end_time :
  result (get_articles ptt_bot fuel board count start_time end_time) ≠ OutOfFuel.
Proof.
  unfold get_articles. case_match; [apply get_articles_by_time_range_halts|].
  apply bind_halts; [apply call_newest_index_halts|intros newest _].
  apply fetch_all_halts.
Qed.

Lemma search_by_halts ty board key count start_time end_time :
  result (search_by ptt_bot ty fuel board key count start_time end_time) ≠ OutOfFuel.
Proof.
  unfold search_by. case_match; [apply get_articles_by_time_range_halts|].
  apply bind_halts.
  - unfold call_newest_index, catch, bind. simpl.
    by destruct (get_newest_index ptt_bot board (Some (ty, key))).
  - intros [newest|] _; [apply fetch_all_halts|done].
Qed.

Lemma date_scan_halts board start end_ indices :
  result (date_scan ptt_bot board start end_ indices) ≠ OutOfFuel.
Proof.
  by destruct (date_scan_run ptt_bot board start end_ indices) as (l & -> & _).
Qed.

Lemma get_articles_by_date_range_halts board start_date end_date :
  result (get_articles_by_date_range ptt_bot board start_date end_date) ≠ OutOfFuel.
Proof.
  unfold get_articles_by_date_range, parse_date.
  apply bind_halts; [by case_match|intros start _].
  apply bind_halts; [by case_match|intros end_ _].
  apply bind_halts; [apply call_newest_index_halts|intros newest _].
  apply date_scan_halts.
Qed.

Lemma get_article_by_index_halts board index :
  result (get_article_by_index ptt_bot board index) ≠ OutOfFuel.
Proof.
  unfold get_article_by_index, fetch, bind. simpl.
  by destruct (get_post ptt_bot board index None).
Qed.

Lemma task_results_halts k : snd (task_results ptt_bot fuel k) ≠ Diverged.
Proof.
  destruct k; cbv beta iota zeta delta [task_results];
    repeat first
      [ done
      | apply runner_bind_halts; [|intros ?]
      | apply crawl_halts
      | apply get_articles_halts
      | apply search_by_halts
      | apply get_articles_by_date_range_halts
      | apply get_article_by_index_halts
      | apply bind_halts; [apply get_articles_halts|done]
      | match goal with |- context [if ?b then _ else _] => destruct b end ].
Qed.

Lemma run_task_halts writable t options :
  snd (run_task ptt_bot writable fuel t options) ≠ Diverged.
Proof.
  unfold run_task.
  do 3 (apply runner_bind_halts; [done|intros _]).
  apply runner_bind_halts; [apply task_results_halts|intros [results|]]; [|done].
  apply runner_bind_halts; [done|intros _].
  apply runner_bind_halts; [|intros _].
  - unfold save_to_json. by repeat case_match.
  - unfold sleep_between. by repeat case_match.
Qed.

End Halting.

Section RunnerFacts.

Context `{PyRuntime}.
Variable ptt_bot : Bot.
Variable writable : pystr → bool.
Variable fuel : nat.
Variable options : option delay.

Lemma run_tasks_all (tasks : list task) :
  Forall (λ t, snd (run_task ptt_bot writable fuel t options) ≠ Diverged) tasks →
  run_tasks ptt_bot writable fuel tasks options
  = (concat (task_trace ptt_bot writable fuel options <$> tasks), Done tt).
Proof.
  induction tasks as [|t rest IH]; [done|].
  intros [Ht Hrest]%Forall_cons. simpl. rewrite (IH Hrest). unfold task_trace.
  destruct (run_task ptt_bot writable fuel t options) as [l [[]|e|]]; simpl in *;
    rewrite ?app_nil_r, <-?app_assoc; done.
Qed.

Lemma quiet_ret {A} (a : A) : quiet (Runner.ret a).
Proof. done. Qed.

Lemma quiet_print (e : runner_event) :
  match e with WriteJson _ _ | Sleep => False | _ => True end →
  quiet (Runner.print e).
Proof. by destruct e. Qed.

Lemma quiet_crawl {A} (m : M A) : quiet (Runner.crawl m).
Proof. split; [apply written_crawler | apply pauses_crawler]. Qed.

Lemma quiet_bind {A B} (m : RM A) (f : A → RM B) :
  quiet m → (∀ a, quiet (f a)) → quiet (Runner.bind m f).
Proof.
  unfold quiet. destruct m as [l [a|e|]]; simpl; [|done..].
  intros [Hw Hp] Hf. specialize (Hf a). destruct (f a) as [l' r]. simpl in *.
  rewrite written_app, pauses_app, Hw, Hp. by destruct Hf as [-> ->].
Qed.

Lemma task_results_quiet (k : task_kind) : quiet (task_results ptt_bot fuel k).
Proof.
  destruct k; cbv beta iota zeta delta [task_results];
    repeat first
      [ apply quiet_ret
      | apply quiet_crawl
      | apply quiet_print; exact I
      | apply quiet_bind; [|intros ?]
      | match goal with |- context [if ?b then _ else _] => destruct b end ].
Qed.

End RunnerFacts.

(** X19. The batch runner handles every task of the configuration in order
    and completes, whatever the tasks do: a task that raises is reported
    (the failure line and the traceback) and the tasks after it still run,
    and the closing banner counts all tasks, failed ones included. The files
    the batch writes are those its tasks write, in task order. The fuel is
    assumed to cover the sampling walk from every newest index the session
    reports, at the stride of 100. *)
Theorem batch_runs_every_task `{PyRuntime} (bot : Bot) (writable : pystr → bool)
    (fuel : nat) (tasks : list task) (options : option delay) :
  (∀ board sl n,
     get_newest_index bot board sl = Some n →
     n <= Z.of_nat fuel * default_sample_interval) →
  run_config bot writable fuel tasks options
  = (concat (task_trace bot writable fuel options <$> tasks)
       ++ [PrintBlankRule; PrintAllCompleted (length tasks); PrintRule],
     Done tt) ∧
  written (fst (run_config bot writable fuel tasks options))
  = concat ((λ t, written (fst (run_task bot writable fuel t options))) <$> tasks).
Proof.
  intros Hfuel.
  assert (run_config bot writable fuel tasks options
          = (concat (task_trace bot writable fuel options <$> tasks)
               ++ [PrintBlankRule; PrintAllCompleted (length tasks); PrintRule],
             Done tt)) as Hrun.
  { unfold run_config. rewrite run_tasks_all; [done|].
    apply Forall_forall. intros t _. by apply run_task_halts. }
  split; [done|]. rewrite Hrun. clear Hrun.
  change (fst (?l, _)) with l. rewrite written_app.
  change (written [_; _; _]) with (@nil (pystr * list article)). rewrite app_nil_r.
  induction tasks as [|t rest IH]; [done|].
  rewrite !fmap_cons, !concat_cons, written_app, IH. f_equal.
  unfold task_trace. rewrite written_app.
  destruct (snd (run_task bot writable fuel t options)); by rewrite app_nil_r.
Qed.

(** On the afternoon board, a windowed query with a malformed end time
    fails, and the reading of post 1000 after it still saves its file. *)
Lemma batch_runs_every_task_witness :
  run_config (H:=Fixtures.runtime) Fixtures.afternoon_board MoreFixtures.any_file 10
    [MoreFixtures.malformed_task; MoreFixtures.reading_task] None
  = (concat (task_trace (H:=Fixtures.runtime) Fixtures.afternoon_board
               MoreFixtures.any_file 10 None
               <$> [MoreFixtures.malformed_task; MoreFixtures.reading_task])
       ++ [PrintBlankRule; PrintAllCompleted 2; PrintRule],
     Done tt) ∧
  written (fst (run_config (H:=Fixtures.runtime) Fixtures.afternoon_board
                  MoreFixtures.any_file 10
                  [MoreFixtures.malformed_task; MoreFixtures.reading_task] None))
  = concat ((λ t, written (fst (run_task (H:=Fixtures.runtime) Fixtures.afternoon_board
                                  MoreFixtures.any_file 10 t None)))
              <$> [MoreFixtures.malformed_task; MoreFixtures.reading_task]).
Proof.
  apply (batch_runs_every_task (H:=Fixtures.runtime) Fixtures.afternoon_board
           MoreFixtures.any_file 10
           [MoreFixtures.malformed_task; MoreFixtures.reading_task] None).
  intros board sl n [= <-]. vm_compute. discriminate.
Defined.

(** X20. What one task leaves behind. A file is written exactly when the
    task type is known and its query returns, the task names a non-empty
    output file, the query found something, and the file can be opened; it
    then holds the query's results. The pause between tasks is made exactly
    when the task type is known, its query returns, saving did not fail and
    the delay is one time.sleep accepts; so a task of unknown type and a
    task whose query raises neither write nor pause. *)
Theorem task_saves_and_pauses `{PyRuntime} (bot : Bot) (writable : pystr → bool)
    (fuel : nat) (t : task) (options : option delay) :
  written (fst (run_task bot writable fuel t options)) =
  match snd (task_results bot fuel (kind t)) with
  | Done (Some results) =>
      if truthy_opt (output t) && nonempty results && writable (default [] (output t))
      then [(default [] (output t), results)]
      else []
  | _ => []
  end ∧
  pauses (fst (run_task bot writable fuel t options)) =
  match snd (task_results bot fuel (kind t)) with
  | Done (Some results) =>
      if (negb (truthy_opt (output t) && nonempty results)
          || writable (default [] (output t)))
         && accepts options
      then 1%nat else 0%nat
  | _ => 0%nat
  end.
Proof.
  unfold run_task. pose proof (task_results_quiet bot fuel (kind t)) as [Hw Hp].
  destruct (task_results bot fuel (kind t)) as [l [[results|]|e|]].
  - unfold save_to_json, sleep_between.
    destruct (truthy_opt (output t)); destruct results as [|r rs];
      destruct (writable (default [] (output t)));
      destruct options as [[|e']|]; simpl in *;
      rewrite ?(written_app l), ?Hw; (split; [done|]);
      unfold pauses in *; simpl; rewrite ?omap_app, ?length_app, ?Hp; done.
  - simpl in *. rewrite ?(written_app l), ?Hw; (split; [done|]);
      unfold pauses in *; simpl; rewrite ?omap_app, ?length_app, ?Hp; done.
  - simpl in *. rewrite ?(written_app l), ?Hw; (split; [done|]);
      unfold pauses in *; simpl; rewrite ?omap_app, ?length_app, ?Hp; done.
  - simpl in *. rewrite ?(written_app l), ?Hw; (split; [done|]);
      unfold pauses in *; simpl; rewrite ?omap_app, ?length_app, ?Hp; done.
Qed.
